(** * The Gravity object runtime (Src/OSF/gravity/src/gravity_core.c)

    A shallow embedding of the native functions of the core classes: value
    conversions, the Object load/store/bind primitives, the List, Map and
    Range collection natives, the Fiber scheduler natives and the Null
    operators, followed by the properties proved about them.

    Conventions.
    - Integers are [Z]; the fixed-width casts of the source are written out
      ([wrap64], [to_uint32], [to_int32]).
    - [gravity_float_t] is IEEE binary64, taken from the Standard Library's
      [SpecFloat] (the GRAVITY_ENABLE_DOUBLE build).
    - A [GravityValue] carries its [isa] tag and its payload; heap objects are
      addressed by [ref] in per-kind stores of the [gravity_vm].
    - A native returns the macro it ends with ([RETURN_VALUE], [RETURN_ERROR],
      ...) together with the machine after the statements it executed. *)

From Stdlib Require Import ZArith String Ascii List Bool Lia.
From Stdlib Require Import Floats.SpecFloat.
From Stdlib Require Import Numbers.DecimalString.
From stdpp Require Import gmap strings list fin_maps.
From Equations Require Import Equations.

Open Scope Z_scope.

(** ** Machine integers *)

Definition INT64_MIN : Z := - 2 ^ 63.
Definition INT64_MAX : Z := 2 ^ 63 - 1.

(** [gravity_int_t] arithmetic: two's complement, 64 bits. *)
Definition wrap64 (z : Z) : Z := (z + 2 ^ 63) mod 2 ^ 64 - 2 ^ 63.

(** The casts [(uint32)], [(int32)] and [(uint64_t)]. *)
Definition to_uint32 (z : Z) : Z := z mod 2 ^ 32.
Definition to_int32 (z : Z) : Z := (z + 2 ^ 31) mod 2 ^ 32 - 2 ^ 31.
Definition to_uint64 (z : Z) : Z := z mod 2 ^ 64.

(** ** Floating point *)

Definition gravity_float_t : Type := spec_float.

Definition float_prec : Z := 53.
Definition float_emax : Z := 1024.

Definition float_zero : gravity_float_t := S754_zero false.

(** [(gravity_float_t)n] for an integer [n]: round to nearest even. *)
Definition float_of_int (n : Z) : gravity_float_t :=
  binary_normalize float_prec float_emax n 0 false.

(** [(gravity_int_t)f]: truncation toward zero.  Infinities, NaN and values
    out of range are undefined in C; x86-64 yields INT64_MIN there. *)
Definition int_of_float (f : gravity_float_t) : Z :=
  match f with
  | S754_zero _ => 0
  | S754_finite s m e =>
      let a := if 0 <=? e then Z.pos m * 2 ^ e else Z.pos m / 2 ^ (- e) in
      let z := if s then - a else a in
      if (INT64_MIN <=? z) && (z <=? INT64_MAX) then z else INT64_MIN
  | S754_infinity _ | S754_nan => INT64_MIN
  end.

(** [f != 0.0], [a > b], [a < b] on doubles. *)
Definition float_is_nonzero (f : gravity_float_t) : bool :=
  negb (SFeqb f float_zero).
Definition float_gt (a b : gravity_float_t) : bool := SFltb b a.
Definition float_lt (a b : gravity_float_t) : bool := SFltb a b.

(** The conversion of a single precision number to [gravity_float_t]: the
    same number, which is exact, in the representation of binary64 (mantissa
    of 53 bits), the one the comparisons of [gravity_float_t] read. *)
Definition float_of_single (f : spec_float) : gravity_float_t :=
  match f with
  | S754_finite s m e =>
      binary_normalize float_prec float_emax (if s then Z.neg m else Z.pos m) e s
  | _ => f
  end.

(** [(nanotime() - lasttime) / 1000000000.0f], with [nanotime_t] an unsigned
    64-bit count: the difference is converted to single precision, divided
    in single precision, and the quotient widened (exactly) to
    [gravity_float_t]. *)
Definition elapsed_seconds (now lasttime : Z) : gravity_float_t :=
  float_of_single
    (SFdiv 24 128
       (binary_normalize 24 128 (to_uint64 (now - lasttime)) 0 false)
       (binary_normalize 24 128 1000000000 0 false)).

(** ** Values *)

(** Object addresses. *)
Abbreviation ref := nat (only parsing).

(** The [isa] tag of an object reference. *)
Inductive object_kind : Type :=
| KList | KMap | KRange | KFunction | KClosure | KFiber | KClass | KInstance.

(** [GravityValue]: the [isa] tag with the payload [n], [f] or [p].  String
    objects are never mutated by the functions embedded here, so a string
    value carries its characters.  [VALUE_FROM_ERROR] is the value with a
    null [isa] that [VALUE_FROM_ERROR(NULL)] builds; [!v] tests for it. *)
Inductive GravityValue : Type :=
| from_int (n : Z)
| from_float (f : gravity_float_t)
| VALUE_FROM_BOOL (b : bool)
| from_null
| from_undefined
| VALUE_FROM_STRING (s : string)
| VALUE_FROM_OBJECT (k : object_kind) (p : ref)
| VALUE_FROM_ERROR.

Definition VALUE_FROM_FALSE : GravityValue := VALUE_FROM_BOOL false.
Definition VALUE_FROM_TRUE : GravityValue := VALUE_FROM_BOOL true.

Definition IsInt (v : GravityValue) : bool :=
  match v with from_int _ => true | _ => false end.
Definition IsFloat (v : GravityValue) : bool :=
  match v with from_float _ => true | _ => false end.
Definition IsBool (v : GravityValue) : bool :=
  match v with VALUE_FROM_BOOL _ => true | _ => false end.
Definition VALUE_ISA_NULL (v : GravityValue) : bool :=
  match v with from_null => true | _ => false end.
Definition VALUE_ISA_UNDEFINED (v : GravityValue) : bool :=
  match v with from_undefined => true | _ => false end.
Definition IsString (v : GravityValue) : bool :=
  match v with VALUE_FROM_STRING _ => true | _ => false end.
Definition IsList (v : GravityValue) : bool :=
  match v with VALUE_FROM_OBJECT KList _ => true | _ => false end.
Definition IsMap (v : GravityValue) : bool :=
  match v with VALUE_FROM_OBJECT KMap _ => true | _ => false end.
Definition IsRange (v : GravityValue) : bool :=
  match v with VALUE_FROM_OBJECT KRange _ => true | _ => false end.
Definition IsFunction (v : GravityValue) : bool :=
  match v with VALUE_FROM_OBJECT KFunction _ => true | _ => false end.
Definition IsClosure (v : GravityValue) : bool :=
  match v with VALUE_FROM_OBJECT KClosure _ => true | _ => false end.
Definition IsFiber (v : GravityValue) : bool :=
  match v with VALUE_FROM_OBJECT KFiber _ => true | _ => false end.
Definition IsClass (v : GravityValue) : bool :=
  match v with VALUE_FROM_OBJECT KClass _ => true | _ => false end.
Definition IsInstance (v : GravityValue) : bool :=
  match v with VALUE_FROM_OBJECT KInstance _ => true | _ => false end.

(** [!v]: the value is not valid. *)
Definition is_error (v : GravityValue) : bool :=
  match v with VALUE_FROM_ERROR => true | _ => false end.

(** ** Heap objects *)

Inductive gravity_exec_type : Type :=
| EXEC_TYPE_NATIVE | EXEC_TYPE_INTERNAL | EXEC_TYPE_BRIDGED | EXEC_TYPE_SPECIAL.

(** The C functions a function object can point to through [f->internal];
    the source compares these pointers ([f->internal == convert_object_int]). *)
Inductive gravity_c_internal : Type :=
| FN_convert_object_int
| FN_convert_object_float
| FN_convert_object_bool
| FN_convert_object_string
| FN_object_load
| FN_object_store
| FN_object_notfound
| FN_object_bind
| FN_other (id : nat).

Definition c_internal_eqb (a b : gravity_c_internal) : bool :=
  match a, b with
  | FN_convert_object_int, FN_convert_object_int => true
  | FN_convert_object_float, FN_convert_object_float => true
  | FN_convert_object_bool, FN_convert_object_bool => true
  | FN_convert_object_string, FN_convert_object_string => true
  | FN_object_load, FN_object_load => true
  | FN_object_store, FN_object_store => true
  | FN_object_notfound, FN_object_notfound => true
  | FN_object_bind, FN_object_bind => true
  | FN_other i, FN_other j => Nat.eqb i j
  | _, _ => false
  end.

(** [gravity_function_t]: [f_internal] is read when the tag is
    EXEC_TYPE_INTERNAL; [f_index] and the getter/setter pair [f_special]
    when it is EXEC_TYPE_SPECIAL. *)
Record gravity_function_t : Type := {
  f_identifier : option string;
  f_tag : gravity_exec_type;
  f_nparams : Z;
  f_internal : option gravity_c_internal;
  f_index : Z;
  f_special_getter : option ref;
  f_special_setter : option ref
}.

(** [gravity_closure_t]: the function [f] (a null [f] is [None]) and the
    captured [context]. *)
Record gravity_closure_t : Type := {
  cl_f : option gravity_function_t;
  cl_context : option ref
}.

Record gravity_class_t : Type := {
  c_identifier : option string;
  c_superclass : option ref;
  c_objclass : ref;
  c_nivars : Z;
  c_ivars : list GravityValue;
  c_htable : gmap string GravityValue;
  c_is_inited : bool;
  c_is_struct : bool;
  c_xdata : option nat
}.

Record gravity_instance_t : Type := {
  i_objclass : ref;
  i_xdata : option nat;
  i_ivars : list GravityValue
}.

Record gravity_range_t : Type := {
  r_from : Z;
  r_to : Z
}.

(** The status codes listed in [fiber_status]. *)
Inductive gravity_fiber_status : Type :=
| FIBER_NEVER_EXECUTED
| FIBER_ABORTED_WITH_ERROR
| FIBER_TERMINATED
| FIBER_RUNNING
| FIBER_TRYING.

Definition fiber_status_code (s : gravity_fiber_status) : Z :=
  match s with
  | FIBER_NEVER_EXECUTED => 0
  | FIBER_ABORTED_WITH_ERROR => 1
  | FIBER_TERMINATED => 2
  | FIBER_RUNNING => 3
  | FIBER_TRYING => 4
  end.

Record gravity_fiber_t : Type := {
  fb_caller : option ref;
  fb_trying : bool;
  fb_status : gravity_fiber_status;
  fb_timewait : gravity_float_t;
  fb_lasttime : Z;
  fb_elapsedtime : gravity_float_t;
  fb_nframes : Z;
  fb_error : option string
}.

(** ** The virtual machine

    The stores hold the objects of each kind.  [vm_fiber] is the fiber being
    executed ([gravity_vm_fiber], [gravity_vm_setfiber]); [vm_slots] the
    registers written by [gravity_vm_setslot]; [vm_result] what
    [gravity_vm_result] returns; [vm_closure] the closure being executed
    ([gravity_vm_getclosure]); [vm_clock] counts the readings of [nanotime].
    [vm_calls] is a ghost log of the closure invocations the natives make
    through [gravity_vm_runclosure]: closure, receiver, arguments. *)
Record gravity_vm : Type := {
  vm_classes : gmap ref gravity_class_t;
  vm_instances : gmap ref gravity_instance_t;
  vm_lists : gmap ref (list GravityValue);
  vm_maps : gmap ref (list (GravityValue * GravityValue));
  vm_ranges : gmap ref gravity_range_t;
  vm_functions : gmap ref gravity_function_t;
  vm_closures : gmap ref gravity_closure_t;
  vm_fibers : gmap ref gravity_fiber_t;
  vm_fiber : ref;
  vm_slots : gmap nat GravityValue;
  vm_result : GravityValue;
  vm_closure : option ref;
  vm_aborted : bool;
  vm_gc_enabled : bool;
  vm_globals : gmap string GravityValue;
  vm_clock : nat;
  vm_calls : list (ref * GravityValue * list GravityValue)
}.

Definition set_classes (x : gmap ref gravity_class_t) (vm : gravity_vm) : gravity_vm :=
  {| vm_classes := x; vm_instances := vm_instances vm; vm_lists := vm_lists vm;
     vm_maps := vm_maps vm; vm_ranges := vm_ranges vm; vm_functions := vm_functions vm;
     vm_closures := vm_closures vm; vm_fibers := vm_fibers vm; vm_fiber := vm_fiber vm;
     vm_slots := vm_slots vm; vm_result := vm_result vm; vm_closure := vm_closure vm;
     vm_aborted := vm_aborted vm; vm_gc_enabled := vm_gc_enabled vm;
     vm_globals := vm_globals vm; vm_clock := vm_clock vm; vm_calls := vm_calls vm |}.

Definition set_instances (x : gmap ref gravity_instance_t) (vm : gravity_vm) : gravity_vm :=
  {| vm_classes := vm_classes vm; vm_instances := x; vm_lists := vm_lists vm;
     vm_maps := vm_maps vm; vm_ranges := vm_ranges vm; vm_functions := vm_functions vm;
     vm_closures := vm_closures vm; vm_fibers := vm_fibers vm; vm_fiber := vm_fiber vm;
     vm_slots := vm_slots vm; vm_result := vm_result vm; vm_closure := vm_closure vm;
     vm_aborted := vm_aborted vm; vm_gc_enabled := vm_gc_enabled vm;
     vm_globals := vm_globals vm; vm_clock := vm_clock vm; vm_calls := vm_calls vm |}.

Definition set_lists (x : gmap ref (list GravityValue)) (vm : gravity_vm) : gravity_vm :=
  {| vm_classes := vm_classes vm; vm_instances := vm_instances vm; vm_lists := x;
     vm_maps := vm_maps vm; vm_ranges := vm_ranges vm; vm_functions := vm_functions vm;
     vm_closures := vm_closures vm; vm_fibers := vm_fibers vm; vm_fiber := vm_fiber vm;
     vm_slots := vm_slots vm; vm_result := vm_result vm; vm_closure := vm_closure vm;
     vm_aborted := vm_aborted vm; vm_gc_enabled := vm_gc_enabled vm;
     vm_globals := vm_globals vm; vm_clock := vm_clock vm; vm_calls := vm_calls vm |}.

Definition set_fibers (x : gmap ref gravity_fiber_t) (vm : gravity_vm) : gravity_vm :=
  {| vm_classes := vm_classes vm; vm_instances := vm_instances vm; vm_lists := vm_lists vm;
     vm_maps := vm_maps vm; vm_ranges := vm_ranges vm; vm_functions := vm_functions vm;
     vm_closures := vm_closures vm; vm_fibers := x; vm_fiber := vm_fiber vm;
     vm_slots := vm_slots vm; vm_result := vm_result vm; vm_closure := vm_closure vm;
     vm_aborted := vm_aborted vm; vm_gc_enabled := vm_gc_enabled vm;
     vm_globals := vm_globals vm; vm_clock := vm_clock vm; vm_calls := vm_calls vm |}.

Definition set_slots (x : gmap nat GravityValue) (vm : gravity_vm) : gravity_vm :=
  {| vm_classes := vm_classes vm; vm_instances := vm_instances vm; vm_lists := vm_lists vm;
     vm_maps := vm_maps vm; vm_ranges := vm_ranges vm; vm_functions := vm_functions vm;
     vm_closures := vm_closures vm; vm_fibers := vm_fibers vm; vm_fiber := vm_fiber vm;
     vm_slots := x; vm_result := vm_result vm; vm_closure := vm_closure vm;
     vm_aborted := vm_aborted vm; vm_gc_enabled := vm_gc_enabled vm;
     vm_globals := vm_globals vm; vm_clock := vm_clock vm; vm_calls := vm_calls vm |}.

Definition set_gc_enabled (x : bool) (vm : gravity_vm) : gravity_vm :=
  {| vm_classes := vm_classes vm; vm_instances := vm_instances vm; vm_lists := vm_lists vm;
     vm_maps := vm_maps vm; vm_ranges := vm_ranges vm; vm_functions := vm_functions vm;
     vm_closures := vm_closures vm; vm_fibers := vm_fibers vm; vm_fiber := vm_fiber vm;
     vm_slots := vm_slots vm; vm_result := vm_result vm; vm_closure := vm_closure vm;
     vm_aborted := vm_aborted vm; vm_gc_enabled := x;
     vm_globals := vm_globals vm; vm_clock := vm_clock vm; vm_calls := vm_calls vm |}.

Definition set_globals (x : gmap string GravityValue) (vm : gravity_vm) : gravity_vm :=
  {| vm_classes := vm_classes vm; vm_instances := vm_instances vm; vm_lists := vm_lists vm;
     vm_maps := vm_maps vm; vm_ranges := vm_ranges vm; vm_functions := vm_functions vm;
     vm_closures := vm_closures vm; vm_fibers := vm_fibers vm; vm_fiber := vm_fiber vm;
     vm_slots := vm_slots vm; vm_result := vm_result vm; vm_closure := vm_closure vm;
     vm_aborted := vm_aborted vm; vm_gc_enabled := vm_gc_enabled vm;
     vm_globals := x; vm_clock := vm_clock vm; vm_calls := vm_calls vm |}.

Definition set_clock (x : nat) (vm : gravity_vm) : gravity_vm :=
  {| vm_classes := vm_classes vm; vm_instances := vm_instances vm; vm_lists := vm_lists vm;
     vm_maps := vm_maps vm; vm_ranges := vm_ranges vm; vm_functions := vm_functions vm;
     vm_closures := vm_closures vm; vm_fibers := vm_fibers vm; vm_fiber := vm_fiber vm;
     vm_slots := vm_slots vm; vm_result := vm_result vm; vm_closure := vm_closure vm;
     vm_aborted := vm_aborted vm; vm_gc_enabled := vm_gc_enabled vm;
     vm_globals := vm_globals vm; vm_clock := x; vm_calls := vm_calls vm |}.

Definition set_calls (x : list (ref * GravityValue * list GravityValue)) (vm : gravity_vm)
  : gravity_vm :=
  {| vm_classes := vm_classes vm; vm_instances := vm_instances vm; vm_lists := vm_lists vm;
     vm_maps := vm_maps vm; vm_ranges := vm_ranges vm; vm_functions := vm_functions vm;
     vm_closures := vm_closures vm; vm_fibers := vm_fibers vm; vm_fiber := vm_fiber vm;
     vm_slots := vm_slots vm; vm_result := vm_result vm; vm_closure := vm_closure vm;
     vm_aborted := vm_aborted vm; vm_gc_enabled := vm_gc_enabled vm;
     vm_globals := vm_globals vm; vm_clock := vm_clock vm; vm_calls := x |}.

Definition gravity_vm_setfiber (vm : gravity_vm) (fiber : ref) : gravity_vm :=
  {| vm_classes := vm_classes vm; vm_instances := vm_instances vm; vm_lists := vm_lists vm;
     vm_maps := vm_maps vm; vm_ranges := vm_ranges vm; vm_functions := vm_functions vm;
     vm_closures := vm_closures vm; vm_fibers := vm_fibers vm; vm_fiber := fiber;
     vm_slots := vm_slots vm; vm_result := vm_result vm; vm_closure := vm_closure vm;
     vm_aborted := vm_aborted vm; vm_gc_enabled := vm_gc_enabled vm;
     vm_globals := vm_globals vm; vm_clock := vm_clock vm; vm_calls := vm_calls vm |}.

(** ** What a native returns

    The macros that end a native.  [RETURN_VALUE] and [RETURN_NOVALUE] report
    success to the interpreter; [RETURN_CLOSURE] and [RETURN_FIBER] hand it a
    closure to run or a fiber switch (the "return false trick");
    [RETURN_ERROR] reports a failure with its message.  [RETURN_FALSE] is a
    bare [return false] after a closure that failed, [RETURN_TRUE] a bare
    [return true].  [INVALID_POINTER] marks a dereference of an address that
    holds no object of the expected kind, which C leaves undefined.
    [INTEGER_OVERFLOW] marks a native that does not return because a signed
    operation leaves the range of [gravity_int_t]: the division of INT64_MIN
    by -1, which traps, and a loop counter stepped past INT64_MAX or
    INT64_MIN, which wraps around and keeps its loop running. *)
Inductive native_result : Type :=
| RETURN_VALUE (v : GravityValue) (rindex : nat)
| RETURN_CLOSURE (v : GravityValue) (rindex : nat)
| RETURN_FIBER
| RETURN_NOVALUE
| RETURN_ERROR (msg : string)
| RETURN_FALSE
| RETURN_TRUE
| INVALID_POINTER
| INTEGER_OVERFLOW.

(** The core classes held by the global [GravityEnv]. *)
Record GravityGlobals : Type := {
  P_ClsObj : ref;
  P_ClsClass : ref;
  P_ClsBool : ref;
  P_ClsNull : ref;
  P_ClsInt : ref;
  P_ClsFloat : ref;
  P_ClsFunc : ref;
  P_ClsFiber : ref;
  P_ClsString : ref;
  P_ClsInstance : ref;
  P_ClsList : ref;
  P_ClsMap : ref;
  P_ClsRange : ref;
  P_ClsSystem : ref;
  P_ClsClosure : ref;
  P_ClsUpValue : ref
}.

(** The bridging hooks of [gravity_delegate_t] that the core consults; a
    hook that is not installed is [None]. *)
Record gravity_delegate_t : Type := {
  bridge_string : option (gravity_vm -> nat -> option string);
  bridge_getundef :
    option (gravity_vm -> nat -> GravityValue -> string -> nat -> bool * gravity_vm);
  bridge_setundef :
    option (gravity_vm -> nat -> GravityValue -> string -> GravityValue -> bool * gravity_vm)
}.

(** The collaborators of gravity_core.c that are defined elsewhere: the
    bytecode interpreter that runs a closure, the clock, the C library's
    number parsing and printing, the allocation helpers of the class
    registry, and the embedder's delegate.  The natives below are stated
    over any such host. *)
Record gravity_host : Type := {
  GravityEnv : GravityGlobals;
  gravity_vm_delegate : gravity_delegate_t;
  (* gravity_vm_runclosure: whether the call produced a result, and the machine after it *)
  host_runclosure :
    gravity_vm -> ref -> GravityValue -> list GravityValue -> bool * gravity_vm;
  (* the value the clock shows at its k-th reading *)
  host_nanotime : nat -> Z;
  host_strtod : string -> gravity_float_t;
  (* snprintf with the formats %g and %p *)
  host_format_g : gravity_float_t -> string;
  host_format_p : ref -> string;
  (* the payload of a Float or of an object reference read through the field n,
     and the payload of a value that is not a Float read through the field f *)
  host_payload_n : GravityValue -> Z;
  host_payload_f : GravityValue -> gravity_float_t;
  number_from_bin : string -> Z;
  number_from_oct : string -> Z;
  number_from_hex : string -> Z;
  gravity_class_lookup_constructor : gravity_vm -> ref -> Z -> option ref;
  gravity_instance_clone : gravity_vm -> ref -> ref * gravity_vm;
  gravity_class_is_anon : gravity_class_t -> bool;
  gravity_vm_anonymous : gravity_vm -> string * gravity_vm;
  gravity_class_new_pair : gravity_vm -> string -> ref -> ref * gravity_vm
}.

(** ** Accessors of the machine *)

Definition gravity_vm_setslot (vm : gravity_vm) (v : GravityValue) (rindex : nat)
  : gravity_vm :=
  set_slots (<[rindex := v]> (vm_slots vm)) vm.

Definition gravity_vm_fiber (vm : gravity_vm) : ref := vm_fiber vm.
Definition gravity_vm_result (vm : gravity_vm) : GravityValue := vm_result vm.
Definition gravity_vm_getclosure (vm : gravity_vm) : option ref := vm_closure vm.
Definition gravity_vm_isaborted (vm : gravity_vm) : bool := vm_aborted vm.
Definition gravity_gc_setenabled (vm : gravity_vm) (b : bool) : gravity_vm :=
  set_gc_enabled b vm.
Definition gravity_vm_setvalue (vm : gravity_vm) (name : string) (v : GravityValue)
  : gravity_vm :=
  set_globals (<[name := v]> (vm_globals vm)) vm.

(** [args[i]]: the registers past the ones a call filled hold Null. *)
Definition arg (args : list GravityValue) (i : nat) : GravityValue :=
  nth i args from_null.

(** The names under which the conversion methods and the not-found method
    are bound ([gravity_vm_keyindex]). *)
Inductive gravity_key_index : Type :=
| GRAVITY_NOTFOUND_INDEX
| GRAVITY_INT_INDEX
| GRAVITY_FLOAT_INDEX
| GRAVITY_BOOL_INDEX
| GRAVITY_STRING_INDEX.

Definition GRAVITY_CLASS_INT_NAME : string := "Int".
Definition GRAVITY_CLASS_FLOAT_NAME : string := "Float".
Definition GRAVITY_CLASS_BOOL_NAME : string := "Bool".
Definition GRAVITY_CLASS_STRING_NAME : string := "String".
Definition GRAVITY_INTERNAL_NOTFOUND_NAME : string := "notfound".

Definition gravity_vm_keyindex (index : gravity_key_index) : string :=
  match index with
  | GRAVITY_NOTFOUND_INDEX => GRAVITY_INTERNAL_NOTFOUND_NAME
  | GRAVITY_INT_INDEX => GRAVITY_CLASS_INT_NAME
  | GRAVITY_FLOAT_INDEX => GRAVITY_CLASS_FLOAT_NAME
  | GRAVITY_BOOL_INDEX => GRAVITY_CLASS_BOOL_NAME
  | GRAVITY_STRING_INDEX => GRAVITY_CLASS_STRING_NAME
  end.

(** ** The class registry *)

(** Modelled from the spec: [gravity_class_lookup] (gravity_value.c is not
    part of the sources).  "resolve(class, name) walks the class's own table,
    then its superclass chain, stopping at the first hit; returns none if the
    walk reaches Object's superclass".  The walk is bounded by the number of
    classes, which an acyclic chain never exceeds. *)
Fixpoint class_lookup_walk (fuel : nat) (classes : gmap ref gravity_class_t)
  (c : ref) (key : string) : option GravityValue :=
  match fuel with
  | O => None
  | S fuel' =>
      match classes !! c with
      | None => None
      | Some cls =>
          match c_htable cls !! key with
          | Some v => Some v
          | None =>
              match c_superclass cls with
              | Some super => class_lookup_walk fuel' classes super key
              | None => None
              end
          end
      end
  end.

Definition gravity_class_lookup (vm : gravity_vm) (c : ref) (key : string)
  : option GravityValue :=
  class_lookup_walk (S (size (vm_classes vm))) (vm_classes vm) c key.

(** [gravity_class_lookup_closure]: the entry, when it is a closure. *)
Definition gravity_class_lookup_closure (vm : gravity_vm) (c : ref) (key : string)
  : option ref :=
  match gravity_class_lookup vm c key with
  | Some (VALUE_FROM_OBJECT KClosure p) => Some p
  | _ => None
  end.

Definition gravity_vm_fastlookup (vm : gravity_vm) (c : ref) (index : gravity_key_index)
  : option ref :=
  gravity_class_lookup_closure vm c (gravity_vm_keyindex index).

(** Modelled from the spec: [gravity_class_bind] adds an entry to the
    class's "hash table mapping method/property name -> method-table
    entry". *)
Definition gravity_class_bind (vm : gravity_vm) (c : ref) (key : string)
  (v : GravityValue) : gravity_vm :=
  match vm_classes vm !! c with
  | Some cls =>
      set_classes
        (<[c := {| c_identifier := c_identifier cls; c_superclass := c_superclass cls;
                   c_objclass := c_objclass cls; c_nivars := c_nivars cls;
                   c_ivars := c_ivars cls; c_htable := <[key := v]> (c_htable cls);
                   c_is_inited := c_is_inited cls; c_is_struct := c_is_struct cls;
                   c_xdata := c_xdata cls |}]> (vm_classes vm)) vm
  | None => vm
  end.

(** [gravity_class_get_meta]: the class of a class. *)
Definition gravity_class_get_meta (vm : gravity_vm) (c : ref) : option ref :=
  c_objclass <$> vm_classes vm !! c.

(** ** C library functions on strings *)

Definition NUL : ascii := ascii_of_nat 0.

(** [s[i]] on a NUL-terminated string. *)
Definition char_at (s : string) (i : nat) : ascii :=
  match String.get i s with Some c => c | None => NUL end.

Definition isspace (c : ascii) : bool :=
  let n := nat_of_ascii c in
  (Nat.eqb n 32 || (Nat.leb 9 n && Nat.leb n 13))%bool.

Definition toupper (c : ascii) : ascii :=
  let n := nat_of_ascii c in
  if (Nat.leb 97 n && Nat.leb n 122)%bool then ascii_of_nat (n - 32) else c.

(** The value of a digit character in bases up to 36. *)
Definition digit_value (c : ascii) : option Z :=
  let n := nat_of_ascii c in
  if (Nat.leb 48 n && Nat.leb n 57)%bool then Some (Z.of_nat (n - 48))
  else if (Nat.leb 97 n && Nat.leb n 122)%bool then Some (Z.of_nat (n - 87))
  else if (Nat.leb 65 n && Nat.leb n 90)%bool then Some (Z.of_nat (n - 55))
  else None.

Definition digit_in_base (base : Z) (c : ascii) : option Z :=
  match digit_value c with
  | Some d => if d <? base then Some d else None
  | None => None
  end.

Fixpoint skip_spaces (s : string) : string :=
  match s with
  | String c rest => if isspace c then skip_spaces rest else s
  | EmptyString => s
  end.

(** The digits of [s] in [base], accumulated from [acc]. *)
Fixpoint strtoll_digits (base : Z) (s : string) (acc : Z) : Z :=
  match s with
  | String c rest =>
      match digit_in_base base c with
      | Some d => strtoll_digits base rest (acc * base + d)
      | None => acc
      end
  | EmptyString => acc
  end.

(** [strtoll(s, NULL, base)]: leading blanks, an optional sign, the prefix
    that selects the base when [base] is 0 (or 16), the digits, and the
    clamp to the range of [long long]. *)
Definition strtoll (s : string) (base : Z) : Z :=
  let s1 := skip_spaces s in
  let '(neg, s2) :=
    match s1 with
    | String "-" rest => (true, rest)
    | String "+" rest => (false, rest)
    | _ => (false, s1)
    end in
  let hex_prefix :=
    (Ascii.eqb (char_at s2 0) "0" && Ascii.eqb (toupper (char_at s2 1)) "X"
     && match digit_in_base 16 (char_at s2 2) with Some _ => true | None => false end)%bool in
  let '(b, s3) :=
    if ((base =? 0) || (base =? 16))%bool && hex_prefix then
      (16, String.substring 2 (String.length s2 - 2) s2)
    else if base =? 0 then
      (if Ascii.eqb (char_at s2 0) "0" then 8 else 10, s2)
    else (base, s2) in
  let v := strtoll_digits b s3 0 in
  if neg then Z.max (- v) INT64_MIN else Z.min v INT64_MAX.

(** [strchr(s, c) != NULL] for a character [c] other than NUL. *)
Fixpoint strchr (s : string) (c : ascii) : bool :=
  match s with
  | String a rest =>
      if Ascii.eqb a NUL then false
      else if Ascii.eqb a c then true else strchr rest c
  | EmptyString => false
  end.

(** [snprintf] with the format "%" PRId64. *)
Definition format_int64 (n : Z) : string := NilZero.string_of_int (Z.to_int n).

(** [strcmp(a, b)]: the sign of the comparison, bytes as unsigned chars. *)
Fixpoint strcmp (a b : string) : Z :=
  match a, b with
  | EmptyString, EmptyString => 0
  | EmptyString, String _ _ => -1
  | String _ _, EmptyString => 1
  | String x a', String y b' =>
      if Ascii.eqb x y then strcmp a' b'
      else if Nat.ltb (nat_of_ascii x) (nat_of_ascii y) then -1 else 1
  end.

Inductive number_format_type : Type :=
| number_format_any
| number_format_int
| number_format_float.

Definition is_number_format_float (nf : number_format_type) : bool :=
  match nf with number_format_float => true | _ => false end.

(** Nesting depth granted to the conversion of containers to strings. *)
Definition CONVERT_DEPTH : nat := 64.

(** Values are compared structurally (pointer tests, map keys). *)
#[export] Instance spec_float_eq_dec : EqDecision spec_float.
Proof. solve_decision. Defined.
#[export] Instance object_kind_eq_dec : EqDecision object_kind.
Proof. solve_decision. Defined.
#[export] Instance GravityValue_eq_dec : EqDecision GravityValue.
Proof. solve_decision. Defined.

Section Core.

Context (H : gravity_host).

(** [v.n] and [v.f]: the payload read as an integer or as a double. *)
Definition value_n (v : GravityValue) : Z :=
  match v with
  | from_int n => n
  | VALUE_FROM_BOOL b => Z.b2z b
  | from_null => 0
  | from_undefined => 1
  | VALUE_FROM_ERROR => 0
  | _ => host_payload_n H v
  end.

Definition value_f (v : GravityValue) : gravity_float_t :=
  match v with
  | from_float f => f
  | VALUE_FROM_ERROR => float_zero
  | _ => host_payload_f H v
  end.

(** [LOGIC(x)]: x is not zero. *)
Definition LOGIC (n : Z) : bool := negb (n =? 0).

Definition nanotime (vm : gravity_vm) : Z * gravity_vm :=
  (host_nanotime H (vm_clock vm), set_clock (S (vm_clock vm)) vm).

(** [gravity_vm_runclosure]: the interpreter runs the closure.  The ghost
    log after the call is the log before it followed by this call: what the
    interpreter does while it runs the closure is not logged. *)
Definition gravity_vm_runclosure (vm : gravity_vm) (closure : ref) (self : GravityValue)
  (params : list GravityValue) : bool * gravity_vm :=
  let '(ok, vm') := host_runclosure H vm closure self params in
  (ok, set_calls (vm_calls vm ++ [(closure, self, params)]) vm').

(** Modelled from the spec: [GetClass] (gravity_value.h is not part of the
    sources).  "every variant maps to exactly one class"; "Null and Undefined
    share the same class"; an Instance belongs to its [objclass] and a Class
    to its meta-class.  The invalid value has no class. *)
Definition GetClass (vm : gravity_vm) (v : GravityValue) : option ref :=
  let env := GravityEnv H in
  match v with
  | from_int _ => Some (P_ClsInt env)
  | from_float _ => Some (P_ClsFloat env)
  | VALUE_FROM_BOOL _ => Some (P_ClsBool env)
  | from_null | from_undefined => Some (P_ClsNull env)
  | VALUE_FROM_STRING _ => Some (P_ClsString env)
  | VALUE_FROM_OBJECT KList _ => Some (P_ClsList env)
  | VALUE_FROM_OBJECT KMap _ => Some (P_ClsMap env)
  | VALUE_FROM_OBJECT KRange _ => Some (P_ClsRange env)
  | VALUE_FROM_OBJECT KFunction _ => Some (P_ClsFunc env)
  | VALUE_FROM_OBJECT KClosure _ => Some (P_ClsClosure env)
  | VALUE_FROM_OBJECT KFiber _ => Some (P_ClsFiber env)
  | VALUE_FROM_OBJECT KClass p => c_objclass <$> vm_classes vm !! p
  | VALUE_FROM_OBJECT KInstance p => i_objclass <$> vm_instances vm !! p
  | VALUE_FROM_ERROR => None
  end.

(** ** Conversions *)

Definition convert_string2number (string : string) (number_format : number_format_type)
  : GravityValue :=
  (* empty string case *)
  if Nat.eqb (String.length string) 0 then
    if is_number_format_float number_format then from_float float_zero else from_int 0
  else
    let s := string in
    let len := Z.of_nat (String.length string) in
    (* check sign first *)
    let signed := (Ascii.eqb (char_at s 0) "-" || Ascii.eqb (char_at s 0) "+")%bool in
    let sign := if Ascii.eqb (char_at s 0) "-" then -1 else 1 in
    let s := if signed then String.substring 1 (String.length s - 1) s else s in
    let len := if signed then len - 1 else len in
    (* check special HEX, OCT, BIN cases *)
    let c := toupper (char_at s 1) in
    let isHexBinOct := (Ascii.eqb c "B" || Ascii.eqb c "O" || Ascii.eqb c "X")%bool in
    if (Ascii.eqb (char_at s 0) "0" && (2 <? len) && isHexBinOct)%bool then
      let n :=
        if Ascii.eqb c "B" then number_from_bin H (String.substring 2 (String.length s - 2) s)
        else if Ascii.eqb c "O" then number_from_oct H (String.substring 2 (String.length s - 2) s)
        else number_from_hex H s in
      let n := if sign =? -1 then wrap64 (- n) else n in
      if is_number_format_float number_format then from_float (float_of_int n)
      else from_int n
    else
      (* a dot in the string forces the float format *)
      let number_format :=
        match number_format with
        | number_format_any => if strchr string "." then number_format_float else number_format_any
        | nf => nf
        end in
      if is_number_format_float number_format then from_float (host_strtod H string)
      else from_int (strtoll string 0).

(** The sanity check that breaks the recursion of a conversion: no method,
    or the method is the C function [internal] itself, or it is the closure
    being executed. *)
Definition conversion_guard (vm : gravity_vm) (closure : option ref)
  (internal : gravity_c_internal) : bool :=
  match closure with
  | None => true
  | Some p =>
      let is_internal :=
        match vm_closures vm !! p with
        | Some {| cl_f := Some f |} =>
            match f_tag f, f_internal f with
            | EXEC_TYPE_INTERNAL, Some fn => c_internal_eqb fn internal
            | _, _ => false
            end
        | _ => false
        end in
      (is_internal || bool_decide (gravity_vm_getclosure vm = Some p))%bool
  end.

Definition lookup_conversion (vm : gravity_vm) (v : GravityValue) (index : gravity_key_index)
  : option ref :=
  match GetClass vm v with
  | Some c => gravity_vm_fastlookup vm c index
  | None => None
  end.

Definition convert_value2int (vm : gravity_vm) (v : GravityValue)
  : GravityValue * gravity_vm :=
  match v with
  | from_int _ => (v, vm)
  (* handle conversion for basic classes *)
  | from_float f => (from_int (int_of_float f), vm)
  | VALUE_FROM_BOOL _ => (from_int (value_n v), vm)
  | from_null => (from_int 0, vm)
  | from_undefined => (from_int 0, vm)
  | VALUE_FROM_STRING s => (convert_string2number s number_format_int, vm)
  | _ =>
      (* check if class implements the Int method *)
      let closure := lookup_conversion vm v GRAVITY_INT_INDEX in
      (* sanity check (and break recursion) *)
      if conversion_guard vm closure FN_convert_object_int then (VALUE_FROM_ERROR, vm)
      else
        match closure with
        | Some p =>
            (* execute closure and return its value *)
            let '(ok, vm') := gravity_vm_runclosure vm p v [] in
            if ok then (gravity_vm_result vm', vm') else (VALUE_FROM_ERROR, vm')
        | None => (VALUE_FROM_ERROR, vm)
        end
  end.

Definition convert_value2float (vm : gravity_vm) (v : GravityValue)
  : GravityValue * gravity_vm :=
  match v with
  | from_float _ => (v, vm)
  (* handle conversion for basic classes *)
  | from_int n => (from_float (float_of_int n), vm)
  | VALUE_FROM_BOOL _ => (from_float (float_of_int (value_n v)), vm)
  | from_null => (from_float float_zero, vm)
  | from_undefined => (from_float float_zero, vm)
  | VALUE_FROM_STRING s => (convert_string2number s number_format_float, vm)
  | _ =>
      (* check if class implements the Float method *)
      let closure := lookup_conversion vm v GRAVITY_FLOAT_INDEX in
      (* sanity check (and break recursion) *)
      if conversion_guard vm closure FN_convert_object_float then (VALUE_FROM_ERROR, vm)
      else
        match closure with
        | Some p =>
            let '(ok, vm') := gravity_vm_runclosure vm p v [] in
            if ok then (gravity_vm_result vm', vm') else (VALUE_FROM_ERROR, vm')
        | None => (VALUE_FROM_ERROR, vm)
        end
  end.

Definition convert_value2bool (vm : gravity_vm) (v : GravityValue)
  : GravityValue * gravity_vm :=
  match v with
  | VALUE_FROM_BOOL _ => (v, vm)
  (* handle conversion for basic classes *)
  | from_int n => (VALUE_FROM_BOOL (negb (n =? 0)), vm)
  | from_float f => (VALUE_FROM_BOOL (float_is_nonzero f), vm)
  | from_null => (VALUE_FROM_FALSE, vm)
  | from_undefined => (VALUE_FROM_FALSE, vm)
  | VALUE_FROM_STRING s =>
      if Nat.eqb (String.length s) 0 then (VALUE_FROM_FALSE, vm)
      else (VALUE_FROM_BOOL (negb (strcmp s "false" =? 0)), vm)
  | _ =>
      (* check if class implements the Bool method *)
      let closure := lookup_conversion vm v GRAVITY_BOOL_INDEX in
      (* sanity check (and break recursion) *)
      if conversion_guard vm closure FN_convert_object_bool then (VALUE_FROM_BOOL true, vm)
      else
        match closure with
        | Some p =>
            let '(ok, vm') := gravity_vm_runclosure vm p v [] in
            if ok then (gravity_vm_result vm', vm') else (VALUE_FROM_ERROR, vm')
        | None => (VALUE_FROM_ERROR, vm)
        end
  end.

Fixpoint gravity_hash_lookup (hash : list (GravityValue * GravityValue))
  (key : GravityValue) : option GravityValue :=
  match hash with
  | (k, v) :: rest => if bool_decide (k = key) then Some v else gravity_hash_lookup rest key
  | [] => None
  end.

(** The text of a converted value, ["N/A"] when the conversion gave no
    string. *)
Definition string_or_NA (v : GravityValue) : string :=
  match v with VALUE_FROM_STRING s => s | _ => "N/A" end.

(** The body of the loop of [convert_list2string], from index [i] for
    [remaining] elements; [conv] is [convert_value2string]. *)
Fixpoint list2string_loop (conv : gravity_vm -> GravityValue -> GravityValue * gravity_vm)
  (list : ref) (count : nat) (remaining : nat) (i : nat) (buffer : string)
  (vm : gravity_vm) : string * gravity_vm :=
  match remaining with
  | O => (buffer, vm)
  | S remaining' =>
      let value :=
        match vm_lists vm !! list with
        | Some array => nth i array from_null
        | None => from_null
        end in
      let '(string, vm1) :=
        if (IsList value && bool_decide (value = VALUE_FROM_OBJECT KList list))%bool
        then (VALUE_FROM_ERROR, vm)
        else conv vm value in
      (* copy string to new buffer *)
      let buffer := (buffer ++ string_or_NA string)%string in
      (* add separator *)
      let buffer := if Nat.ltb (i + 1) count then (buffer ++ ",")%string else buffer in
      list2string_loop conv list count remaining' (S i) buffer vm1
  end.

Definition convert_list2string
  (conv : gravity_vm -> GravityValue -> GravityValue * gravity_vm)
  (vm : gravity_vm) (list : ref) : GravityValue * gravity_vm :=
  let count :=
    match vm_lists vm !! list with Some array => length array | None => O end in
  let '(buffer, vm') := list2string_loop conv list count count O "[" vm in
  (* write latest ] character *)
  (VALUE_FROM_STRING (buffer ++ "]"), vm').

(** The body of the loop of [convert_map2string] over the list of keys. *)
Fixpoint map2string_loop (conv : gravity_vm -> GravityValue -> GravityValue * gravity_vm)
  (map : ref) (count : nat) (keys : list GravityValue) (i : nat) (buffer : string)
  (vm : gravity_vm) : string * gravity_vm :=
  match keys with
  | [] => (buffer, vm)
  | key :: keys' =>
      let value :=
        match vm_maps vm !! map with
        | Some hash =>
            match gravity_hash_lookup hash key with Some v => v | None => from_null end
        | None => from_null
        end in
      (* key conversion *)
      let '(key, vm1) := if IsString key then (key, vm) else conv vm key in
      (* value conversion, a map stored in itself prints as null *)
      let value :=
        if (IsMap value && bool_decide (value = VALUE_FROM_OBJECT KMap map))%bool
        then from_null else value in
      let '(value, vm2) := if IsString value then (value, vm1) else conv vm1 value in
      let buffer := (buffer ++ string_or_NA key ++ ":" ++ string_or_NA value)%string in
      (* add entries separator *)
      let buffer := if Nat.ltb (i + 1) count then (buffer ++ ",")%string else buffer in
      map2string_loop conv map count keys' (S i) buffer vm2
  end.

Definition convert_map2string
  (conv : gravity_vm -> GravityValue -> GravityValue * gravity_vm)
  (vm : gravity_vm) (map : ref) : GravityValue * gravity_vm :=
  (* get keys list *)
  let keys :=
    match vm_maps vm !! map with Some hash => fst <$> hash | None => [] end in
  let count := length keys in
  let '(buffer, vm') := map2string_loop conv map count keys O "[" vm in
  (VALUE_FROM_STRING (buffer ++ "]"), vm').

(** [SETIFZ(identifier, name)]. *)
Definition SETIFZ (identifier : option string) (name : string) : string :=
  match identifier with Some s => s | None => name end.

(** [convert_value2string].  The source recurses into the elements of
    lists and maps without a bound; [depth] is the nesting the model follows
    before it gives the invalid value.  An address that holds no object reads
    as an object whose fields are null. *)
Fixpoint convert_value2string (depth : nat) (vm : gravity_vm) (v : GravityValue)
  : GravityValue * gravity_vm :=
  match depth with
  | O => (VALUE_FROM_ERROR, vm)
  | S depth' =>
      match v with
      | VALUE_FROM_STRING _ => (v, vm)
      (* handle conversion for basic classes *)
      | from_int n => (VALUE_FROM_STRING (format_int64 n), vm)
      | VALUE_FROM_BOOL b => (VALUE_FROM_STRING (if b then "true" else "false"), vm)
      | from_null => (VALUE_FROM_STRING "null", vm)
      | from_undefined => (VALUE_FROM_STRING "undefined", vm)
      | from_float f => (VALUE_FROM_STRING (host_format_g H f), vm)
      | VALUE_FROM_OBJECT KClass p =>
          let identifier := vm_classes vm !! p ≫= c_identifier in
          (VALUE_FROM_STRING (SETIFZ identifier "anonymous class"), vm)
      | VALUE_FROM_OBJECT KFunction p =>
          let identifier := vm_functions vm !! p ≫= f_identifier in
          (VALUE_FROM_STRING (SETIFZ identifier "anonymous func"), vm)
      | VALUE_FROM_OBJECT KClosure p =>
          let identifier := (vm_closures vm !! p ≫= cl_f) ≫= f_identifier in
          (VALUE_FROM_STRING (SETIFZ identifier "anonymous closure"), vm)
      | VALUE_FROM_OBJECT KList p =>
          convert_list2string (convert_value2string depth') vm p
      | VALUE_FROM_OBJECT KMap p =>
          convert_map2string (convert_value2string depth') vm p
      | VALUE_FROM_OBJECT KRange p =>
          let r := default {| r_from := 0; r_to := 0 |} (vm_ranges vm !! p) in
          (VALUE_FROM_STRING (format_int64 (r_from r) ++ "..." ++ format_int64 (r_to r)), vm)
      | VALUE_FROM_OBJECT KFiber p =>
          (VALUE_FROM_STRING ("Fiber " ++ host_format_p H p), vm)
      | _ =>
          (* check if class implements the String method *)
          let closure := lookup_conversion vm v GRAVITY_STRING_INDEX in
          (* sanity check (and break recursion) *)
          if conversion_guard vm closure FN_convert_object_string then
            match v with
            | VALUE_FROM_OBJECT KInstance p =>
                match vm_instances vm !! p with
                | Some instance =>
                    match i_xdata instance with
                    | Some xdata =>
                        match bridge_string (gravity_vm_delegate H) with
                        | Some bridge =>
                            match bridge vm xdata with
                            | Some s => (VALUE_FROM_STRING s, vm)
                            | None => (VALUE_FROM_ERROR, vm)
                            end
                        | None => (VALUE_FROM_ERROR, vm)
                        end
                    | None =>
                        let identifier :=
                          vm_classes vm !! i_objclass instance ≫= c_identifier in
                        (VALUE_FROM_STRING
                           ("instance of " ++ SETIFZ identifier "anonymous class"
                            ++ " (" ++ host_format_p H p ++ ")"), vm)
                    end
                | None => (VALUE_FROM_ERROR, vm)
                end
            | _ => (VALUE_FROM_ERROR, vm)
            end
          else
            match closure with
            | Some p =>
                (* execute closure and return its value *)
                let '(ok, vm') := gravity_vm_runclosure vm p v [] in
                if ok then
                  let result := gravity_vm_result vm' in
                  if IsString result then (result, vm')
                  else (VALUE_FROM_STRING "null", vm')
                else (VALUE_FROM_ERROR, vm')
            | None => (VALUE_FROM_ERROR, vm)
            end
      end
  end.

(** The natives bound to Object under the names Int, Float, Bool, String. *)
Definition convert_object_int (vm : gravity_vm) (args : list GravityValue)
  (nargs : Z) (rindex : nat) : native_result * gravity_vm :=
  let '(v, vm') := convert_value2int vm (arg args 0) in
  if is_error v then (RETURN_ERROR "Unable to convert object to Int.", vm')
  else (RETURN_VALUE v rindex, vm').

Definition convert_object_float (vm : gravity_vm) (args : list GravityValue)
  (nargs : Z) (rindex : nat) : native_result * gravity_vm :=
  let '(v, vm') := convert_value2float vm (arg args 0) in
  if is_error v then (RETURN_ERROR "Unable to convert object to Float.", vm')
  else (RETURN_VALUE v rindex, vm').

Definition convert_object_bool (vm : gravity_vm) (args : list GravityValue)
  (nargs : Z) (rindex : nat) : native_result * gravity_vm :=
  let '(v, vm') := convert_value2bool vm (arg args 0) in
  if is_error v then (RETURN_ERROR "Unable to convert object to Bool.", vm')
  else (RETURN_VALUE v rindex, vm').

Definition convert_object_string (vm : gravity_vm) (args : list GravityValue)
  (nargs : Z) (rindex : nat) : native_result * gravity_vm :=
  let '(v, vm') := convert_value2string CONVERT_DEPTH vm (arg args 0) in
  if is_error v then (RETURN_ERROR "Unable to convert object to String.", vm')
  else (RETURN_VALUE v rindex, vm').

(** ** Object: load, store, bind *)

(** Modelled from the spec: the FUNCTION_ISA_* macros (gravity_value.h is
    not part of the sources).  A computed property is "marked with a reserved
    index value meaning 'not a real slot'"; "a default accessor is a
    specialized computed property whose index refers directly to an
    instance-variable slot". *)
Definition GRAVITY_COMPUTED_INDEX : Z := 65535.

Definition FUNCTION_ISA_SPECIAL (f : gravity_function_t) : bool :=
  match f_tag f with EXEC_TYPE_SPECIAL => true | _ => false end.
Definition FUNCTION_ISA_DEFAULT_GETTER (f : gravity_function_t) : bool :=
  ((f_index f <? GRAVITY_COMPUTED_INDEX) && bool_decide (f_special_getter f = None))%bool.
Definition FUNCTION_ISA_DEFAULT_SETTER (f : gravity_function_t) : bool :=
  ((f_index f <? GRAVITY_COMPUTED_INDEX) && bool_decide (f_special_setter f = None))%bool.
Definition FUNCTION_ISA_GETTER (f : gravity_function_t) : bool :=
  negb (bool_decide (f_special_getter f = None)).
Definition FUNCTION_ISA_SETTER (f : gravity_function_t) : bool :=
  negb (bool_decide (f_special_setter f = None)).

Definition class_with_inited (cls : gravity_class_t) (b : bool) : gravity_class_t :=
  {| c_identifier := c_identifier cls; c_superclass := c_superclass cls;
     c_objclass := c_objclass cls; c_nivars := c_nivars cls; c_ivars := c_ivars cls;
     c_htable := c_htable cls; c_is_inited := b; c_is_struct := c_is_struct cls;
     c_xdata := c_xdata cls |}.

Definition class_with_ivars (cls : gravity_class_t) (ivars : list GravityValue)
  : gravity_class_t :=
  {| c_identifier := c_identifier cls; c_superclass := c_superclass cls;
     c_objclass := c_objclass cls; c_nivars := c_nivars cls; c_ivars := ivars;
     c_htable := c_htable cls; c_is_inited := c_is_inited cls;
     c_is_struct := c_is_struct cls; c_xdata := c_xdata cls |}.

Definition class_with_objclass (cls : gravity_class_t) (objclass : ref) : gravity_class_t :=
  {| c_identifier := c_identifier cls; c_superclass := c_superclass cls;
     c_objclass := objclass; c_nivars := c_nivars cls; c_ivars := c_ivars cls;
     c_htable := c_htable cls; c_is_inited := c_is_inited cls;
     c_is_struct := c_is_struct cls; c_xdata := c_xdata cls |}.

(** The first block of [object_load] and [object_store]: a class target
    whose meta class is not initialised gets it initialised, running its
    constructor with no argument.  [inl] is an early return. *)
Definition init_meta_class (vm : gravity_vm) (target : GravityValue)
  : (native_result * gravity_vm) + gravity_vm :=
  match target with
  | VALUE_FROM_OBJECT KClass c =>
      match gravity_class_get_meta vm c with
      | None => inl (INVALID_POINTER, vm)
      | Some meta =>
          match vm_classes vm !! meta with
          | None => inl (INVALID_POINTER, vm)
          | Some mcls =>
              if c_is_inited mcls then inr vm
              else
                let vm1 :=
                  set_classes (<[meta := class_with_inited mcls true]> (vm_classes vm)) vm in
                match gravity_class_lookup_constructor H vm1 meta 0 with
                | Some closure =>
                    let '(ok, vm2) :=
                      gravity_vm_runclosure vm1 closure (VALUE_FROM_OBJECT KClass meta) [] in
                    if ok then inr vm2 else inl (RETURN_FALSE, vm2)
                | None => inr vm1
                end
          end
      end
  | _ => inr vm
  end.

(** [instance->ivars[i]] when the target is an instance, [c->ivars[i]]
    otherwise. *)
Definition read_ivar (vm : gravity_vm) (target : GravityValue) (cls : gravity_class_t)
  (i : Z) : option GravityValue :=
  match target with
  | VALUE_FROM_OBJECT KInstance p =>
      vm_instances vm !! p ≫= fun instance => i_ivars instance !! Z.to_nat i
  | _ => c_ivars cls !! Z.to_nat i
  end.

Definition write_ivar (vm : gravity_vm) (target : GravityValue) (c : ref)
  (cls : gravity_class_t) (i : Z) (value : GravityValue) : option gravity_vm :=
  match target with
  | VALUE_FROM_OBJECT KInstance p =>
      match vm_instances vm !! p with
      | Some instance =>
          if Nat.ltb (Z.to_nat i) (length (i_ivars instance)) then
            Some (set_instances
                    (<[p := {| i_objclass := i_objclass instance; i_xdata := i_xdata instance;
                               i_ivars := <[Z.to_nat i := value]> (i_ivars instance) |}]>
                       (vm_instances vm)) vm)
          else None
      | None => None
      end
  | _ =>
      if Nat.ltb (Z.to_nat i) (length (c_ivars cls)) then
        Some (set_classes
                (<[c := class_with_ivars cls (<[Z.to_nat i := value]> (c_ivars cls))]>
                   (vm_classes vm)) vm)
      else None
  end.

Definition return_ivar (vm : gravity_vm) (target : GravityValue) (cls : gravity_class_t)
  (i : Z) (rindex : nat) : native_result * gravity_vm :=
  match read_ivar vm target cls i with
  | Some v => (RETURN_VALUE v rindex, vm)
  | None => (INVALID_POINTER, vm)
  end.

(** The label [execute_notfound]: return the not-found method of the class
    for the interpreter to execute. *)
Definition execute_notfound (vm : gravity_vm) (c : ref) (rindex : nat)
  : native_result * gravity_vm :=
  match gravity_class_lookup vm c (gravity_vm_keyindex GRAVITY_NOTFOUND_INDEX) with
  | Some closure => (RETURN_CLOSURE closure rindex, vm)
  | None => (RETURN_CLOSURE VALUE_FROM_ERROR rindex, vm)
  end.

(** [instance->xdata], null when the target is not an instance. *)
Definition instance_xdata (vm : gravity_vm) (target : GravityValue) : option nat :=
  match target with
  | VALUE_FROM_OBJECT KInstance p => vm_instances vm !! p ≫= i_xdata
  | _ => None
  end.

Definition object_load (vm : gravity_vm) (args : list GravityValue) (nargs : Z)
  (rindex : nat) : native_result * gravity_vm :=
  let target := arg args 0 in
  let key := arg args 1 in
  (* check if meta class needs to be initialized *)
  match init_meta_class vm target with
  | inl early => early
  | inr vm =>
      (* retrieve class and process key *)
      match GetClass vm target ≫= fun c => pair c <$> vm_classes vm !! c with
      | None => (INVALID_POINTER, vm)
      | Some (c, cls) =>
          match key with
          | from_int n =>
              (* key is an int: an optimization for faster loading of ivar *)
              let nivar := c_nivars cls in
              let nindex := to_uint32 n in
              if nivar <=? nindex then
                (RETURN_ERROR "Out of bounds ivar index in load operation (1).", vm)
              else return_ivar vm target cls nindex rindex
          | VALUE_FROM_STRING name =>
              (* lookup key in class c *)
              match gravity_class_lookup vm c name with
              | None =>
                  (* not explicitly declared: dynamic property in bridge case *)
                  let bridged :=
                    match instance_xdata vm target, bridge_getundef (gravity_vm_delegate H) with
                    | Some xdata, Some bridge => Some (bridge vm xdata target name rindex)
                    | _, _ => None
                    end in
                  match bridged with
                  | Some (true, vm') => (RETURN_TRUE, vm')
                  | Some (false, vm') => execute_notfound vm' c rindex
                  | None => execute_notfound vm c rindex
                  end
              | Some (VALUE_FROM_OBJECT KClosure p as obj) =>
                  match vm_closures vm !! p ≫= cl_f with
                  | None => execute_notfound vm c rindex
                  | Some f =>
                      if FUNCTION_ISA_SPECIAL f then
                        (* execute optimized default getter *)
                        if FUNCTION_ISA_DEFAULT_GETTER f then
                          let nivar := c_nivars cls in
                          let nindex := f_index f in
                          if nivar <=? nindex then
                            (RETURN_ERROR "Out of bounds ivar index in load operation (2).", vm)
                          else return_ivar vm target cls nindex rindex
                        else
                          match f_special_getter f with
                          | Some getter =>
                              (RETURN_CLOSURE (VALUE_FROM_OBJECT KClosure getter) rindex, vm)
                          | None => execute_notfound vm c rindex
                          end
                      else (RETURN_VALUE obj rindex, vm)
                  end
              | Some obj => (RETURN_VALUE obj rindex, vm)
              end
          | _ =>
              (* key must be a string in this version *)
              (RETURN_ERROR ("Unable to lookup non string value into class "
                             ++ SETIFZ (c_identifier cls) "(null)"), vm)
          end
      end
  end.

(** Modelled from the spec: [gravity_instance_isstruct], "a value-semantics
    instance flavor ... resolved once at class-declaration time". *)
Definition gravity_instance_isstruct (vm : gravity_vm) (p : ref) : bool :=
  match vm_instances vm !! p ≫= fun i => vm_classes vm !! i_objclass i with
  | Some cls => c_is_struct cls
  | None => false
  end.

(** The "check for struct" of [object_store]: a struct instance is cloned
    before it is stored. *)
Definition clone_if_struct (vm : gravity_vm) (value : GravityValue)
  : GravityValue * gravity_vm :=
  match value with
  | VALUE_FROM_OBJECT KInstance p =>
      if gravity_instance_isstruct vm p then
        let '(copy, vm') := gravity_instance_clone H vm p in
        (VALUE_FROM_OBJECT KInstance copy, vm')
      else (value, vm)
  | _ => (value, vm)
  end.

Definition store_ivar (vm : gravity_vm) (target : GravityValue) (c : ref)
  (cls : gravity_class_t) (i : Z) (value : GravityValue) : native_result * gravity_vm :=
  let '(value, vm1) := clone_if_struct vm value in
  match write_ivar vm1 target c cls i value with
  | Some vm2 => (RETURN_NOVALUE, vm2)
  | None => (INVALID_POINTER, vm1)
  end.

Definition object_store (vm : gravity_vm) (args : list GravityValue) (nargs : Z)
  (rindex : nat) : native_result * gravity_vm :=
  let target := arg args 0 in
  let key := arg args 1 in
  let value := arg args 2 in
  (* check if meta class needs to be initialized *)
  match init_meta_class vm target with
  | inl early => early
  | inr vm =>
      (* retrieve class and process key *)
      match GetClass vm target ≫= fun c => pair c <$> vm_classes vm !! c with
      | None => (INVALID_POINTER, vm)
      | Some (c, cls) =>
          match key with
          | from_int n =>
              (* key is an int: an optimization for faster loading of ivar *)
              let nivar := c_nivars cls in
              let nindex := to_uint32 n in
              if nivar <=? nindex then
                (RETURN_ERROR "Out of bounds ivar index in store operation (1).", vm)
              else store_ivar vm target c cls nindex value
          | VALUE_FROM_STRING name =>
              match gravity_class_lookup vm c name with
              | None =>
                  let bridged :=
                    match instance_xdata vm target, bridge_setundef (gravity_vm_delegate H) with
                    | Some xdata, Some bridge => Some (bridge vm xdata target name value)
                    | _, _ => None
                    end in
                  match bridged with
                  | Some (true, vm') => (RETURN_NOVALUE, vm')
                  | Some (false, vm') => execute_notfound vm' c rindex
                  | None => execute_notfound vm c rindex
                  end
              | Some (VALUE_FROM_OBJECT KClosure p) =>
                  match vm_closures vm !! p ≫= cl_f with
                  | None => execute_notfound vm c rindex
                  | Some f =>
                      (* check for special functions case *)
                      if FUNCTION_ISA_SPECIAL f then
                        (* execute optimized default setter *)
                        if FUNCTION_ISA_DEFAULT_SETTER f then
                          let nivar := c_nivars cls in
                          let nindex := f_index f in
                          if nivar <=? nindex then
                            (RETURN_ERROR "Out of bounds ivar index in store operation (2).", vm)
                          else store_ivar vm target c cls nindex value
                        else
                          match f_special_setter f with
                          | Some setter =>
                              (RETURN_CLOSURE (VALUE_FROM_OBJECT KClosure setter) rindex, vm)
                          | None => execute_notfound vm c rindex
                          end
                      else (RETURN_NOVALUE, vm)
                  end
              | Some _ => (RETURN_NOVALUE, vm)
              end
          | _ =>
              (RETURN_ERROR ("Unable to lookup non string value into class "
                             ++ SETIFZ (c_identifier cls) "(null)"), vm)
          end
      end
  end.

(** The classes [gravity_iscore_class] compares against, in its order. *)
Definition core_classes : list ref :=
  let env := GravityEnv H in
  [P_ClsObj env; P_ClsClass env; P_ClsBool env; P_ClsNull env; P_ClsInt env;
   P_ClsFloat env; P_ClsFunc env; P_ClsFiber env; P_ClsString env;
   P_ClsInstance env; P_ClsList env; P_ClsMap env; P_ClsRange env;
   P_ClsSystem env; P_ClsClosure env; P_ClsUpValue env].

Definition gravity_iscore_class (vm : gravity_vm) (c : ref) : bool :=
  (* first check if it is a class *)
  if existsb (Nat.eqb c) core_classes then true
  else
    (* if class check is false then check for meta *)
    existsb (fun k => bool_decide (gravity_class_get_meta vm k = Some c)) core_classes.

(** [object->objclass = anon] for the instance or class [object]. *)
Definition set_objclass (vm : gravity_vm) (object : GravityValue) (anon : ref)
  : gravity_vm :=
  match object with
  | VALUE_FROM_OBJECT KInstance p =>
      match vm_instances vm !! p with
      | Some instance =>
          set_instances
            (<[p := {| i_objclass := anon; i_xdata := i_xdata instance;
                       i_ivars := i_ivars instance |}]> (vm_instances vm)) vm
      | None => vm
      end
  | VALUE_FROM_OBJECT KClass p =>
      match vm_classes vm !! p with
      | Some cls => set_classes (<[p := class_with_objclass cls anon]> (vm_classes vm)) vm
      | None => vm
      end
  | _ => vm
  end.

Definition object_bind (vm : gravity_vm) (args : list GravityValue) (nargs : Z)
  (rindex : nat) : native_result * gravity_vm :=
  (* sanity check first *)
  if nargs <? 3 then (RETURN_ERROR "Incorrect number of arguments.", vm)
  else
    match arg args 1, arg args 2 with
    | VALUE_FROM_STRING key, VALUE_FROM_OBJECT KClosure _ =>
        if negb (IsInstance (arg args 0) || IsClass (arg args 0)) then
          (RETURN_ERROR "bind method can be applied only to instances or classes.", vm)
        else
          let object := arg args 0 in
          match GetClass vm object ≫= fun c => pair c <$> vm_classes vm !! c with
          | None => (INVALID_POINTER, vm)
          | Some (c, cls) =>
              (* core classes are shared among all VM instances: forbid bind on them *)
              if gravity_iscore_class vm c then
                (RETURN_ERROR "Unable to bind method to a Gravity core class.", vm)
              else
                (* check if instance has already an anonymous class added to its hierarchy *)
                let '(c, vm) :=
                  if negb (gravity_class_is_anon H cls) then
                    (* no super anonymous class found so create a new one, set its
                       super as c, and add it to the hierarchy *)
                    let '(name, vm) := gravity_vm_anonymous H vm in
                    let vm := gravity_gc_setenabled vm false in
                    let '(anon, vm) := gravity_class_new_pair H vm name c in
                    let vm := gravity_gc_setenabled vm true in
                    let vm := set_objclass vm object anon in
                    (* store anonymous class (and its meta) into VM context *)
                    let vm := gravity_vm_setvalue vm name (VALUE_FROM_OBJECT KClass anon) in
                    (anon, vm)
                  else (c, vm) in
                (* add closure to anonymous class *)
                (RETURN_NOVALUE, gravity_class_bind vm c key (arg args 2))
          end
    | VALUE_FROM_STRING _, _ => (RETURN_ERROR "Second argument must be a Closure.", vm)
    | _, _ => (RETURN_ERROR "First argument must be a String.", vm)
    end.

(** ** List: sort and sorted *)

Definition array_get (vm : gravity_vm) (array : ref) (i : Z) : GravityValue :=
  match vm_lists vm !! array with
  | Some a => nth (Z.to_nat i) a from_null
  | None => from_null
  end.

Definition array_set (vm : gravity_vm) (array : ref) (i : Z) (v : GravityValue)
  : gravity_vm :=
  set_lists (alter (fun a => <[Z.to_nat i := v]> a) array (vm_lists vm)) vm.

Definition list_comparison_callback : Type :=
  gravity_vm -> GravityValue -> GravityValue -> bool * gravity_vm.

Definition list_default_number_compare : list_comparison_callback :=
  fun vm val1 val2 =>
    let '(v1, vm) := convert_value2float vm val1 in
    let n1 := value_f v1 in
    let '(v2, vm) := convert_value2float vm val2 in
    let n2 := value_f v2 in
    (float_gt n1 n2, vm).

Definition list_default_string_compare : list_comparison_callback :=
  fun vm val1 val2 =>
    let '(s1, vm) := convert_value2string CONVERT_DEPTH vm val1 in
    let '(s2, vm) := convert_value2string CONVERT_DEPTH vm val2 in
    match s1, s2 with
    | VALUE_FROM_STRING a, VALUE_FROM_STRING b => (0 <? strcmp a b, vm)
    | _, _ => (false, vm)
    end.

Definition compare_values (vm : gravity_vm) (selfvalue val1 val2 : GravityValue)
  (predicate : ref) : bool * gravity_vm :=
  let '(ok, vm) := gravity_vm_runclosure vm predicate selfvalue [val1; val2] in
  if negb ok then (false, vm)
  else
    let result := gravity_vm_result vm in
    (* only a truthy value can be interpreted as the result of a comparison *)
    let '(truthy_value, vm) := convert_value2bool vm result in
    (LOGIC (value_n truthy_value), vm).

(** The test of the loop of [partition]:
    (predicate && !compare_values(...)) || (callback && !callback(...)). *)
Definition partition_test (vm : gravity_vm) (selfvalue x pivot : GravityValue)
  (predicate : option ref) (callback : option list_comparison_callback)
  : bool * gravity_vm :=
  let '(by_predicate, vm) :=
    match predicate with
    | Some p => let '(b, vm) := compare_values vm selfvalue x pivot p in (negb b, vm)
    | None => (false, vm)
    end in
  if by_predicate then (true, vm)
  else
    match callback with
    | Some cb => let '(b, vm) := cb vm x pivot in (negb b, vm)
    | None => (false, vm)
    end.

(** The loop of [partition], [n] iterations from index [j]; [i] is the
    end of the part already placed before the pivot. *)
Fixpoint partition_loop (n : nat) (vm : gravity_vm) (array : ref) (j i : Z)
  (pivot selfvalue : GravityValue) (predicate : option ref)
  (callback : option list_comparison_callback) : Z * gravity_vm :=
  match n with
  | O => (i, vm)
  | S n' =>
      let '(b, vm) := partition_test vm selfvalue (array_get vm array j) pivot predicate callback in
      if b then
        let i := i + 1 in
        (* swap a[i], a[j] *)
        let temp := array_get vm array i in
        let vm := array_set vm array i (array_get vm array j) in
        let vm := array_set vm array j temp in
        partition_loop n' vm array (j + 1) i pivot selfvalue predicate callback
      else partition_loop n' vm array (j + 1) i pivot selfvalue predicate callback
  end.

Definition partition (vm : gravity_vm) (array : ref) (low high : Z)
  (selfvalue : GravityValue) (predicate : option ref)
  (callback : option list_comparison_callback) : Z * gravity_vm :=
  let pivot := array_get vm array high in
  let i := low - 1 in
  let '(i, vm) :=
    partition_loop (Z.to_nat (high - low)) vm array low i pivot selfvalue predicate callback in
  let temp := array_get vm array (i + 1) in
  let vm := array_set vm array (i + 1) (array_get vm array high) in
  let vm := array_set vm array high temp in
  (i + 1, vm).

(** The index [partition] returns lies between [low] and [high]: the
    recursive calls of [quicksort] are on strictly shorter segments. *)
Lemma partition_loop_bounds (n : nat) :
  forall vm array j i pivot selfvalue predicate callback,
    i <= fst (partition_loop n vm array j i pivot selfvalue predicate callback)
      <= i + Z.of_nat n.
Proof.
  induction n as [|n IH]; intros vm array j i pivot selfvalue predicate callback.
  - simpl. lia.
  - cbn [partition_loop].
    destruct (partition_test vm selfvalue (array_get vm array j) pivot predicate callback)
      as [b vm1].
    destruct b.
    + match goal with
      | |- _ <= fst (partition_loop n ?v ?a ?j' ?i' ?p ?s ?pr ?cb) <= _ =>
          specialize (IH v a j' i' p s pr cb)
      end.
      lia.
    + specialize (IH vm1 array (j + 1) i pivot selfvalue predicate callback). lia.
Qed.

Lemma partition_bounds vm array low high selfvalue predicate callback :
  low <= high ->
  low <= fst (partition vm array low high selfvalue predicate callback) <= high.
Proof.
  intros Hle. unfold partition.
  pose proof (partition_loop_bounds (Z.to_nat (high - low)) vm array low (low - 1)
                (array_get vm array high) selfvalue predicate callback) as Hb.
  destruct (partition_loop (Z.to_nat (high - low)) vm array low (low - 1)
              (array_get vm array high) selfvalue predicate callback) as [i vm1].
  simpl in *. lia.
Qed.

(** [quicksort]: nothing on an aborted machine or on a segment of fewer
    than two elements; otherwise partition, then sort below and above the
    pivot.  [cmp_closure] is the parameter [predicate] of the source. *)
Equations? quicksort (vm : gravity_vm) (array : ref) (low high : Z)
  (selfvalue : GravityValue) (cmp_closure : option ref)
  (callback : option list_comparison_callback) : gravity_vm
  by wf (Z.to_nat (high + 1 - low)) lt :=
quicksort vm array low high selfvalue cmp_closure callback
  with gravity_vm_isaborted vm := {
  | true => vm
  | false with Z_lt_dec low high := {
    | right _ => vm
    | left Hlt
        with exist (fun r => partition vm array low high selfvalue cmp_closure callback = r)
               (partition vm array low high selfvalue cmp_closure callback) eq_refl := {
      | exist _ (pi, vm1) Hp =>
          quicksort
            (quicksort vm1 array low (pi - 1) selfvalue cmp_closure callback)
            array (pi + 1) high selfvalue cmp_closure callback } } }.
Proof.
  all: pose proof (partition_bounds vm array low high selfvalue cmp_closure callback
                     ltac:(lia)) as Hb;
    rewrite Hp in Hb; simpl in Hb; lia.
Defined.

(** The comparison [list_sort] and [list_sorted] pick when no predicate is
    given: numeric when the first element is an Int or a Float,
    lexicographic otherwise. *)
Definition default_callback (first_value : GravityValue) : list_comparison_callback :=
  if (IsInt first_value || IsFloat first_value)%bool then list_default_number_compare
  else list_default_string_compare.

Definition sort_predicate (args : list GravityValue) (nargs : Z) : option ref :=
  if 2 <=? nargs then
    match arg args 1 with
    | VALUE_FROM_OBJECT KClosure p => Some p
    | _ => None
    end
  else None.

Definition list_sort (vm : gravity_vm) (args : list GravityValue) (nargs : Z)
  (rindex : nat) : native_result * gravity_vm :=
  (* the predicate is the comparison function passed to list.sort() if any *)
  let predicate := sort_predicate args nargs in
  let selfvalue := arg args 0 in
  match selfvalue with
  | VALUE_FROM_OBJECT KList list =>
      match vm_lists vm !! list with
      | None => (INVALID_POINTER, vm)
      | Some array =>
          let count := to_int32 (Z.of_nat (length array)) in
          let vm :=
            if 1 <? count then
              let callback :=
                match predicate with
                | None => Some (default_callback (array_get vm list 0))
                | Some _ => None
                end in
              quicksort vm list 0 (count - 1) selfvalue predicate callback
            else vm in
          (RETURN_VALUE (VALUE_FROM_OBJECT KList list) rindex, vm)
      end
  | _ => (INVALID_POINTER, vm)
  end.

(** [gravity_list_new]: a list object at an address that holds none.
    [gravity_vm_transfer] hands the object to the collector, which the model
    does not track. *)
Definition gravity_list_new (vm : gravity_vm) (array : list GravityValue)
  : ref * gravity_vm :=
  let p := fresh (dom (vm_lists vm)) in
  (p, set_lists (<[p := array]> (vm_lists vm)) vm).

Definition list_sorted (vm : gravity_vm) (args : list GravityValue) (nargs : Z)
  (rindex : nat) : native_result * gravity_vm :=
  (* the predicate is the comparison function passed to list.sort() if any *)
  let predicate := sort_predicate args nargs in
  let selfvalue := arg args 0 in
  match selfvalue with
  | VALUE_FROM_OBJECT KList list =>
      match vm_lists vm !! list with
      | None => (INVALID_POINTER, vm)
      | Some array =>
          let count := to_int32 (Z.of_nat (length array)) in
          (* the new list holds a copy of the elements (memcpy) *)
          let first_value := array_get vm list 0 in
          let '(newlist, vm) := gravity_list_new vm array in
          let vm :=
            if 1 <? count then
              let callback :=
                match predicate with
                | None => Some (default_callback first_value)
                | Some _ => None
                end in
              quicksort vm newlist 0 (count - 1) selfvalue predicate callback
            else vm in
          (RETURN_VALUE (VALUE_FROM_OBJECT KList newlist) rindex, vm)
      end
  | _ => (INVALID_POINTER, vm)
  end.

(** ** Map and Range *)

Definition map_iterator (vm : gravity_vm) (args : list GravityValue) (nargs : Z)
  (rindex : nat) : native_result * gravity_vm :=
  (* the for loop would not end on a Null result, so the answer is false *)
  (RETURN_VALUE VALUE_FROM_FALSE rindex, vm).

(** The first loop of [range_loop]: while (i <= n) run the closure on i and
    increment i.  The loop gives [Some true] when it runs to its end and
    [Some false] when an invocation fails.  After a successful invocation on
    INT64_MAX the increment overflows: the counter wraps around, the test
    [i <= n] holds again and the loop does not end; the model stops there
    with [None]. *)
Equations? range_loop_forward (vm : gravity_vm) (closure : ref) (value : GravityValue)
  (i n : Z) : option bool * gravity_vm by wf (Z.to_nat (n + 1 - i)) lt :=
range_loop_forward vm closure value i n with Z_le_dec i n := {
  | right _ => (Some true, vm)
  | left Hle with gravity_vm_runclosure vm closure value [from_int i] := {
    | (false, vm') => (Some false, vm')
    | (true, vm') with Z.eq_dec i INT64_MAX := {
      | left _ => (None, vm')
      | right _ => range_loop_forward vm' closure value (i + 1) n } } }.
Proof. lia. Defined.

(** The second loop: while (n >= i) run the closure on n and decrement n.
    After a successful invocation on INT64_MIN the decrement overflows and
    the loop does not end: [None]. *)
Equations? range_loop_backward (vm : gravity_vm) (closure : ref) (value : GravityValue)
  (n i : Z) : option bool * gravity_vm by wf (Z.to_nat (n + 1 - i)) lt :=
range_loop_backward vm closure value n i with Z_le_dec i n := {
  | right _ => (Some true, vm)
  | left Hle with gravity_vm_runclosure vm closure value [from_int n] := {
    | (false, vm') => (Some false, vm')
    | (true, vm') with Z.eq_dec n INT64_MIN := {
      | left _ => (None, vm')
      | right _ => range_loop_backward vm' closure value (n - 1) i } } }.
Proof. lia. Defined.

Definition range_loop (vm : gravity_vm) (args : list GravityValue) (nargs : Z)
  (rindex : nat) : native_result * gravity_vm :=
  if nargs <? 2 then (RETURN_ERROR "Incorrect number of arguments.", vm)
  else
    match arg args 1 with
    | VALUE_FROM_OBJECT KClosure closure =>
        let value := arg args 0 in
        match value with
        | VALUE_FROM_OBJECT KRange p =>
            match vm_ranges vm !! p with
            | None => (INVALID_POINTER, vm)
            | Some range =>
                let is_forward := r_from range <? r_to range in
                let '(t1, vm) := nanotime vm in
                let '(ok, vm) :=
                  if is_forward then
                    range_loop_forward vm closure value (r_from range) (r_to range)
                  else
                    range_loop_backward vm closure value (r_from range) (r_to range) in
                match ok with
                | None => (INTEGER_OVERFLOW, vm)
                | Some false => (RETURN_FALSE, vm)
                | Some true =>
                    let '(t2, vm) := nanotime vm in
                    (RETURN_VALUE (from_int (wrap64 (t2 - t1))) rindex, vm)
                end
            end
        | _ => (INVALID_POINTER, vm)
        end
    | _ => (RETURN_ERROR "Argument must be a Closure.", vm)
    end.

(** ** Fiber *)

Definition fiber_with_elapsedtime (fb : gravity_fiber_t) (t : gravity_float_t)
  : gravity_fiber_t :=
  {| fb_caller := fb_caller fb; fb_trying := fb_trying fb; fb_status := fb_status fb;
     fb_timewait := fb_timewait fb; fb_lasttime := fb_lasttime fb; fb_elapsedtime := t;
     fb_nframes := fb_nframes fb; fb_error := fb_error fb |}.

(** fiber->caller, fiber->trying and fiber->status as [fiber_run] sets them. *)
Definition fiber_resumed (fb : gravity_fiber_t) (caller : ref) (is_trying : bool)
  : gravity_fiber_t :=
  {| fb_caller := Some caller; fb_trying := is_trying;
     fb_status := if is_trying then FIBER_TRYING else FIBER_RUNNING;
     fb_timewait := fb_timewait fb; fb_lasttime := fb_lasttime fb;
     fb_elapsedtime := fb_elapsedtime fb;
     fb_nframes := fb_nframes fb; fb_error := fb_error fb |}.

(** fiber->timewait and fiber->lasttime as the yields set them. *)
Definition fiber_with_times (fb : gravity_fiber_t) (timewait : gravity_float_t)
  (lasttime : Z) : gravity_fiber_t :=
  {| fb_caller := fb_caller fb; fb_trying := fb_trying fb; fb_status := fb_status fb;
     fb_timewait := timewait; fb_lasttime := lasttime;
     fb_elapsedtime := fb_elapsedtime fb;
     fb_nframes := fb_nframes fb; fb_error := fb_error fb |}.

(** fiber->caller = NULL; fiber->trying = false. *)
Definition fiber_unhooked (fb : gravity_fiber_t) : gravity_fiber_t :=
  {| fb_caller := None; fb_trying := false; fb_status := fb_status fb;
     fb_timewait := fb_timewait fb; fb_lasttime := fb_lasttime fb;
     fb_elapsedtime := fb_elapsedtime fb;
     fb_nframes := fb_nframes fb; fb_error := fb_error fb |}.

Definition store_fiber (vm : gravity_vm) (fiber : ref) (fb : gravity_fiber_t)
  : gravity_vm :=
  set_fibers (<[fiber := fb]> (vm_fibers vm)) vm.

Definition fiber_run (vm : gravity_vm) (args : list GravityValue) (nargs : Z)
  (rindex : nat) (is_trying : bool) : native_result * gravity_vm :=
  (* set rindex slot to NULL in order to falsify the if closure check performed by the VM *)
  let vm := gravity_vm_setslot vm from_null rindex in
  match arg args 0 with
  | VALUE_FROM_OBJECT KFiber fiber =>
      match vm_fibers vm !! fiber with
      | None => (INVALID_POINTER, vm)
      | Some fb =>
          if negb (bool_decide (fb_caller fb = None)) then
            (RETURN_ERROR "Fiber has already been called.", vm)
          else
            (* always update elapsed time *)
            let '(now, vm) := nanotime vm in
            let fb := fiber_with_elapsedtime fb (elapsed_seconds now (fb_lasttime fb)) in
            let vm := store_fiber vm fiber fb in
            (* check if minimum timewait is passed *)
            if (float_gt (fb_timewait fb) float_zero
                && float_lt (fb_elapsedtime fb) (fb_timewait fb))%bool
            then (RETURN_NOVALUE, vm)
            else
              (* remember who ran the fiber, set trying flag *)
              let fb := fiber_resumed fb (gravity_vm_fiber vm) is_trying in
              let vm := store_fiber vm fiber fb in
              (* switch currently running fiber *)
              let vm := gravity_vm_setfiber vm fiber in
              (RETURN_FIBER, vm)
      end
  | _ => (INVALID_POINTER, vm)
  end.

Definition fiber_exec (vm : gravity_vm) (args : list GravityValue) (nargs : Z)
  (rindex : nat) : native_result * gravity_vm :=
  fiber_run vm args nargs rindex false.

Definition fiber_try (vm : gravity_vm) (args : list GravityValue) (nargs : Z)
  (rindex : nat) : native_result * gravity_vm :=
  fiber_run vm args nargs rindex true.

(** The common end of [fiber_yield] and [fiber_yield_time]. *)
Definition yield_to_caller (vm : gravity_vm) (fiber : ref) (fb : gravity_fiber_t)
  : native_result * gravity_vm :=
  match fb_caller fb with
  | Some caller =>
      let vm := gravity_vm_setfiber vm caller in
      (* unhook this fiber from the one that called it *)
      let vm := store_fiber vm fiber (fiber_unhooked fb) in
      (RETURN_FIBER, vm)
  | None =>
      (* in no caller then this is just a NOP *)
      (RETURN_NOVALUE, vm)
  end.

Definition fiber_yield (vm : gravity_vm) (args : list GravityValue) (nargs : Z)
  (rindex : nat) : native_result * gravity_vm :=
  let vm := gravity_vm_setslot vm from_null rindex in
  (* get currently executed fiber *)
  let fiber := gravity_vm_fiber vm in
  match vm_fibers vm !! fiber with
  | None => (INVALID_POINTER, vm)
  | Some fb =>
      (* reset wait time and update last time *)
      let '(now, vm) := nanotime vm in
      let fb := fiber_with_times fb float_zero now in
      let vm := store_fiber vm fiber fb in
      yield_to_caller vm fiber fb
  end.

Definition fiber_yield_time (vm : gravity_vm) (args : list GravityValue) (nargs : Z)
  (rindex : nat) : native_result * gravity_vm :=
  let vm := gravity_vm_setslot vm from_null rindex in
  (* get currently executed fiber *)
  let fiber := gravity_vm_fiber vm in
  match vm_fibers vm !! fiber with
  | None => (INVALID_POINTER, vm)
  | Some fb =>
      (* if parameter is a float/int set its wait time (otherwise ignore it) *)
      let timewait :=
        match arg args 1 with
        | from_float f => f
        | from_int n => float_of_int n
        | _ => fb_timewait fb
        end in
      (* update last time *)
      let '(now, vm) := nanotime vm in
      let fb := fiber_with_times fb timewait now in
      let vm := store_fiber vm fiber fb in
      yield_to_caller vm fiber fb
  end.

(** ** Int and Null operators *)

Definition operator_int_sub (vm : gravity_vm) (args : list GravityValue) (nargs : Z)
  (rindex : nat) : native_result * gravity_vm :=
  let v1 := arg args 0 in
  let v2 := arg args 1 in
  let '(v2, vm) := convert_value2int vm v2 in
  if is_error v2 then (RETURN_ERROR "Unable to convert object to Int", vm)
  else (RETURN_VALUE (from_int (wrap64 (value_n v1 - value_n v2))) rindex, vm).

(** [operator_int_div].  The quotient of INT64_MIN by -1 does not fit in
    [gravity_int_t]: the division traps and the native does not return. *)
Definition operator_int_div (vm : gravity_vm) (args : list GravityValue) (nargs : Z)
  (rindex : nat) : native_result * gravity_vm :=
  let v1 := arg args 0 in
  let v2 := arg args 1 in
  let '(v2, vm) := convert_value2int vm v2 in
  if is_error v2 then (RETURN_ERROR "Unable to convert object to Int", vm)
  else if value_n v2 =? 0 then (RETURN_ERROR "Division by 0 error.", vm)
  else if (value_n v1 =? INT64_MIN) && (value_n v2 =? -1) then (INTEGER_OVERFLOW, vm)
  else (RETURN_VALUE (from_int (wrap64 (Z.quot (value_n v1) (value_n v2)))) rindex, vm).

Definition operator_null_add (vm : gravity_vm) (args : list GravityValue) (nargs : Z)
  (rindex : nat) : native_result * gravity_vm :=
  (* NULL + v2 = v2 *)
  (RETURN_VALUE (arg args 1) rindex, vm).

Definition operator_null_sub (vm : gravity_vm) (args : list GravityValue) (nargs : Z)
  (rindex : nat) : native_result * gravity_vm :=
  (* NULL - v2 is computed as -v2 (NULL is interpreted as zero) *)
  let args := <[O := from_int 0]> args in
  operator_int_sub vm args nargs rindex.

Definition operator_null_div (vm : gravity_vm) (args : list GravityValue) (nargs : Z)
  (rindex : nat) : native_result * gravity_vm :=
  (* NULL / v2 = 0 *)
  (RETURN_VALUE (from_int 0) rindex, vm).

Definition operator_null_mul (vm : gravity_vm) (args : list GravityValue) (nargs : Z)
  (rindex : nat) : native_result * gravity_vm :=
  (* NULL * v2 = 0 *)
  (RETURN_VALUE (from_int 0) rindex, vm).

Definition operator_null_rem (vm : gravity_vm) (args : list GravityValue) (nargs : Z)
  (rindex : nat) : native_result * gravity_vm :=
  (* NULL % v2 = 0 *)
  (RETURN_VALUE (from_int 0) rindex, vm).

End Core.

(** * Further natives of the core classes

    The natives of List, Range, Int, Null, Fiber and Object that the
    sections above leave out, in the same conventions. *)

Definition set_ranges (x : gmap ref gravity_range_t) (vm : gravity_vm) : gravity_vm :=
  {| vm_classes := vm_classes vm; vm_instances := vm_instances vm; vm_lists := vm_lists vm;
     vm_maps := vm_maps vm; vm_ranges := x; vm_functions := vm_functions vm;
     vm_closures := vm_closures vm; vm_fibers := vm_fibers vm; vm_fiber := vm_fiber vm;
     vm_slots := vm_slots vm; vm_result := vm_result vm; vm_closure := vm_closure vm;
     vm_aborted := vm_aborted vm; vm_gc_enabled := vm_gc_enabled vm;
     vm_globals := vm_globals vm; vm_clock := vm_clock vm; vm_calls := vm_calls vm |}.

Definition set_closures (x : gmap ref gravity_closure_t) (vm : gravity_vm) : gravity_vm :=
  {| vm_classes := vm_classes vm; vm_instances := vm_instances vm; vm_lists := vm_lists vm;
     vm_maps := vm_maps vm; vm_ranges := vm_ranges vm; vm_functions := vm_functions vm;
     vm_closures := x; vm_fibers := vm_fibers vm; vm_fiber := vm_fiber vm;
     vm_slots := vm_slots vm; vm_result := vm_result vm; vm_closure := vm_closure vm;
     vm_aborted := vm_aborted vm; vm_gc_enabled := vm_gc_enabled vm;
     vm_globals := vm_globals vm; vm_clock := vm_clock vm; vm_calls := vm_calls vm |}.

(** The interpreter leaves the value a closure returned where
    [gravity_vm_result] reads it. *)
Definition set_result (x : GravityValue) (vm : gravity_vm) : gravity_vm :=
  {| vm_classes := vm_classes vm; vm_instances := vm_instances vm; vm_lists := vm_lists vm;
     vm_maps := vm_maps vm; vm_ranges := vm_ranges vm; vm_functions := vm_functions vm;
     vm_closures := vm_closures vm; vm_fibers := vm_fibers vm; vm_fiber := vm_fiber vm;
     vm_slots := vm_slots vm; vm_result := x; vm_closure := vm_closure vm;
     vm_aborted := vm_aborted vm; vm_gc_enabled := vm_gc_enabled vm;
     vm_globals := vm_globals vm; vm_clock := vm_clock vm; vm_calls := vm_calls vm |}.

(** The type of a native: machine, registers, number of arguments and
    result register. *)
Definition gravity_c_native : Type :=
  gravity_vm -> list GravityValue -> Z -> nat -> native_result * gravity_vm.

(** The array of values a list owns. *)
Abbreviation gravity_value_r := (list GravityValue) (only parsing).

Section Natives.

Context (H : gravity_host).

(** ** List *)

(** [static_cast<gravity_list_t *>(v)], with the array the list owns. *)
Definition VALUE_AS_LIST (vm : gravity_vm) (v : GravityValue)
  : option (ref * list GravityValue) :=
  match v with
  | VALUE_FROM_OBJECT KList p => pair p <$> vm_lists vm !! p
  | _ => None
  end.

(** [array.getCount()]: the number of elements, [array.n]. *)
Definition getCount (array : list GravityValue) : Z := Z.of_nat (length array).

Definition list_count (vm : gravity_vm) (args : list GravityValue) (nargs : Z)
  (rindex : nat) : native_result * gravity_vm :=
  match VALUE_AS_LIST vm (arg args 0) with
  | None => (INVALID_POINTER, vm)
  | Some (list, array) => (RETURN_VALUE (from_int (getCount array)) rindex, vm)
  end.

(** The message of the bounds errors: both numbers are printed with %d, the
    second one being the unsigned [count-1]. *)
Definition out_of_bounds_error (index count : Z) : string :=
  "Out of bounds error: index " ++ format_int64 index
  ++ " beyond bounds 0..." ++ format_int64 (to_int32 (count - 1)).

Definition list_loadat (vm : gravity_vm) (args : list GravityValue) (nargs : Z)
  (rindex : nat) : native_result * gravity_vm :=
  match VALUE_AS_LIST vm (arg args 0) with
  | None => (INVALID_POINTER, vm)
  | Some (list, array) =>
      let value := arg args 1 in
      if negb (IsInt value) then
        (RETURN_ERROR "An integer index is required to access a list item.", vm)
      else
        let index := to_int32 (value_n H value) in
        let count := to_uint32 (getCount array) in
        let index := if index <? 0 then to_int32 (count + index) else index in
        if (index <? 0) || (count <=? to_uint32 index) then
          (RETURN_ERROR (out_of_bounds_error index count), vm)
        else (RETURN_VALUE (array_get vm list index) rindex, vm)
  end.


Definition list_push (vm : gravity_vm) (args : list GravityValue) (nargs : Z)
  (rindex : nat) : native_result * gravity_vm :=
  match VALUE_AS_LIST vm (arg args 0) with
  | None => (INVALID_POINTER, vm)
  | Some (list, array) =>
      let value := arg args 1 in
      let array := array ++ [value] in
      let vm := set_lists (<[list := array]> (vm_lists vm)) vm in
      (RETURN_VALUE (from_int (getCount array)) rindex, vm)
  end.

Definition list_pop (vm : gravity_vm) (args : list GravityValue) (nargs : Z)
  (rindex : nat) : native_result * gravity_vm :=
  match VALUE_AS_LIST vm (arg args 0) with
  | None => (INVALID_POINTER, vm)
  | Some (list, array) =>
      let count := getCount array in
      if count <? 1 then (RETURN_ERROR "Unable to pop a value from an empty list.", vm)
      else
        (* array.pop(): the last element leaves the array *)
        let value := array_get vm list (count - 1) in
        let vm := set_lists (<[list := take (length array - 1) array]> (vm_lists vm)) vm in
        (RETURN_VALUE value rindex, vm)
  end.

Definition list_remove (vm : gravity_vm) (args : list GravityValue) (nargs : Z)
  (rindex : nat) : native_result * gravity_vm :=
  match VALUE_AS_LIST vm (arg args 0) with
  | None => (INVALID_POINTER, vm)
  | Some (list, array) =>
      if negb (IsInt (arg args 1)) then (RETURN_ERROR "Parameter must be of type Int.", vm)
      else
        let index := value_n H (arg args 1) in
        let count := getCount array in
        if (index <? 0) || (count <=? index) then (RETURN_ERROR "Out of bounds index.", vm)
        else
          (* remove an item means move others down *)
          let vm :=
            set_lists (<[list := delete (Z.to_nat index) array]> (vm_lists vm)) vm in
          (RETURN_VALUE (arg args 0) rindex, vm)
  end.

Definition list_iterator (vm : gravity_vm) (args : list GravityValue) (nargs : Z)
  (rindex : nat) : native_result * gravity_vm :=
  match VALUE_AS_LIST vm (arg args 0) with
  | None => (INVALID_POINTER, vm)
  | Some (list, array) =>
      (* check for empty list first *)
      let count := to_uint32 (getCount array) in
      if count =? 0 then (RETURN_VALUE VALUE_FROM_FALSE rindex, vm)
      (* check for start of iteration *)
      else if VALUE_ISA_NULL (arg args 1) then (RETURN_VALUE (from_int 0) rindex, vm)
      else
        let value := arg args 1 in
        (* check error condition *)
        if negb (IsInt value) then
          (RETURN_ERROR "Iterator expects a numeric value here.", vm)
        else
          (* compute new value *)
          let n := value_n H value in
          if wrap64 (n + 1) <? count then (RETURN_VALUE (from_int (wrap64 (n + 1))) rindex, vm)
          else (RETURN_VALUE VALUE_FROM_FALSE rindex, vm)
  end.

Definition list_iterator_next (vm : gravity_vm) (args : list GravityValue) (nargs : Z)
  (rindex : nat) : native_result * gravity_vm :=
  match VALUE_AS_LIST vm (arg args 0) with
  | None => (INVALID_POINTER, vm)
  | Some (list, array) =>
      let index := to_int32 (value_n H (arg args 1)) in
      (RETURN_VALUE (array_get vm list index) rindex, vm)
  end.

(** The loop of [list_loop]: while (i < n) run the closure on the element at
    [i], read from the list as it is at that moment. *)
Equations? list_loop_from (vm : gravity_vm) (closure : ref) (value : GravityValue)
  (list : ref) (i n : Z) : bool * gravity_vm by wf (Z.to_nat (n - i)) lt :=
list_loop_from vm closure value list i n with Z_lt_dec i n := {
  | right _ => (true, vm)
  | left Hlt with gravity_vm_runclosure H vm closure value [array_get vm list i] := {
    | (false, vm') => (false, vm')
    | (true, vm') => list_loop_from vm' closure value list (i + 1) n } }.
Proof. lia. Defined.

Definition list_loop (vm : gravity_vm) (args : list GravityValue) (nargs : Z)
  (rindex : nat) : native_result * gravity_vm :=
  if nargs <? 2 then (RETURN_ERROR "Incorrect number of arguments.", vm)
  else
    match arg args 1 with
    | VALUE_FROM_OBJECT KClosure closure =>
        let value := arg args 0 in
        match VALUE_AS_LIST vm value with
        | None => (INVALID_POINTER, vm)
        | Some (list, array) =>
            let n := to_uint32 (getCount array) in
            let '(t1, vm) := nanotime H vm in
            let '(ok, vm) := list_loop_from vm closure value list 0 n in
            if negb ok then (RETURN_FALSE, vm)
            else
              let '(t2, vm) := nanotime H vm in
              (RETURN_VALUE (from_int (wrap64 (t2 - t1))) rindex, vm)
        end
    | _ => (RETURN_ERROR "Argument must be a Closure.", vm)
    end.

(** The loop of [list_reverse]: swap the elements at [i] and [count-i-1]. *)
Equations? list_reverse_from (vm : gravity_vm) (list : ref) (count i : Z)
  : gravity_vm by wf (Z.to_nat (count / 2 - i)) lt :=
list_reverse_from vm list count i with Z_lt_dec i (count / 2) := {
  | right _ => vm
  | left Hlt =>
      list_reverse_from
        (array_set (array_set vm list (count - i - 1) (array_get vm list i))
           list i (array_get vm list (count - i - 1)))
        list count (i + 1) }.
Proof. lia. Defined.

Definition list_reverse (vm : gravity_vm) (args : list GravityValue) (nargs : Z)
  (rindex : nat) : native_result * gravity_vm :=
  if 1 <? nargs then (RETURN_ERROR "Incorrect number of arguments.", vm)
  else
    match VALUE_AS_LIST vm (arg args 0) with
    | None => (INVALID_POINTER, vm)
    | Some (list, array) =>
        let count := getCount array in
        let vm := list_reverse_from vm list count 0 in
        (RETURN_VALUE (VALUE_FROM_OBJECT KList list) rindex, vm)
    end.

(** The loop of [list_reversed]: the new list receives the elements from
    the last one down. *)
Equations? list_reversed_from (vm : gravity_vm) (list : ref)
  (newlist : gravity_value_r) (count i : Z)
  : gravity_value_r by wf (Z.to_nat (count - i)) lt :=
list_reversed_from vm list newlist count i with Z_lt_dec i count := {
  | right _ => newlist
  | left Hlt =>
      list_reversed_from vm list (newlist ++ [array_get vm list (count - i - 1)])
        count (i + 1) }.
Proof. lia. Defined.

(** [list_reversed].  The new list is filled before the model gives it its
    address: nothing reads the store in between. *)
Definition list_reversed (vm : gravity_vm) (args : list GravityValue) (nargs : Z)
  (rindex : nat) : native_result * gravity_vm :=
  if 1 <? nargs then (RETURN_ERROR "Incorrect number of arguments.", vm)
  else
    match VALUE_AS_LIST vm (arg args 0) with
    | None => (INVALID_POINTER, vm)
    | Some (list, array) =>
        let count := getCount array in
        let '(newlist, vm) :=
          gravity_list_new vm (list_reversed_from vm list [] count 0) in
        (RETURN_VALUE (VALUE_FROM_OBJECT KList newlist) rindex, vm)
    end.

(** The loop of [list_map]: the result of each invocation is stored at the
    element's index of the new list, which the machine does not hold until
    the loop is over. *)
Equations? list_map_from (vm : gravity_vm) (closure : ref) (selfvalue : GravityValue)
  (list : ref) (newlist : gravity_value_r) (i count : Z)
  : option gravity_value_r * gravity_vm by wf (Z.to_nat (count - i)) lt :=
list_map_from vm closure selfvalue list newlist i count with Z_lt_dec i count := {
  | right _ => (Some newlist, vm)
  | left Hlt with gravity_vm_runclosure H vm closure selfvalue [array_get vm list i] := {
    | (false, vm') => (None, vm')
    | (true, vm') =>
        list_map_from vm' closure selfvalue list
          (<[Z.to_nat i := gravity_vm_result vm']> newlist) (i + 1) count } }.
Proof. lia. Defined.

(** [list_map].  The new list starts with the receiver's number of elements
    ([newlist->array.n = list->array.n]); its slots, which C leaves
    uninitialised, read as Null until the loop writes them. *)
Definition list_map (vm : gravity_vm) (args : list GravityValue) (nargs : Z)
  (rindex : nat) : native_result * gravity_vm :=
  if negb (nargs =? 2) then (RETURN_ERROR "One argument is needed by the map function.", vm)
  else
    match arg args 1 with
    | VALUE_FROM_OBJECT KClosure closure =>
        let selfvalue := arg args 0 in
        match VALUE_AS_LIST vm selfvalue with
        | None => (INVALID_POINTER, vm)
        | Some (list, array) =>
            let count := getCount array in
            let newlist := replicate (length array) from_null in
            match list_map_from vm closure selfvalue list newlist 0 count with
            | (None, vm) => (RETURN_FALSE, vm)
            | (Some newlist, vm) =>
                let '(p, vm) := gravity_list_new vm newlist in
                (RETURN_VALUE (VALUE_FROM_OBJECT KList p) rindex, vm)
            end
        end
    | _ => (RETURN_ERROR "Argument must be a Closure.", vm)
    end.

(** One turn of the loop of [list_filter]: run the closure on the element,
    convert its result to Bool, and insert the element (read through the
    pointer taken before the call) when it is true. *)
Definition list_filter_step (vm : gravity_vm) (closure : ref) (selfvalue : GravityValue)
  (list : ref) (newlist : gravity_value_r) (i : Z)
  : option gravity_value_r * gravity_vm :=
  let '(ok, vm) := gravity_vm_runclosure H vm closure selfvalue [array_get vm list i] in
  if negb ok then (None, vm)
  else
    let result := gravity_vm_result vm in
    let '(truthy_value, vm) := convert_value2bool H vm result in
    if LOGIC (value_n H truthy_value) then (Some (newlist ++ [array_get vm list i]), vm)
    else (Some newlist, vm).

Equations? list_filter_from (vm : gravity_vm) (closure : ref) (selfvalue : GravityValue)
  (list : ref) (newlist : gravity_value_r) (i count : Z)
  : option gravity_value_r * gravity_vm by wf (Z.to_nat (count - i)) lt :=
list_filter_from vm closure selfvalue list newlist i count with Z_lt_dec i count := {
  | right _ => (Some newlist, vm)
  | left Hlt with list_filter_step vm closure selfvalue list newlist i := {
    | (None, vm') => (None, vm')
    | (Some newlist', vm') =>
        list_filter_from vm' closure selfvalue list newlist' (i + 1) count } }.
Proof. lia. Defined.

Definition list_filter (vm : gravity_vm) (args : list GravityValue) (nargs : Z)
  (rindex : nat) : native_result * gravity_vm :=
  if negb (nargs =? 2) then
    (RETURN_ERROR "One argument is needed by the filter function.", vm)
  else
    match arg args 1 with
    | VALUE_FROM_OBJECT KClosure closure =>
        let selfvalue := arg args 0 in
        match VALUE_AS_LIST vm selfvalue with
        | None => (INVALID_POINTER, vm)
        | Some (list, array) =>
            let count := getCount array in
            match list_filter_from vm closure selfvalue list [] 0 count with
            | (None, vm) => (RETURN_FALSE, vm)
            | (Some newlist, vm) =>
                let '(p, vm) := gravity_list_new vm newlist in
                (RETURN_VALUE (VALUE_FROM_OBJECT KList p) rindex, vm)
            end
        end
    | _ => (RETURN_ERROR "Argument must be a Closure.", vm)
    end.

(** The loop of [list_reduce]: the closure receives the value reduced so
    far and the element, and its result becomes the value reduced so far. *)
Equations? list_reduce_from (vm : gravity_vm) (closure : ref) (selfvalue : GravityValue)
  (list : ref) (start : GravityValue) (i count : Z)
  : option GravityValue * gravity_vm by wf (Z.to_nat (count - i)) lt :=
list_reduce_from vm closure selfvalue list start i count with Z_lt_dec i count := {
  | right _ => (Some start, vm)
  | left Hlt
      with gravity_vm_runclosure H vm closure selfvalue [start; array_get vm list i] := {
    | (false, vm') => (None, vm')
    | (true, vm') =>
        list_reduce_from vm' closure selfvalue list (gravity_vm_result vm') (i + 1) count } }.
Proof. lia. Defined.

Definition list_reduce (vm : gravity_vm) (args : list GravityValue) (nargs : Z)
  (rindex : nat) : native_result * gravity_vm :=
  if negb (nargs =? 3) then
    (RETURN_ERROR "Two arguments are needed by the reduce function.", vm)
  else
    match arg args 2 with
    | VALUE_FROM_OBJECT KClosure closure =>
        let selfvalue := arg args 0 in
        let start := arg args 1 in
        match VALUE_AS_LIST vm selfvalue with
        | None => (INVALID_POINTER, vm)
        | Some (list, array) =>
            let count := getCount array in
            match list_reduce_from vm closure selfvalue list start 0 count with
            | (None, vm) => (RETURN_FALSE, vm)
            | (Some start, vm) => (RETURN_VALUE start rindex, vm)
            end
        end
    | _ => (RETURN_ERROR "Argument 2 must be a Closure.", vm)
    end.

(** ** Range *)

Definition VALUE_AS_RANGE (vm : gravity_vm) (v : GravityValue) : option gravity_range_t :=
  match v with
  | VALUE_FROM_OBJECT KRange p => vm_ranges vm !! p
  | _ => None
  end.

Definition range_count (vm : gravity_vm) (args : list GravityValue) (nargs : Z)
  (rindex : nat) : native_result * gravity_vm :=
  match VALUE_AS_RANGE vm (arg args 0) with
  | None => (INVALID_POINTER, vm)
  | Some range =>
      let count :=
        if r_from range <? r_to range then wrap64 (r_to range - r_from range)
        else wrap64 (r_from range - r_to range) in
      (RETURN_VALUE (from_int (wrap64 (count + 1))) rindex, vm)
  end.

Definition range_from (vm : gravity_vm) (args : list GravityValue) (nargs : Z)
  (rindex : nat) : native_result * gravity_vm :=
  match VALUE_AS_RANGE vm (arg args 0) with
  | None => (INVALID_POINTER, vm)
  | Some range => (RETURN_VALUE (from_int (r_from range)) rindex, vm)
  end.

Definition range_to (vm : gravity_vm) (args : list GravityValue) (nargs : Z)
  (rindex : nat) : native_result * gravity_vm :=
  match VALUE_AS_RANGE vm (arg args 0) with
  | None => (INVALID_POINTER, vm)
  | Some range => (RETURN_VALUE (from_int (r_to range)) rindex, vm)
  end.

Definition range_iterator (vm : gravity_vm) (args : list GravityValue) (nargs : Z)
  (rindex : nat) : native_result * gravity_vm :=
  match VALUE_AS_RANGE vm (arg args 0) with
  | None => (INVALID_POINTER, vm)
  | Some range =>
      (* check for invalid range first *)
      if r_to range <? r_from range then (RETURN_VALUE VALUE_FROM_FALSE rindex, vm)
      (* check for start of iteration *)
      else if VALUE_ISA_NULL (arg args 1) then
        (RETURN_VALUE (from_int (r_from range)) rindex, vm)
      else
        let value := arg args 1 in
        (* check error condition *)
        if negb (IsInt value) then
          (RETURN_ERROR "Iterator expects a numeric value here.", vm)
        else
          (* compute new value *)
          let n := value_n H value in
          if r_from range <? r_to range then
            let n := wrap64 (n + 1) in
            if r_to range <? n then (RETURN_VALUE VALUE_FROM_FALSE rindex, vm)
            else (RETURN_VALUE (from_int n) rindex, vm)
          else
            let n := wrap64 (n - 1) in
            if n <? r_to range then (RETURN_VALUE VALUE_FROM_FALSE rindex, vm)
            else (RETURN_VALUE (from_int n) rindex, vm)
  end.

Definition range_iterator_next (vm : gravity_vm) (args : list GravityValue) (nargs : Z)
  (rindex : nat) : native_result * gravity_vm :=
  (RETURN_VALUE (arg args 1) rindex, vm).

Definition range_contains (vm : gravity_vm) (args : list GravityValue) (nargs : Z)
  (rindex : nat) : native_result * gravity_vm :=
  match VALUE_AS_RANGE vm (arg args 0) with
  | None => (INVALID_POINTER, vm)
  | Some range =>
      let value := arg args 1 in
      (* check error condition *)
      if negb (IsInt value) then (RETURN_ERROR "A numeric value is expected.", vm)
      else
        (RETURN_VALUE
           (VALUE_FROM_BOOL ((r_from range <=? value_n H value)
                             && (value_n H value <=? r_to range))) rindex, vm)
  end.



(** ** Float and Int operators *)

Definition operator_float_cmp (vm : gravity_vm) (args : list GravityValue) (nargs : Z)
  (rindex : nat) : native_result * gravity_vm :=
  let v1 := arg args 0 in
  let v2 := arg args 1 in
  let '(v2, vm) := convert_value2float H vm v2 in
  if is_error v2 then (RETURN_ERROR "Unable to convert object to Float", vm)
  (* simpler equality test *)
  else if SFeqb (value_f H v1) (value_f H v2) then (RETURN_VALUE (from_int 0) rindex, vm)
  else if float_gt (value_f H v1) (value_f H v2) then (RETURN_VALUE (from_int 1) rindex, vm)
  else (RETURN_VALUE (from_int (-1)) rindex, vm).

Definition operator_int_add (vm : gravity_vm) (args : list GravityValue) (nargs : Z)
  (rindex : nat) : native_result * gravity_vm :=
  let v1 := arg args 0 in
  let v2 := arg args 1 in
  let '(v2, vm) := convert_value2int H vm v2 in
  if is_error v2 then (RETURN_ERROR "Unable to convert object to Int", vm)
  else (RETURN_VALUE (from_int (wrap64 (value_n H v1 + value_n H v2))) rindex, vm).

Definition operator_int_mul (vm : gravity_vm) (args : list GravityValue) (nargs : Z)
  (rindex : nat) : native_result * gravity_vm :=
  let v1 := arg args 0 in
  let v2 := arg args 1 in
  let '(v2, vm) := convert_value2int H vm v2 in
  if is_error v2 then (RETURN_ERROR "Unable to convert object to Int", vm)
  else (RETURN_VALUE (from_int (wrap64 (value_n H v1 * value_n H v2))) rindex, vm).

(** [operator_int_rem]: the remainder of C, which has the sign of the
    dividend.  The remainder of INT64_MIN by -1 is computed by the division
    that traps: the native does not return. *)
Definition operator_int_rem (vm : gravity_vm) (args : list GravityValue) (nargs : Z)
  (rindex : nat) : native_result * gravity_vm :=
  let v1 := arg args 0 in
  let v2 := arg args 1 in
  let '(v2, vm) := convert_value2int H vm v2 in
  if is_error v2 then (RETURN_ERROR "Unable to convert object to Int", vm)
  else if value_n H v2 =? 0 then (RETURN_ERROR "Reminder by 0 error.", vm)
  else if (value_n H v1 =? INT64_MIN) && (value_n H v2 =? -1) then (INTEGER_OVERFLOW, vm)
  else (RETURN_VALUE (from_int (wrap64 (Z.rem (value_n H v1) (value_n H v2)))) rindex, vm).

Definition operator_int_and (vm : gravity_vm) (args : list GravityValue) (nargs : Z)
  (rindex : nat) : native_result * gravity_vm :=
  let v1 := arg args 0 in
  let v2 := arg args 1 in
  let '(v1, vm) := convert_value2bool H vm v1 in
  if is_error v1 then (RETURN_ERROR "Unable to convert object to Bool", vm)
  else
    let '(v2, vm) := convert_value2bool H vm v2 in
    if is_error v2 then (RETURN_ERROR "Unable to convert object to Bool", vm)
    else
      (RETURN_VALUE (VALUE_FROM_BOOL (LOGIC (value_n H v1) && LOGIC (value_n H v2))) rindex,
       vm).

Definition operator_int_or (vm : gravity_vm) (args : list GravityValue) (nargs : Z)
  (rindex : nat) : native_result * gravity_vm :=
  let v1 := arg args 0 in
  let v2 := arg args 1 in
  let '(v1, vm) := convert_value2bool H vm v1 in
  if is_error v1 then (RETURN_ERROR "Unable to convert object to Bool", vm)
  else
    let '(v2, vm) := convert_value2bool H vm v2 in
    if is_error v2 then (RETURN_ERROR "Unable to convert object to Bool", vm)
    else
      (RETURN_VALUE (VALUE_FROM_BOOL (LOGIC (value_n H v1) || LOGIC (value_n H v2))) rindex,
       vm).

Definition operator_int_neg (vm : gravity_vm) (args : list GravityValue) (nargs : Z)
  (rindex : nat) : native_result * gravity_vm :=
  (RETURN_VALUE (from_int (wrap64 (- value_n H (arg args 0)))) rindex, vm).

Definition operator_int_not (vm : gravity_vm) (args : list GravityValue) (nargs : Z)
  (rindex : nat) : native_result * gravity_vm :=
  (RETURN_VALUE (VALUE_FROM_BOOL (negb (LOGIC (value_n H (arg args 0))))) rindex, vm).

Definition operator_int_cmp (vm : gravity_vm) (args : list GravityValue) (nargs : Z)
  (rindex : nat) : native_result * gravity_vm :=
  if IsFloat (arg args 1) then
    (* args[0] is INT and args[1] is FLOAT, in this case
       args[0] must be manually converted to FLOAT before the call *)
    let args := <[O := from_float (float_of_int (value_n H (arg args 0)))]> args in
    operator_float_cmp vm args nargs rindex
  else
    let v1 := arg args 0 in
    let v2 := arg args 1 in
    let '(v2, vm) := convert_value2int H vm v2 in
    if is_error v2 then (RETURN_ERROR "Unable to convert object to Int", vm)
    else if value_n H v1 =? value_n H v2 then (RETURN_VALUE (from_int 0) rindex, vm)
    else if value_n H v2 <? value_n H v1 then (RETURN_VALUE (from_int 1) rindex, vm)
    else (RETURN_VALUE (from_int (-1)) rindex, vm).

(** The loop of [int_loop]: while (i < n) run the closure on i. *)
Equations? int_loop_from (vm : gravity_vm) (closure : ref) (value : GravityValue)
  (i n : Z) : bool * gravity_vm by wf (Z.to_nat (n - i)) lt :=
int_loop_from vm closure value i n with Z_lt_dec i n := {
  | right _ => (true, vm)
  | left Hlt with gravity_vm_runclosure H vm closure value [from_int i] := {
    | (false, vm') => (false, vm')
    | (true, vm') => int_loop_from vm' closure value (i + 1) n } }.
Proof. lia. Defined.

Definition int_loop (vm : gravity_vm) (args : list GravityValue) (nargs : Z)
  (rindex : nat) : native_result * gravity_vm :=
  if nargs <? 2 then (RETURN_ERROR "Incorrect number of arguments.", vm)
  else
    match arg args 1 with
    | VALUE_FROM_OBJECT KClosure closure =>
        let value := arg args 0 in
        (* times to execute the loop *)
        let n := value_n H value in
        let '(t1, vm) := nanotime H vm in
        let '(ok, vm) := int_loop_from vm closure value 0 n in
        if negb ok then (RETURN_FALSE, vm)
        else
          let '(t2, vm) := nanotime H vm in
          (RETURN_VALUE (from_int (wrap64 (t2 - t1))) rindex, vm)
    | _ => (RETURN_ERROR "Argument must be a Closure.", vm)
    end.

(** ** Null operators *)

Definition operator_null_and (vm : gravity_vm) (args : list GravityValue) (nargs : Z)
  (rindex : nat) : native_result * gravity_vm :=
  (RETURN_VALUE (VALUE_FROM_BOOL false) rindex, vm).

Definition operator_null_or (vm : gravity_vm) (args : list GravityValue) (nargs : Z)
  (rindex : nat) : native_result * gravity_vm :=
  let v2 := arg args 1 in
  let '(v2, vm) := convert_value2bool H vm v2 in
  if is_error v2 then (RETURN_ERROR "Unable to convert object to Bool", vm)
  else (RETURN_VALUE (VALUE_FROM_BOOL (false || LOGIC (value_n H v2))) rindex, vm).

Definition operator_null_neg (vm : gravity_vm) (args : list GravityValue) (nargs : Z)
  (rindex : nat) : native_result * gravity_vm :=
  (RETURN_VALUE (VALUE_FROM_BOOL false) rindex, vm).

Definition operator_null_not (vm : gravity_vm) (args : list GravityValue) (nargs : Z)
  (rindex : nat) : native_result * gravity_vm :=
  (* !null = true in all the tested programming languages *)
  (RETURN_VALUE (VALUE_FROM_BOOL true) rindex, vm).

Definition operator_null_cmp (vm : gravity_vm) (args : list GravityValue) (nargs : Z)
  (rindex : nat) : native_result * gravity_vm :=
  if VALUE_ISA_UNDEFINED (arg args 0) then
    (* undefined case (undefined is equal ONLY to undefined) *)
    if VALUE_ISA_UNDEFINED (arg args 1) then (RETURN_VALUE (VALUE_FROM_BOOL true) rindex, vm)
    else (RETURN_VALUE (VALUE_FROM_BOOL false) rindex, vm)
  else
    let args := <[O := from_int 0]> args in
    operator_int_cmp vm args nargs rindex.

Definition null_iterator (vm : gravity_vm) (args : list GravityValue) (nargs : Z)
  (rindex : nat) : native_result * gravity_vm :=
  (RETURN_VALUE VALUE_FROM_FALSE rindex, vm).

(** ** Fiber: introspection *)

Definition VALUE_AS_FIBER (vm : gravity_vm) (v : GravityValue) : option gravity_fiber_t :=
  match v with
  | VALUE_FROM_OBJECT KFiber p => vm_fibers vm !! p
  | _ => None
  end.

Definition fiber_done (vm : gravity_vm) (args : list GravityValue) (nargs : Z)
  (rindex : nat) : native_result * gravity_vm :=
  (* returns true is the fiber has terminated execution *)
  match VALUE_AS_FIBER vm (arg args 0) with
  | None => (INVALID_POINTER, vm)
  | Some fiber =>
      (RETURN_VALUE
         (VALUE_FROM_BOOL ((fb_nframes fiber =? 0) || bool_decide (fb_error fiber <> None)))
         rindex, vm)
  end.

Definition fiber_status (vm : gravity_vm) (args : list GravityValue) (nargs : Z)
  (rindex : nat) : native_result * gravity_vm :=
  match VALUE_AS_FIBER vm (arg args 0) with
  | None => (INVALID_POINTER, vm)
  | Some fiber =>
      if bool_decide (fb_error fiber <> None) then
        (RETURN_VALUE (from_int (fiber_status_code FIBER_ABORTED_WITH_ERROR)) rindex, vm)
      else if fb_nframes fiber =? 0 then
        (RETURN_VALUE (from_int (fiber_status_code FIBER_TERMINATED)) rindex, vm)
      else (RETURN_VALUE (from_int (fiber_status_code (fb_status fiber))) rindex, vm)
  end.

Definition fiber_elapsed_time (vm : gravity_vm) (args : list GravityValue) (nargs : Z)
  (rindex : nat) : native_result * gravity_vm :=
  match VALUE_AS_FIBER vm (arg args 0) with
  | None => (INVALID_POINTER, vm)
  | Some fiber => (RETURN_VALUE (from_float (fb_elapsedtime fiber)) rindex, vm)
  end.

Definition fiber_abort (vm : gravity_vm) (args : list GravityValue) (nargs : Z)
  (rindex : nat) : native_result * gravity_vm :=
  let msg := if 0 <? nargs then arg args 1 else from_null in
  match msg with
  | VALUE_FROM_STRING s => (RETURN_ERROR s, vm)
  | _ => (RETURN_ERROR "Fiber.abort expects a string as argument.", vm)
  end.

(** ** Object: unbind *)

Definition class_with_htable (cls : gravity_class_t) (htable : gmap string GravityValue)
  : gravity_class_t :=
  {| c_identifier := c_identifier cls; c_superclass := c_superclass cls;
     c_objclass := c_objclass cls; c_nivars := c_nivars cls; c_ivars := c_ivars cls;
     c_htable := htable; c_is_inited := c_is_inited cls;
     c_is_struct := c_is_struct cls; c_xdata := c_xdata cls |}.

(** [closure->context = NULL]. *)
Definition clear_context (vm : gravity_vm) (p : ref) : gravity_vm :=
  match vm_closures vm !! p with
  | Some closure =>
      set_closures (<[p := {| cl_f := cl_f closure; cl_context := None |}]> (vm_closures vm)) vm
  | None => vm
  end.

(** [object_unbind].  [gravity_hash_remove] takes the key out of the table
    of the receiver's class (gravity_hash.c is not part of the sources; the
    table is the finite map that [gravity_class_bind] writes). *)
Definition object_unbind (vm : gravity_vm) (args : list GravityValue) (nargs : Z)
  (rindex : nat) : native_result * gravity_vm :=
  (* sanity check first *)
  if nargs <? 2 then (RETURN_ERROR "Incorrect number of arguments.", vm)
  else
    match arg args 1 with
    | VALUE_FROM_STRING key =>
        match GetClass H vm (arg args 0) ≫= fun c => pair c <$> vm_classes vm !! c with
        | None => (INVALID_POINTER, vm)
        | Some (c, cls) =>
            let obj := gravity_class_lookup vm c key in
            (* clear closure context *)
            let vm :=
              match obj with
              | Some (VALUE_FROM_OBJECT KClosure p) => clear_context vm p
              | _ => vm
              end in
            (* remove key from class hash table *)
            let vm :=
              set_classes
                (<[c := class_with_htable cls (delete key (c_htable cls))]> (vm_classes vm))
                vm in
            (RETURN_NOVALUE, vm)
        end
    | _ => (RETURN_ERROR "Argument must be a String.", vm)
    end.

Definition object_exec (vm : gravity_vm) (args : list GravityValue) (nargs : Z)
  (rindex : nat) : native_result * gravity_vm :=
  (RETURN_ERROR "Forbidden Object execution.", vm).

(** ** String: count *)

(** The loop of [string_count] over the bytes of the receiver that are
    left: [j] is the position reached in the search string, compared as an
    unsigned number with its length minus one. *)
Fixpoint string_count_loop (main_str str_to_count : string) (j count : Z) : Z :=
  match main_str with
  | EmptyString => count
  | String c rest =>
      if Ascii.eqb c (char_at str_to_count (Z.to_nat j)) then
        (* if the characters match and we are on the last character of the search
           string, then we have found a match *)
        if to_uint32 j =? to_uint32 (Z.of_nat (String.length str_to_count) - 1) then
          string_count_loop rest str_to_count 0 (to_int32 (count + 1))
        else string_count_loop rest str_to_count (to_int32 (j + 1)) count
      else
        (* reset if it isn't a match *)
        string_count_loop rest str_to_count 0 count
  end.

Definition string_count (vm : gravity_vm) (args : list GravityValue) (nargs : Z)
  (rindex : nat) : native_result * gravity_vm :=
  match arg args 1 with
  | VALUE_FROM_STRING str_to_count =>
      if negb (nargs =? 2) then
        (RETURN_ERROR "String.count() expects a string as an argument", vm)
      else
        match arg args 0 with
        | VALUE_FROM_STRING main_str =>
            (RETURN_VALUE (from_int (string_count_loop main_str str_to_count 0 0)) rindex, vm)
        | _ => (INVALID_POINTER, vm)
        end
  | _ => (RETURN_ERROR "String.count() expects a string as an argument", vm)
  end.

End Natives.

Section Join.

Context (H : gravity_host).

(** One turn of the loop of [list_join]: the element is converted to a
    String ([convert_value2string] gives a String or the invalid value), its
    text is copied to the end of the buffer, and the separator after it when
    another element follows and the separator is not empty.  The buffer
    grows as needed: the exits for lack of memory are never taken. *)
Definition list_join_step (vm : gravity_vm) (list : ref) (sep : string) (buffer : string)
  (i n : Z) : (GravityValue + string) * gravity_vm :=
  let '(value, vm) := convert_value2string H CONVERT_DEPTH vm (array_get vm list i) in
  match value with
  | VALUE_FROM_STRING s2 =>
      (* copy s2 to into buffer *)
      let buffer := (buffer ++ s2)%string in
      (* check for separator string *)
      let buffer :=
        if (i + 1 <? n) && negb (Nat.eqb (String.length sep) 0)
        then (buffer ++ sep)%string
        else buffer in
      (inr buffer, vm)
  | _ => (inl value, vm)
  end.

Equations? list_join_from (vm : gravity_vm) (list : ref) (sep : string) (buffer : string)
  (i n : Z) : (GravityValue + string) * gravity_vm by wf (Z.to_nat (n - i)) lt :=
list_join_from vm list sep buffer i n with Z_lt_dec i n := {
  | right _ => (inr buffer, vm)
  | left Hlt with list_join_step vm list sep buffer i n := {
    | (inl value, vm') => (inl value, vm')
    | (inr buffer', vm') => list_join_from vm' list sep buffer' (i + 1) n } }.
Proof. lia. Defined.

(** [list_join].  A separator that is missing or not a String counts as
    the empty one ([seplen] is 0 in both cases). *)
Definition list_join (vm : gravity_vm) (args : list GravityValue) (nargs : Z)
  (rindex : nat) : native_result * gravity_vm :=
  match VALUE_AS_LIST vm (arg args 0) with
  | None => (INVALID_POINTER, vm)
  | Some (list, array) =>
      let sep :=
        if 1 <? nargs then
          match arg args 1 with VALUE_FROM_STRING s => s | _ => EmptyString end
        else EmptyString in
      let n := to_uint32 (getCount array) in
      (* traverse list and append each item *)
      match list_join_from vm list sep EmptyString 0 n with
      | (inl value, vm) => (RETURN_VALUE value rindex, vm)
      | (inr buffer, vm) => (RETURN_VALUE (VALUE_FROM_STRING buffer) rindex, vm)
      end
  end.

End Join.

Section Search.

(** [gravity_value_vm_equals], the equality of values (gravity_value.c is
    not part of the sources): whatever it is, the natives below only call
    it. *)
Variable gravity_value_vm_equals : gravity_vm -> GravityValue -> GravityValue -> bool.

(** The loop that [list_contains] and [list_indexOf] both have: the first
    index, from [i] on, whose element equals [element]. *)
Equations? list_search_from (vm : gravity_vm) (list : ref) (element : GravityValue)
  (i count : Z) : option Z by wf (Z.to_nat (count - i)) lt :=
list_search_from vm list element i count with Z_lt_dec i count := {
  | right _ => None
  | left Hlt with gravity_value_vm_equals vm (array_get vm list i) element := {
    | true => Some i
    | false => list_search_from vm list element (i + 1) count } }.
Proof. lia. Defined.

Definition list_contains (vm : gravity_vm) (args : list GravityValue) (nargs : Z)
  (rindex : nat) : native_result * gravity_vm :=
  match VALUE_AS_LIST vm (arg args 0) with
  | None => (INVALID_POINTER, vm)
  | Some (list, array) =>
      let element := arg args 1 in
      let count := to_uint32 (getCount array) in
      let result :=
        match list_search_from vm list element 0 count with
        | Some _ => VALUE_FROM_TRUE
        | None => VALUE_FROM_FALSE
        end in
      (RETURN_VALUE result rindex, vm)
  end.

Definition list_indexOf (vm : gravity_vm) (args : list GravityValue) (nargs : Z)
  (rindex : nat) : native_result * gravity_vm :=
  match VALUE_AS_LIST vm (arg args 0) with
  | None => (INVALID_POINTER, vm)
  | Some (list, array) =>
      let element := arg args 1 in
      let count := to_uint32 (getCount array) in
      let result :=
        match list_search_from vm list element 0 count with
        | Some i => from_int i
        | None => from_int (-1)
        end in
      (RETURN_VALUE result rindex, vm)
  end.

End Search.


(** ** A concrete machine

    A host and a small heap on which the properties below are exercised:
    the classes Object, Class and Int, a user class Point with one instance
    variable, two instances, a list, a range, and two fibers of which the
    second was resumed by the first. *)

Definition demo_env : GravityGlobals :=
  {| P_ClsObj := 0; P_ClsClass := 1; P_ClsBool := 2; P_ClsNull := 3; P_ClsInt := 4;
     P_ClsFloat := 5; P_ClsFunc := 6; P_ClsFiber := 7; P_ClsString := 8;
     P_ClsInstance := 9; P_ClsList := 10; P_ClsMap := 11; P_ClsRange := 12;
     P_ClsSystem := 13; P_ClsClosure := 14; P_ClsUpValue := 15 |}%nat.

(** A host whose interpreter runs every closure with success and leaves
    the machine as it is. *)
Definition demo_host : gravity_host :=
  {| GravityEnv := demo_env;
     gravity_vm_delegate :=
       {| bridge_string := None; bridge_getundef := None; bridge_setundef := None |};
     host_runclosure := fun vm _ _ _ => (true, vm);
     host_nanotime := fun k => 1000000000 * Z.of_nat k;
     host_strtod := fun _ => float_zero;
     host_format_g := fun _ => "0"%string;
     host_format_p := fun _ => "0x0"%string;
     host_payload_n := fun _ => 0;
     host_payload_f := fun _ => float_zero;
     number_from_bin := fun _ => 0;
     number_from_oct := fun _ => 0;
     number_from_hex := fun _ => 0;
     gravity_class_lookup_constructor := fun _ _ _ => None;
     gravity_instance_clone := fun vm p => (p, vm);
     gravity_class_is_anon := fun _ => false;
     gravity_vm_anonymous := fun vm => ("anon"%string, vm);
     gravity_class_new_pair := fun vm _ c => (c, vm) |}.

(** The same host with an interpreter in which every closure fails. *)
Definition failing_host : gravity_host :=
  {| GravityEnv := demo_env;
     gravity_vm_delegate := gravity_vm_delegate demo_host;
     host_runclosure := fun vm _ _ _ => (false, vm);
     host_nanotime := host_nanotime demo_host;
     host_strtod := host_strtod demo_host;
     host_format_g := host_format_g demo_host;
     host_format_p := host_format_p demo_host;
     host_payload_n := host_payload_n demo_host;
     host_payload_f := host_payload_f demo_host;
     number_from_bin := number_from_bin demo_host;
     number_from_oct := number_from_oct demo_host;
     number_from_hex := number_from_hex demo_host;
     gravity_class_lookup_constructor := gravity_class_lookup_constructor demo_host;
     gravity_instance_clone := gravity_instance_clone demo_host;
     gravity_class_is_anon := gravity_class_is_anon demo_host;
     gravity_vm_anonymous := gravity_vm_anonymous demo_host;
     gravity_class_new_pair := gravity_class_new_pair demo_host |}.

Definition internal_closure (fn : gravity_c_internal) : gravity_closure_t :=
  {| cl_f := Some {| f_identifier := None; f_tag := EXEC_TYPE_INTERNAL; f_nparams := 0;
                     f_internal := Some fn; f_index := 0;
                     f_special_getter := None; f_special_setter := None |};
     cl_context := None |}.

Definition demo_closures : gmap ref gravity_closure_t :=
  {[ 0%nat := internal_closure FN_convert_object_int;
     1%nat := internal_closure FN_convert_object_float;
     2%nat := internal_closure FN_convert_object_bool;
     3%nat := internal_closure FN_convert_object_string;
     4%nat := internal_closure FN_object_notfound;
     5%nat := internal_closure (FN_other 0) ]}.

Definition demo_class (name : string) (super : option ref) (meta : ref) (nivars : Z)
  (htable : gmap string GravityValue) : gravity_class_t :=
  {| c_identifier := Some name; c_superclass := super; c_objclass := meta;
     c_nivars := nivars; c_ivars := []; c_htable := htable; c_is_inited := true;
     c_is_struct := false; c_xdata := None |}.

Definition object_htable : gmap string GravityValue :=
  {[ "Int"%string := VALUE_FROM_OBJECT KClosure 0%nat;
     "Float"%string := VALUE_FROM_OBJECT KClosure 1%nat;
     "Bool"%string := VALUE_FROM_OBJECT KClosure 2%nat;
     "String"%string := VALUE_FROM_OBJECT KClosure 3%nat;
     "notfound"%string := VALUE_FROM_OBJECT KClosure 4%nat ]}.

Definition demo_classes : gmap ref gravity_class_t :=
  {[ 0%nat := demo_class "Object" None 1%nat 0 object_htable;
     1%nat := demo_class "Class" (Some 0%nat) 1%nat 0 ∅;
     4%nat := demo_class "Int" (Some 0%nat) 16%nat 0 ∅;
     16%nat := demo_class "Int meta" (Some 1%nat) 1%nat 0 ∅;
     20%nat := demo_class "Point" (Some 0%nat) 21%nat 1 ∅;
     21%nat := demo_class "Point meta" (Some 1%nat) 1%nat 0 ∅ ]}.

Definition demo_fiber (caller : option ref) (status : gravity_fiber_status)
  (timewait : gravity_float_t) : gravity_fiber_t :=
  {| fb_caller := caller; fb_trying := false; fb_status := status;
     fb_timewait := timewait; fb_lasttime := 0; fb_elapsedtime := float_zero;
     fb_nframes := 1; fb_error := None |}.

Definition demo_vm : gravity_vm :=
  {| vm_classes := demo_classes;
     vm_instances :=
       {[ 0%nat := {| i_objclass := 20%nat; i_xdata := None; i_ivars := [from_int 7] |};
          1%nat := {| i_objclass := 0%nat; i_xdata := None; i_ivars := [] |} ]};
     vm_lists := {[ 0%nat := [from_int 3; from_int 1; from_int 2] ]};
     vm_maps := {[ 0%nat := [(VALUE_FROM_STRING "k1", from_int 123)] ]};
     vm_ranges := {[ 0%nat := {| r_from := 1; r_to := 5 |} ]};
     vm_functions := ∅;
     vm_closures := demo_closures;
     vm_fibers :=
       {[ 0%nat := demo_fiber None FIBER_RUNNING (float_of_int 2);
          1%nat := demo_fiber (Some 0%nat) FIBER_RUNNING float_zero ]};
     vm_fiber := 1%nat;
     vm_slots := ∅;
     vm_result := from_null;
     vm_closure := None;
     vm_aborted := false;
     vm_gc_enabled := true;
     vm_globals := ∅;
     vm_clock := 3%nat;
     vm_calls := [] |}.

(** The values used as receivers and arguments. *)
Definition the_point : GravityValue := VALUE_FROM_OBJECT KInstance 0%nat.
Definition the_list : GravityValue := VALUE_FROM_OBJECT KList 0%nat.
Definition the_map : GravityValue := VALUE_FROM_OBJECT KMap 0%nat.
Definition the_range : GravityValue := VALUE_FROM_OBJECT KRange 0%nat.
Definition a_closure : GravityValue := VALUE_FROM_OBJECT KClosure 5%nat.
Definition the_called_fiber : GravityValue := VALUE_FROM_OBJECT KFiber 1%nat.

(** The machine while the first fiber, which has no caller, executes. *)
Definition root_vm : gravity_vm := gravity_vm_setfiber demo_vm 0%nat.

(** What a yield leaves behind: [r] is the result of a yield made by the
    fiber [f], whose record was [fb].  Without a caller the native reports
    no value and [f] goes on executing, its trying flag as before; with a
    caller it reports a fiber switch, the caller executes and the trying flag
    is cleared.  Either way [f] is left without caller, with the wait time
    [timewait] and the resume timestamp [lasttime], its status as before. *)
Definition yield_outcome (f : ref) (fb : gravity_fiber_t) (timewait : gravity_float_t)
  (lasttime : Z) (r : native_result * gravity_vm) : Prop :=
  (match fb_caller fb with
   | None => fst r = RETURN_NOVALUE /\ vm_fiber (snd r) = f
   | Some caller => fst r = RETURN_FIBER /\ vm_fiber (snd r) = caller
   end)
  /\ exists fb',
      vm_fibers (snd r) !! f = Some fb'
      /\ fb_caller fb' = None
      /\ fb_trying fb' = match fb_caller fb with Some _ => false | None => fb_trying fb end
      /\ fb_status fb' = fb_status fb
      /\ fb_timewait fb' = timewait
      /\ fb_lasttime fb' = lasttime.

(** The wait time [yieldWaitTime(d)] records: [d] when it is a number, the
    previous wait time otherwise. *)
Definition requested_wait (fb : gravity_fiber_t) (d : GravityValue) : gravity_float_t :=
  match d with
  | from_float f => f
  | from_int n => float_of_int n
  | _ => fb_timewait fb
  end.

(** The conversion method that [v]'s class resolves for [index] is the C
    function [fn] itself, or it is the closure being executed. *)
Definition resolves_to_dispatcher (H : gravity_host) (vm : gravity_vm) (v : GravityValue)
  (index : gravity_key_index) (fn : gravity_c_internal) : Prop :=
  exists p, lookup_conversion H vm v index = Some p /\
    ((exists f, vm_closures vm !! p ≫= cl_f = Some f /\
                f_tag f = EXEC_TYPE_INTERNAL /\ f_internal f = Some fn)
     \/ gravity_vm_getclosure vm = Some p).

(** The machine [vm] with the list object at [l] holding [a]. *)
Definition with_list (vm : gravity_vm) (l : ref) (a : list GravityValue) : gravity_vm :=
  set_lists (<[l := a]> (vm_lists vm)) vm.

(** What [convert_value2string] gives for an instance that the guard
    stops: the bridged text of a bridged instance (the invalid value when
    the host has none), and a description naming the class otherwise. *)
Definition instance_description (H : gravity_host) (vm : gravity_vm) (p : ref)
  (instance : gravity_instance_t) : GravityValue :=
  match i_xdata instance with
  | Some xdata =>
      match bridge_string (gravity_vm_delegate H) with
      | Some bridge =>
          match bridge vm xdata with
          | Some s => VALUE_FROM_STRING s
          | None => VALUE_FROM_ERROR
          end
      | None => VALUE_FROM_ERROR
      end
  | None =>
      VALUE_FROM_STRING
        ("instance of "
         ++ SETIFZ (vm_classes vm !! i_objclass instance ≫= c_identifier) "anonymous class"
         ++ " (" ++ host_format_p H p ++ ")")
  end.



(** Modelled from the spec: the consumer of the iteration contract (the
    [for] statement of the interpreter is not part of the sources).
    "iterInit(container, previousCursor) -> nextCursor|false and
    iterNext(container, cursor) -> Value"; "iterInit with a previous cursor
    of Null means start; returning false means exhausted".  [for_in] collects
    the values that a loop with an empty body receives, for at most [fuel]
    turns. *)
Fixpoint for_in (iterate next : gravity_c_native) (fuel : nat) (vm : gravity_vm)
  (container cursor : GravityValue) : list GravityValue :=
  match fuel with
  | O => []
  | S fuel' =>
      match fst (iterate vm [container; cursor] 2 O) with
      | RETURN_VALUE (VALUE_FROM_BOOL false) _ => []
      | RETURN_VALUE cursor' _ =>
          match fst (next vm [container; cursor'] 2 O) with
          | RETURN_VALUE v _ => v :: for_in iterate next fuel' vm container cursor'
          | _ => []
          end
      | _ => []
      end
  end.

(** The closure [closure], when the host runs it on the receiver [self],
    computes [result] from its arguments: the invocation succeeds, leaves
    [result params] where [gravity_vm_result] reads it, and leaves the lists
    of the machine as they are. *)
Definition closure_computes (H : gravity_host) (closure : ref) (self : GravityValue)
  (result : list GravityValue -> GravityValue) : Prop :=
  forall (vm : gravity_vm) (params : list GravityValue),
    fst (host_runclosure H vm closure self params) = true
    /\ vm_result (snd (host_runclosure H vm closure self params)) = result params
    /\ vm_lists (snd (host_runclosure H vm closure self params)) = vm_lists vm.

(** What the closures 6, 7 and 8 of the scripted host compute: the
    successor of an integer, whether an integer is greater than 1, and the
    sum of two integers. *)
Definition successor (x : GravityValue) : GravityValue :=
  match x with from_int n => from_int (n + 1) | _ => from_null end.

Definition greater_than_one (x : GravityValue) : bool :=
  match x with from_int n => 1 <? n | _ => false end.

Definition add_values (acc x : GravityValue) : GravityValue :=
  match acc, x with from_int a, from_int n => from_int (a + n) | _, _ => from_null end.

Definition script (closure : ref) (params : list GravityValue) : GravityValue :=
  match closure with
  | 6%nat => successor (arg params 0)
  | 7%nat => VALUE_FROM_BOOL (greater_than_one (arg params 0))
  | 8%nat => add_values (arg params 0) (arg params 1)
  | _ => from_null
  end.

(** A host whose interpreter runs these closures. *)
Definition script_host : gravity_host :=
  {| GravityEnv := demo_env;
     gravity_vm_delegate := gravity_vm_delegate demo_host;
     host_runclosure := fun vm closure _ params => (true, set_result (script closure params) vm);
     host_nanotime := host_nanotime demo_host;
     host_strtod := host_strtod demo_host;
     host_format_g := host_format_g demo_host;
     host_format_p := host_format_p demo_host;
     host_payload_n := host_payload_n demo_host;
     host_payload_f := host_payload_f demo_host;
     number_from_bin := number_from_bin demo_host;
     number_from_oct := number_from_oct demo_host;
     number_from_hex := number_from_hex demo_host;
     gravity_class_lookup_constructor := gravity_class_lookup_constructor demo_host;
     gravity_instance_clone := gravity_instance_clone demo_host;
     gravity_class_is_anon := gravity_class_is_anon demo_host;
     gravity_vm_anonymous := gravity_vm_anonymous demo_host;
     gravity_class_new_pair := gravity_class_new_pair demo_host |}.

(** A host for which every class is an anonymous class already. *)
Definition anon_host : gravity_host :=
  {| GravityEnv := demo_env;
     gravity_vm_delegate := gravity_vm_delegate demo_host;
     host_runclosure := host_runclosure demo_host;
     host_nanotime := host_nanotime demo_host;
     host_strtod := host_strtod demo_host;
     host_format_g := host_format_g demo_host;
     host_format_p := host_format_p demo_host;
     host_payload_n := host_payload_n demo_host;
     host_payload_f := host_payload_f demo_host;
     number_from_bin := number_from_bin demo_host;
     number_from_oct := number_from_oct demo_host;
     number_from_hex := number_from_hex demo_host;
     gravity_class_lookup_constructor := gravity_class_lookup_constructor demo_host;
     gravity_instance_clone := gravity_instance_clone demo_host;
     gravity_class_is_anon := fun _ => true;
     gravity_vm_anonymous := gravity_vm_anonymous demo_host;
     gravity_class_new_pair := gravity_class_new_pair demo_host |}.

(** The number of bytes of [s] equal to [c]. *)
Definition occurrences (c : ascii) (s : string) : nat :=
  count_occ ascii_dec (list_ascii_of_string s) c.

(** The concrete machine with the range from 5 down to 1 in place of the
    range from 1 to 5. *)
Definition descending_vm : gravity_vm :=
  set_ranges {[ 0%nat := {| r_from := 5; r_to := 1 |} ]} demo_vm.

(** The machine of the first fiber with a third fiber that was never
    executed. *)
Definition idle_fiber : GravityValue := VALUE_FROM_OBJECT KFiber 2%nat.

Definition idle_vm : gravity_vm :=
  set_fibers (<[2%nat := demo_fiber None FIBER_NEVER_EXECUTED float_zero]> (vm_fibers root_vm))
    root_vm.

(** An instance of Object, a built-in class. *)
Definition the_object : GravityValue := VALUE_FROM_OBJECT KInstance 1%nat.

(** The concrete machine with a second list, of three Strings. *)
Definition words_vm : gravity_vm :=
  with_list demo_vm 1%nat
    [VALUE_FROM_STRING "a"; VALUE_FROM_STRING "bc"; VALUE_FROM_STRING "d"].

(** A host whose interpreter runs a closure with success on one integer
    argument from 1 to 5, and fails on anything else. *)
Definition one_to_five_host : gravity_host :=
  {| GravityEnv := demo_env;
     gravity_vm_delegate := gravity_vm_delegate demo_host;
     host_runclosure := fun vm _ _ params =>
       (match params with
        | [from_int n] => (1 <=? n) && (n <=? 5)
        | _ => false
        end, vm);
     host_nanotime := host_nanotime demo_host;
     host_strtod := host_strtod demo_host;
     host_format_g := host_format_g demo_host;
     host_format_p := host_format_p demo_host;
     host_payload_n := host_payload_n demo_host;
     host_payload_f := host_payload_f demo_host;
     number_from_bin := number_from_bin demo_host;
     number_from_oct := number_from_oct demo_host;
     number_from_hex := number_from_hex demo_host;
     gravity_class_lookup_constructor := gravity_class_lookup_constructor demo_host;
     gravity_instance_clone := gravity_instance_clone demo_host;
     gravity_class_is_anon := gravity_class_is_anon demo_host;
     gravity_vm_anonymous := gravity_vm_anonymous demo_host;
     gravity_class_new_pair := gravity_class_new_pair demo_host |}.

(** The machine of the examples with, at address 0, the range of the last
    two integers of [gravity_int_t]. *)
Definition topmost_vm : gravity_vm :=
  set_ranges {[ 0%nat := {| r_from := INT64_MAX - 1; r_to := INT64_MAX |} ]} demo_vm.

(** The machine of the examples, whose clock reads three seconds, with a
    first fiber that waits five seconds from time 0. *)
Definition waiting_vm : gravity_vm :=
  set_fibers (<[0%nat := demo_fiber None FIBER_RUNNING (float_of_int 5)]> (vm_fibers demo_vm))
    demo_vm.

(** The invocations of [closure] on the receiver [self] with the argument
    lists [calls], made one after the other from the machine [vm] as
    [gravity_vm_runclosure] makes them, each in the machine the one before
    it left, all succeed. *)
Fixpoint invocations_succeed (H : gravity_host) (vm : gravity_vm) (closure : ref)
  (self : GravityValue) (calls : list (list GravityValue)) : Prop :=
  match calls with
  | [] => True
  | params :: rest =>
      fst (gravity_vm_runclosure H vm closure self params) = true
      /\ invocations_succeed H (snd (gravity_vm_runclosure H vm closure self params))
           closure self rest
  end.

(** * Properties *)

Section Properties.

Context (H : gravity_host).

(** ** Map iteration *)

(** C5: for every Map and every previous cursor, Null included, the
    iterator-init native of Map returns false: the map reports itself
    exhausted at once, and the machine is left as it was. *)
Theorem map_iterator_always_false (vm : gravity_vm) (m : ref) (cursor : GravityValue)
  (rest : list GravityValue) (nargs : Z) (rindex : nat) :
  map_iterator vm (VALUE_FROM_OBJECT KMap m :: cursor :: rest) nargs rindex
  = (RETURN_VALUE VALUE_FROM_FALSE rindex, vm)
  /\ map_iterator vm [VALUE_FROM_OBJECT KMap m; from_null] 2 rindex
     = (RETURN_VALUE (VALUE_FROM_BOOL false) rindex, vm).
Proof. split; reflexivity. Qed.

(** ** Null operators *)

Lemma operator_int_sub_on_int (vm : gravity_vm) (a b : Z) (rest : list GravityValue)
  (nargs : Z) (rindex : nat) :
  operator_int_sub H vm (from_int a :: from_int b :: rest) nargs rindex
  = (RETURN_VALUE (from_int (wrap64 (a - b))) rindex, vm).
Proof. reflexivity. Qed.

Lemma operator_int_sub_no_division_error (vm : gravity_vm) (args : list GravityValue)
  (nargs : Z) (rindex : nat) :
  fst (operator_int_sub H vm args nargs rindex) <> RETURN_ERROR "Division by 0 error.".
Proof.
  unfold operator_int_sub.
  destruct (convert_value2int H vm (arg args 1)) as [v2 vm'].
  destruct (is_error v2); simpl; discriminate.
Qed.

(** C10: with Null on the left, [+] returns the right operand unchanged,
    [*], [/] and [%] return the integer 0 whatever the right operand is (0
    included), and [-] is the integer subtraction with 0 on the left; none
    of them reports a division by zero, which the integer division does for
    a zero divisor. *)
Theorem operator_null_treats_null_as_zero (vm : gravity_vm) (v1 v2 : GravityValue)
  (n : Z) (rest : list GravityValue) (nargs : Z) (rindex : nat) :
  let args := v1 :: v2 :: rest in
  operator_null_add vm args nargs rindex = (RETURN_VALUE v2 rindex, vm)
  /\ operator_null_mul vm args nargs rindex = (RETURN_VALUE (from_int 0) rindex, vm)
  /\ operator_null_div vm args nargs rindex = (RETURN_VALUE (from_int 0) rindex, vm)
  /\ operator_null_rem vm args nargs rindex = (RETURN_VALUE (from_int 0) rindex, vm)
  /\ operator_null_div vm (v1 :: from_int 0 :: rest) nargs rindex
     = (RETURN_VALUE (from_int 0) rindex, vm)
  /\ operator_null_rem vm (v1 :: from_int 0 :: rest) nargs rindex
     = (RETURN_VALUE (from_int 0) rindex, vm)
  /\ operator_null_sub H vm args nargs rindex
     = operator_int_sub H vm (from_int 0 :: v2 :: rest) nargs rindex
  /\ operator_null_sub H vm (v1 :: from_int n :: rest) nargs rindex
     = (RETURN_VALUE (from_int (wrap64 (0 - n))) rindex, vm)
  /\ fst (operator_null_sub H vm args nargs rindex) <> RETURN_ERROR "Division by 0 error."
  /\ fst (operator_int_div H vm (from_int 0 :: from_int 0 :: rest) nargs rindex)
     = RETURN_ERROR "Division by 0 error.".
Proof.
  cbv zeta. repeat split; try reflexivity.
  apply operator_int_sub_no_division_error.
Qed.

(** ** Fibers *)

Lemma setslot_keeps_fibers (vm : gravity_vm) (v : GravityValue) (rindex : nat) :
  vm_fibers (gravity_vm_setslot vm v rindex) = vm_fibers vm
  /\ vm_fiber (gravity_vm_setslot vm v rindex) = vm_fiber vm.
Proof. split; reflexivity. Qed.

(** C1: [call] and [try] on a fiber whose caller is set fail with the
    error "Fiber has already been called."; the check comes first, so every
    fiber record, the one of the target included, and the executing fiber
    are as before, and only the result register has been cleared. *)
Theorem fiber_run_rejects_double_resume (vm : gravity_vm) (fiber caller : ref)
  (fb : gravity_fiber_t) (rest : list GravityValue) (nargs : Z) (rindex : nat) :
  vm_fibers vm !! fiber = Some fb ->
  fb_caller fb = Some caller ->
  let args := VALUE_FROM_OBJECT KFiber fiber :: rest in
  let after := gravity_vm_setslot vm from_null rindex in
  fiber_exec H vm args nargs rindex = (RETURN_ERROR "Fiber has already been called.", after)
  /\ fiber_try H vm args nargs rindex = (RETURN_ERROR "Fiber has already been called.", after)
  /\ vm_fibers after = vm_fibers vm
  /\ vm_fibers after !! fiber = Some fb
  /\ vm_fiber after = vm_fiber vm.
Proof.
  intros Hfb Hcaller args after.
  assert (Hrun : forall is_trying,
             fiber_run H vm args nargs rindex is_trying
             = (RETURN_ERROR "Fiber has already been called.", after)).
  { intros is_trying. unfold fiber_run, args. cbn [arg nth].
    destruct (setslot_keeps_fibers vm from_null rindex) as [-> _].
    rewrite Hfb, Hcaller. reflexivity. }
  unfold fiber_exec, fiber_try. rewrite !Hrun.
  repeat split; try reflexivity. exact Hfb.
Qed.

Lemma yield_to_caller_outcome (vm : gravity_vm) (f : ref) (fb0 : gravity_fiber_t)
  (timewait : gravity_float_t) (lasttime : Z) :
  vm_fiber vm = f ->
  yield_outcome f fb0 timewait lasttime
    (yield_to_caller (store_fiber vm f (fiber_with_times fb0 timewait lasttime)) f
       (fiber_with_times fb0 timewait lasttime)).
Proof.
  intros Hf. unfold yield_outcome, yield_to_caller.
  cbn [fiber_with_times fb_caller].
  destruct (fb_caller fb0) as [caller|] eqn:Hcaller; cbn [fst snd].
  - split; [split; reflexivity|].
    eexists. split.
    + unfold store_fiber. cbn [vm_fibers set_fibers gravity_vm_setfiber].
      apply lookup_insert_eq.
    + repeat split.
  - split; [split; [reflexivity | exact Hf]|].
    eexists. split.
    + unfold store_fiber. cbn [vm_fibers set_fibers]. apply lookup_insert_eq.
    + cbn. repeat split. exact Hcaller.
Qed.

(** A fiber without caller and without pending wait is resumed: the
    executing fiber becomes its caller, its status is Running or Trying, and
    it becomes the executing fiber. *)
Lemma fiber_run_resumes (vm : gravity_vm) (fiber : ref) (fb : gravity_fiber_t)
  (rest : list GravityValue) (nargs : Z) (rindex : nat) (is_trying : bool) :
  vm_fibers vm !! fiber = Some fb ->
  fb_caller fb = None ->
  float_gt (fb_timewait fb) float_zero = false ->
  exists fb',
    fst (fiber_run H vm (VALUE_FROM_OBJECT KFiber fiber :: rest) nargs rindex is_trying)
    = RETURN_FIBER
    /\ vm_fiber (snd (fiber_run H vm (VALUE_FROM_OBJECT KFiber fiber :: rest) nargs rindex
                        is_trying)) = fiber
    /\ vm_fibers (snd (fiber_run H vm (VALUE_FROM_OBJECT KFiber fiber :: rest) nargs rindex
                         is_trying)) !! fiber = Some fb'
    /\ fb_caller fb' = Some (vm_fiber vm)
    /\ fb_trying fb' = is_trying
    /\ fb_status fb' = (if is_trying then FIBER_TRYING else FIBER_RUNNING).
Proof.
  intros Hfb Hcaller Hwait. unfold fiber_run. cbn [arg nth].
  change (vm_fibers (gravity_vm_setslot vm from_null rindex)) with (vm_fibers vm).
  rewrite Hfb, Hcaller. cbn [bool_decide decide_rel negb]. unfold nanotime.
  rewrite bool_decide_eq_true_2 by reflexivity. cbn [negb].
  cbn [fiber_with_elapsedtime fb_timewait fb_elapsedtime]. rewrite Hwait. cbn [andb].
  eexists. cbn [fst snd]. split; [reflexivity|]. split; [reflexivity|]. split.
  - unfold store_fiber. cbn [vm_fibers set_fibers gravity_vm_setfiber].
    apply lookup_insert_eq.
  - repeat split.
Qed.

(** C2 (as amended): a yield made by the executing fiber [f], with or
    without a wait time.  When [f] has no caller the native reports no value,
    [f] keeps executing and its caller, trying flag and status are as
    before; when [f] has a caller, caller and trying flag are cleared and the
    former caller becomes the executing fiber.  In both cases the wait time
    (zero for [yield], the requested one for [yieldWaitTime]) and the resume
    timestamp are recorded, and [f] is left with a null caller. *)
Theorem fiber_yield_unhooks_fiber (vm : gravity_vm) (fb : gravity_fiber_t)
  (args : list GravityValue) (nargs : Z) (rindex : nat) :
  vm_fibers vm !! vm_fiber vm = Some fb ->
  yield_outcome (vm_fiber vm) fb float_zero (host_nanotime H (vm_clock vm))
    (fiber_yield H vm args nargs rindex)
  /\ yield_outcome (vm_fiber vm) fb (requested_wait fb (arg args 1))
       (host_nanotime H (vm_clock vm))
       (fiber_yield_time H vm args nargs rindex).
Proof.
  intros Hfb. split.
  - unfold fiber_yield.
    change (gravity_vm_fiber (gravity_vm_setslot vm from_null rindex)) with (vm_fiber vm).
    change (vm_fibers (gravity_vm_setslot vm from_null rindex)) with (vm_fibers vm).
    rewrite Hfb. unfold nanotime.
    apply yield_to_caller_outcome. reflexivity.
  - unfold fiber_yield_time.
    change (gravity_vm_fiber (gravity_vm_setslot vm from_null rindex)) with (vm_fiber vm).
    change (vm_fibers (gravity_vm_setslot vm from_null rindex)) with (vm_fibers vm).
    rewrite Hfb. unfold nanotime.
    apply yield_to_caller_outcome. reflexivity.
Qed.

(** ** Range *)

Lemma runclosure_logs_call (vm : gravity_vm) (closure : ref) (self : GravityValue)
  (params : list GravityValue) :
  vm_calls (snd (gravity_vm_runclosure H vm closure self params))
  = vm_calls vm ++ [(closure, self, params)]
  /\ fst (gravity_vm_runclosure H vm closure self params)
     = fst (host_runclosure H vm closure self params).
Proof.
  unfold gravity_vm_runclosure.
  destruct (host_runclosure H vm closure self params) as [ok vm']. split; reflexivity.
Qed.

(** A closure whose invocations on an integer succeed in every machine. *)
Lemma invocations_always_succeed (closure : ref) (value : GravityValue) :
  (forall vm i, fst (host_runclosure H vm closure value [from_int i]) = true) ->
  forall (ints : list Z) (vm : gravity_vm),
    invocations_succeed H vm closure value (map (fun i => [from_int i]) ints).
Proof.
  intros Hok ints. induction ints as [|i ints IH]; intros vm; cbn [map invocations_succeed].
  - exact I.
  - split; [|apply IH].
    destruct (runclosure_logs_call vm closure value [from_int i]) as [_ ->]. apply Hok.
Qed.

(** The forward loop over [i..n], with [n] below INT64_MAX, when the
    invocations it makes succeed: it runs to its end and has logged one call
    per integer, in increasing order. *)
Lemma range_loop_forward_calls (closure : ref) (value : GravityValue) (n : Z) :
  n < INT64_MAX ->
  forall (k : nat) (vm : gravity_vm) (i : Z),
    n + 1 - i = Z.of_nat k ->
    invocations_succeed H vm closure value
      (map (fun j => [from_int (i + Z.of_nat j)]) (seq 0 k)) ->
    fst (range_loop_forward H vm closure value i n) = Some true
    /\ vm_calls (snd (range_loop_forward H vm closure value i n))
       = vm_calls vm
         ++ map (fun j => (closure, value, [from_int (i + Z.of_nat j)])) (seq 0 k).
Proof.
  intros Hmax k. induction k as [|k IH]; intros vm i Hk Hinv.
  - simp range_loop_forward. destruct (Z_le_dec i n) as [Hle|Hgt]; [lia|].
    simpl. rewrite app_nil_r. split; reflexivity.
  - simp range_loop_forward. destruct (Z_le_dec i n) as [Hle|Hgt]; [|lia].
    simpl. cbn [seq map invocations_succeed] in Hinv.
    replace (i + Z.of_nat 0) with i in Hinv by lia. destruct Hinv as [Hfst Hinv].
    pose proof (runclosure_logs_call vm closure value [from_int i]) as [Hlog _].
    destruct (gravity_vm_runclosure H vm closure value [from_int i]) as [ok vm'] eqn:Hrun.
    simpl in Hlog, Hfst, Hinv. subst ok. simpl.
    destruct (Z.eq_dec i INT64_MAX) as [Heq|Hne]; [lia|]. simpl.
    destruct (IH vm' (i + 1) ltac:(lia)) as (IH1 & IH2).
    { rewrite <- seq_shift, map_map in Hinv.
      erewrite map_ext; [exact Hinv|]. intros j. cbv beta. do 2 f_equal. lia. }
    split; [exact IH1|].
    rewrite IH2, Hlog, <- app_assoc. f_equal. simpl. f_equal.
    + do 3 f_equal. lia.
    + rewrite <- seq_shift, map_map. apply map_ext. intros j. do 3 f_equal. lia.
Qed.

(** C7 (as amended): on the range from 1 to 5, [loop] invokes the closure
    with the receiver and the single argument 1, 2, 3, 4, 5, in that order,
    exactly five times, and returns the time the loop took, provided each of
    these invocations reports success: the one on 1 in the machine in which
    the loop starts, after its first reading of the clock, and each
    following one in the machine the invocation before it left. *)
Theorem range_loop_one_to_five (vm : gravity_vm) (p closure : ref)
  (rest : list GravityValue) (nargs : Z) (rindex : nat) :
  2 <= nargs ->
  vm_ranges vm !! p = Some {| r_from := 1; r_to := 5 |} ->
  invocations_succeed H (snd (nanotime H vm)) closure (VALUE_FROM_OBJECT KRange p)
    [[from_int 1]; [from_int 2]; [from_int 3]; [from_int 4]; [from_int 5]] ->
  let range := VALUE_FROM_OBJECT KRange p in
  let r := range_loop H vm (range :: VALUE_FROM_OBJECT KClosure closure :: rest) nargs rindex in
  (exists t, fst r = RETURN_VALUE (from_int t) rindex)
  /\ vm_calls (snd r)
     = vm_calls vm ++ [(closure, range, [from_int 1]); (closure, range, [from_int 2]);
                       (closure, range, [from_int 3]); (closure, range, [from_int 4]);
                       (closure, range, [from_int 5])].
Proof.
  intros Hnargs Hrange Hinv range r. subst r range. unfold range_loop.
  destruct (nargs <? 2) eqn:Hlt; [apply Z.ltb_lt in Hlt; lia|].
  cbn [arg nth]. rewrite Hrange.
  cbn [r_from r_to]. change (1 <? 5) with true. cbv iota.
  unfold nanotime in *. cbn [fst snd] in Hinv. cbv beta iota zeta.
  destruct (range_loop_forward_calls closure (VALUE_FROM_OBJECT KRange p) 5
              ltac:(unfold INT64_MAX; lia) 5%nat
              (set_clock (S (vm_clock vm)) vm) 1 eq_refl Hinv) as [Hfst Hcalls].
  destruct (range_loop_forward H (set_clock (S (vm_clock vm)) vm) closure
              (VALUE_FROM_OBJECT KRange p) 1 5) as [ok vm'] eqn:Hloop.
  cbn [fst snd] in Hfst, Hcalls. subst ok. cbn [fst snd].
  split; [eexists; reflexivity|].
  cbn [vm_calls set_clock] in *. exact Hcalls.
Qed.

(** ** Conversions *)

(** C8: the string "42" converts to the integer 42, which converts back to
    the string "42"; the integer 7 converts to the double 7.0, which
    converts back to the integer 7.  No closure runs and the machine is
    unchanged. *)
Theorem conversion_round_trips (vm : gravity_vm) (depth : nat) :
  convert_value2int H vm (VALUE_FROM_STRING "42") = (from_int 42, vm)
  /\ convert_value2string H (S depth) vm (from_int 42) = (VALUE_FROM_STRING "42", vm)
  /\ fst (convert_value2string H (S depth) vm
            (fst (convert_value2int H vm (VALUE_FROM_STRING "42"))))
     = VALUE_FROM_STRING "42"
  /\ convert_value2float H vm (from_int 7) = (from_float (float_of_int 7), vm)
  /\ convert_value2int H vm (from_float (float_of_int 7)) = (from_int 7, vm)
  /\ fst (convert_value2int H vm (fst (convert_value2float H vm (from_int 7)))) = from_int 7.
Proof. repeat split; reflexivity. Qed.

Lemma c_internal_eqb_refl (fn : gravity_c_internal) : c_internal_eqb fn fn = true.
Proof. destruct fn; simpl; auto using Nat.eqb_refl. Qed.

(** When the resolved method is the dispatcher itself, or the closure being
    executed, the sanity check of the conversions holds. *)
Lemma dispatcher_trips_guard (vm : gravity_vm) (v : GravityValue)
  (index : gravity_key_index) (fn : gravity_c_internal) :
  resolves_to_dispatcher H vm v index fn ->
  conversion_guard vm (lookup_conversion H vm v index) fn = true.
Proof.
  intros (p & Hlookup & Hcase). rewrite Hlookup. unfold conversion_guard.
  destruct Hcase as [(f & Hf & Htag & Hint) | Hexec].
  - destruct (vm_closures vm !! p) as [[[f'|] ctx]|]; simpl in Hf; try discriminate.
    injection Hf as ->. rewrite Htag, Hint, c_internal_eqb_refl. reflexivity.
  - rewrite bool_decide_eq_true_2 by exact Hexec. apply orb_true_r.
Qed.

(** C3 (as amended): for an object value, which has no built-in rule to
    Int, Float or Bool, when the method resolved on its class is the
    conversion dispatcher itself or the closure being executed, no closure
    is run: [toInt] and [toFloat] give the invalid value, [toBool] gives
    true, and [toString] of an instance gives its description (and fails
    only for a bridged instance whose host supplies no text). *)
Theorem conversion_guard_stops_recursion (vm : gravity_vm) (k : object_kind) (p : ref)
  (depth : nat) :
  let v := VALUE_FROM_OBJECT k p in
  (resolves_to_dispatcher H vm v GRAVITY_INT_INDEX FN_convert_object_int ->
     convert_value2int H vm v = (VALUE_FROM_ERROR, vm))
  /\ (resolves_to_dispatcher H vm v GRAVITY_FLOAT_INDEX FN_convert_object_float ->
        convert_value2float H vm v = (VALUE_FROM_ERROR, vm))
  /\ (resolves_to_dispatcher H vm v GRAVITY_BOOL_INDEX FN_convert_object_bool ->
        convert_value2bool H vm v = (VALUE_FROM_BOOL true, vm))
  /\ (forall instance,
        k = KInstance -> vm_instances vm !! p = Some instance ->
        resolves_to_dispatcher H vm v GRAVITY_STRING_INDEX FN_convert_object_string ->
        convert_value2string H (S depth) vm v = (instance_description H vm p instance, vm)).
Proof.
  cbv zeta. repeat split.
  - intros Hg. apply dispatcher_trips_guard in Hg.
    unfold convert_value2int. rewrite Hg. reflexivity.
  - intros Hg. apply dispatcher_trips_guard in Hg.
    unfold convert_value2float. rewrite Hg. reflexivity.
  - intros Hg. apply dispatcher_trips_guard in Hg.
    unfold convert_value2bool. rewrite Hg. reflexivity.
  - intros instance -> Hinst Hg. apply dispatcher_trips_guard in Hg.
    cbn [convert_value2string]. rewrite Hg, Hinst. unfold instance_description.
    destruct (i_xdata instance) as [xdata|]; [|reflexivity].
    destruct (bridge_string (gravity_vm_delegate H)) as [bridge|]; [|reflexivity].
    destruct (bridge vm xdata); reflexivity.
Qed.

(** ** Object: bind, load, store *)



(** The integer-key path of [object_load] on an instance: the key is cast
    to 32 bits, and the result of the cast is what is checked against the
    number of instance variables and used as the slot. *)
Lemma object_load_int_key (vm : gravity_vm) (p : ref) (instance : gravity_instance_t)
  (cls : gravity_class_t) (n : Z) (rest : list GravityValue) (nargs : Z) (rindex : nat) :
  vm_instances vm !! p = Some instance ->
  vm_classes vm !! i_objclass instance = Some cls ->
  object_load H vm (VALUE_FROM_OBJECT KInstance p :: from_int n :: rest) nargs rindex
  = if c_nivars cls <=? to_uint32 n
    then (RETURN_ERROR "Out of bounds ivar index in load operation (1).", vm)
    else match i_ivars instance !! Z.to_nat (to_uint32 n) with
         | Some v => (RETURN_VALUE v rindex, vm)
         | None => (INVALID_POINTER, vm)
         end.
Proof.
  intros Hinst Hcls. unfold object_load. cbn [arg nth init_meta_class GetClass].
  rewrite Hinst. simpl. rewrite Hcls. simpl.
  destruct (c_nivars cls <=? to_uint32 n); [reflexivity|].
  unfold return_ivar, read_ivar. rewrite Hinst. reflexivity.
Qed.

(** The same path of [object_store], for a value that is not a struct
    instance. *)
Lemma object_store_int_key (vm : gravity_vm) (p : ref) (instance : gravity_instance_t)
  (cls : gravity_class_t) (n v : Z) (rest : list GravityValue) (nargs : Z) (rindex : nat) :
  vm_instances vm !! p = Some instance ->
  vm_classes vm !! i_objclass instance = Some cls ->
  fst (object_store H vm
         (VALUE_FROM_OBJECT KInstance p :: from_int n :: from_int v :: rest) nargs rindex)
  = if c_nivars cls <=? to_uint32 n
    then RETURN_ERROR "Out of bounds ivar index in store operation (1)."
    else if Nat.ltb (Z.to_nat (to_uint32 n)) (length (i_ivars instance))
         then RETURN_NOVALUE else INVALID_POINTER.
Proof.
  intros Hinst Hcls. unfold object_store. cbn [arg nth init_meta_class GetClass].
  rewrite Hinst. simpl. rewrite Hcls. simpl.
  destruct (c_nivars cls <=? to_uint32 n); [reflexivity|].
  unfold store_ivar, clone_if_struct, write_ivar. rewrite Hinst.
  destruct (Nat.ltb (Z.to_nat (to_uint32 n)) (length (i_ivars instance))); reflexivity.
Qed.

(** ** List: sort and sorted *)

Lemma with_list_id (vm : gravity_vm) (l : ref) (a : list GravityValue) :
  vm_lists vm !! l = Some a -> with_list vm l a = vm.
Proof.
  intros Hl. unfold with_list. rewrite insert_id by exact Hl. destruct vm; reflexivity.
Qed.

Lemma with_list_lookup (vm : gravity_vm) (l : ref) (a : list GravityValue) :
  vm_lists (with_list vm l a) !! l = Some a.
Proof. unfold with_list. cbn [vm_lists set_lists]. apply lookup_insert_eq. Qed.

Lemma with_list_twice (vm : gravity_vm) (l : ref) (a b : list GravityValue) :
  with_list (with_list vm l a) l b = with_list vm l b.
Proof.
  unfold with_list. cbn [vm_lists set_lists]. rewrite insert_insert_eq. reflexivity.
Qed.

Lemma array_get_with_list (vm : gravity_vm) (l : ref) (a : list GravityValue) (i : Z) :
  array_get (with_list vm l a) l i = nth (Z.to_nat i) a from_null.
Proof. unfold array_get. rewrite with_list_lookup. reflexivity. Qed.

Lemma array_set_with_list (vm : gravity_vm) (l : ref) (a : list GravityValue) (i : Z)
  (v : GravityValue) :
  array_set (with_list vm l a) l i v = with_list vm l (<[Z.to_nat i := v]> a).
Proof.
  unfold array_set, with_list. cbn [vm_lists set_lists].
  rewrite alter_insert_eq. reflexivity.
Qed.

Lemma number_compare_on_ints (vm : gravity_vm) (a b : Z) :
  list_default_number_compare H vm (from_int a) (from_int b)
  = (float_gt (float_of_int a) (float_of_int b), vm).
Proof. reflexivity. Qed.

(** A segment of at most one element is left as it is. *)
Lemma quicksort_short_segment (vm : gravity_vm) (array : ref) (low high : Z)
  (selfvalue : GravityValue) (cmp_closure : option ref)
  (callback : option list_comparison_callback) :
  high <= low ->
  quicksort H vm array low high selfvalue cmp_closure callback = vm.
Proof.
  intros Hle. simp quicksort.
  destruct (gravity_vm_isaborted vm); simpl; [reflexivity|].
  destruct (Z_lt_dec low high); [lia|reflexivity].
Qed.

(** On a longer segment of a machine that is not aborted, [quicksort]
    partitions and sorts the two sides. *)
Lemma quicksort_long_segment (vm : gravity_vm) (array : ref) (low high : Z)
  (selfvalue : GravityValue) (cmp_closure : option ref)
  (callback : option list_comparison_callback) (pi : Z) (vm1 : gravity_vm) :
  gravity_vm_isaborted vm = false ->
  low < high ->
  partition H vm array low high selfvalue cmp_closure callback = (pi, vm1) ->
  quicksort H vm array low high selfvalue cmp_closure callback
  = quicksort H (quicksort H vm1 array low (pi - 1) selfvalue cmp_closure callback)
      array (pi + 1) high selfvalue cmp_closure callback.
Proof.
  intros Hrun Hlt Hp. rewrite quicksort_unfold_eq. unfold quicksort_unfold.
  rewrite Hrun. simpl.
  destruct (Z_lt_dec low high) as [Hlt'|]; [|lia]. simpl.
  revert Hp.
  generalize (partition H vm array low high selfvalue cmp_closure callback).
  intros r Hr. subst r. reflexivity.
Qed.

Lemma float_gt_3_2 : float_gt (float_of_int 3) (float_of_int 2) = true.
Proof. vm_compute. reflexivity. Qed.

Lemma float_gt_1_2 : float_gt (float_of_int 1) (float_of_int 2) = false.
Proof. vm_compute. reflexivity. Qed.

(** Evaluates the indices of array accesses, which are closed terms. *)
Ltac closed_indices :=
  repeat match goal with
         | |- context [Z.to_nat ?z] =>
             let n := eval vm_compute in (Z.to_nat z) in
             progress change (Z.to_nat z) with n
         end.

Ltac step_arrays :=
  repeat first
    [ rewrite array_get_with_list
    | rewrite array_set_with_list
    | rewrite number_compare_on_ints
    | rewrite float_gt_3_2
    | rewrite float_gt_1_2
    | progress closed_indices
    | progress cbn [nth negb insert list_insert partition_loop partition_test] ].

(** The partition of [3,1,2] around its last element. *)
Lemma partition_3_1_2 (vm : gravity_vm) (l : ref) (selfvalue : GravityValue) :
  partition H (with_list vm l [from_int 3; from_int 1; from_int 2]) l 0 2 selfvalue None
    (Some (list_default_number_compare H))
  = (1, with_list vm l [from_int 1; from_int 2; from_int 3]).
Proof.
  unfold partition. change (Z.to_nat (2 - 0)) with 2%nat.
  step_arrays.
  reflexivity.
Qed.

Lemma quicksort_3_1_2 (vm : gravity_vm) (l : ref) (selfvalue : GravityValue) :
  gravity_vm_isaborted vm = false ->
  quicksort H (with_list vm l [from_int 3; from_int 1; from_int 2]) l 0 2 selfvalue None
    (Some (list_default_number_compare H))
  = with_list vm l [from_int 1; from_int 2; from_int 3].
Proof.
  intros Hrun.
  rewrite (quicksort_long_segment _ _ _ _ _ _ _ 1
             (with_list vm l [from_int 1; from_int 2; from_int 3]));
    [| exact Hrun | lia | apply partition_3_1_2].
  rewrite (quicksort_short_segment _ l 0 (1 - 1)) by lia.
  apply quicksort_short_segment. lia.
Qed.

(** C6: on the list [3,1,2] of a running machine, [sorted()] returns a
    list object other than the receiver that holds [1,2,3] while the
    receiver still holds [3,1,2]; [sort()] returns the receiver itself, which
    then holds [1,2,3]. *)
Theorem list_sorted_copies_and_sort_is_in_place (vm : gravity_vm) (list : ref)
  (rindex : nat) :
  vm_lists vm !! list = Some [from_int 3; from_int 1; from_int 2] ->
  gravity_vm_isaborted vm = false ->
  let receiver := VALUE_FROM_OBJECT KList list in
  (exists newlist,
      fst (list_sorted H vm [receiver] 1 rindex)
      = RETURN_VALUE (VALUE_FROM_OBJECT KList newlist) rindex
      /\ newlist <> list
      /\ vm_lists (snd (list_sorted H vm [receiver] 1 rindex)) !! newlist
         = Some [from_int 1; from_int 2; from_int 3]
      /\ vm_lists (snd (list_sorted H vm [receiver] 1 rindex)) !! list
         = Some [from_int 3; from_int 1; from_int 2])
  /\ fst (list_sort H vm [receiver] 1 rindex) = RETURN_VALUE receiver rindex
  /\ vm_lists (snd (list_sort H vm [receiver] 1 rindex)) !! list
     = Some [from_int 1; from_int 2; from_int 3].
Proof.
  intros Hlist Hrun receiver. subst receiver.
  assert (Hfirst : array_get vm list 0 = from_int 3).
  { unfold array_get. rewrite Hlist. reflexivity. }
  split.
  - exists (fresh (dom (vm_lists vm))).
    assert (Hfresh : fresh (dom (vm_lists vm)) <> list).
    { intros Heq. apply (is_fresh (dom (vm_lists vm))). rewrite Heq.
      apply elem_of_dom. eexists. exact Hlist. }
    unfold list_sorted, sort_predicate. cbn [arg nth]. change (2 <=? 1) with false.
    cbv iota. rewrite Hlist, Hfirst. unfold gravity_list_new.
    change (to_int32 (Z.of_nat (length [from_int 3; from_int 1; from_int 2]))) with 3.
    change (1 <? 3) with true. cbv iota. change (3 - 1) with 2.
    change (default_callback H (from_int 3)) with (list_default_number_compare H).
    fold (with_list vm (fresh (dom (vm_lists vm))) [from_int 3; from_int 1; from_int 2]).
    rewrite quicksort_3_1_2 by exact Hrun. cbn [fst snd].
    split; [reflexivity|]. split; [exact Hfresh|]. split.
    + apply with_list_lookup.
    + unfold with_list. cbn [vm_lists set_lists].
      rewrite lookup_insert_ne by exact Hfresh. exact Hlist.
  - assert (Hq : quicksort H vm list 0 2 (VALUE_FROM_OBJECT KList list) None
                   (Some (list_default_number_compare H))
                 = with_list vm list [from_int 1; from_int 2; from_int 3]).
    { rewrite <- (with_list_id vm list _ Hlist) at 1. apply quicksort_3_1_2, Hrun. }
    unfold list_sort, sort_predicate. cbn [arg nth]. change (2 <=? 1) with false.
    cbv iota. rewrite Hlist, Hfirst.
    change (to_int32 (Z.of_nat (length [from_int 3; from_int 1; from_int 2]))) with 3.
    change (1 <? 3) with true. cbv iota. change (3 - 1) with 2.
    change (default_callback H (from_int 3)) with (list_default_number_compare H).
    rewrite Hq. cbn [fst snd].
    split; [reflexivity|]. apply with_list_lookup.
Qed.

End Properties.

(** * The properties on the concrete machine *)

(** In the concrete machine the conversion methods of a Point resolve to
    the dispatchers bound on Object. *)
Lemma point_resolves_to_dispatchers :
  resolves_to_dispatcher demo_host demo_vm the_point GRAVITY_INT_INDEX FN_convert_object_int
  /\ resolves_to_dispatcher demo_host demo_vm the_point GRAVITY_FLOAT_INDEX
       FN_convert_object_float
  /\ resolves_to_dispatcher demo_host demo_vm the_point GRAVITY_BOOL_INDEX
       FN_convert_object_bool
  /\ resolves_to_dispatcher demo_host demo_vm the_point GRAVITY_STRING_INDEX
       FN_convert_object_string.
Proof.
  repeat split.
  - exists 0%nat. split; [reflexivity|]. left. eexists. repeat split; reflexivity.
  - exists 1%nat. split; [reflexivity|]. left. eexists. repeat split; reflexivity.
  - exists 2%nat. split; [reflexivity|]. left. eexists. repeat split; reflexivity.
  - exists 3%nat. split; [reflexivity|]. left. eexists. repeat split; reflexivity.
Defined.

(** C1, witness: the second fiber of the concrete machine was resumed by
    the first; calling it again fails and leaves its record as it was. *)
Lemma fiber_run_rejects_double_resume_demo :
  (fb_caller <$> vm_fibers demo_vm !! 1%nat) = Some (Some 0%nat)
  /\ fiber_exec demo_host demo_vm [the_called_fiber] 1 0%nat
     = (RETURN_ERROR "Fiber has already been called.",
        gravity_vm_setslot demo_vm from_null 0%nat)
  /\ fiber_try demo_host demo_vm [the_called_fiber] 1 0%nat
     = (RETURN_ERROR "Fiber has already been called.",
        gravity_vm_setslot demo_vm from_null 0%nat).
Proof.
  split; [reflexivity|].
  pose proof (fiber_run_rejects_double_resume demo_host demo_vm 1%nat 0%nat
                (demo_fiber (Some 0%nat) FIBER_RUNNING float_zero) [] 1 0%nat
                eq_refl eq_refl) as (Hexec & Htry & _).
  split; [exact Hexec | exact Htry].
Defined.

(** C2, counterexample: a yield by a fiber without caller is not a no-op.
    The first fiber of the concrete machine has no caller and a wait time of
    two seconds; after its [yield] it is still the executing fiber, but its
    wait time is zero and its resume timestamp is the reading of the clock. *)
Lemma fiber_yield_without_caller_writes_times :
  (fb_caller <$> vm_fibers root_vm !! 0%nat) = Some None
  /\ fst (fiber_yield demo_host root_vm [] 0 0%nat) = RETURN_NOVALUE
  /\ vm_fiber (snd (fiber_yield demo_host root_vm [] 0 0%nat)) = 0%nat
  /\ (fb_timewait <$> vm_fibers root_vm !! 0%nat) = Some (float_of_int 2)
  /\ (fb_timewait <$> vm_fibers (snd (fiber_yield demo_host root_vm [] 0 0%nat)) !! 0%nat)
     = Some float_zero
  /\ (fb_lasttime <$> vm_fibers root_vm !! 0%nat) = Some 0
  /\ (fb_lasttime <$> vm_fibers (snd (fiber_yield demo_host root_vm [] 0 0%nat)) !! 0%nat)
     = Some 3000000000
  /\ snd (fiber_yield demo_host root_vm [] 0 0%nat) <> root_vm.
Proof.
  repeat split; try (vm_compute; reflexivity).
  intros Heq.
  assert (Hclock : vm_clock (snd (fiber_yield demo_host root_vm [] 0 0%nat)) = vm_clock root_vm)
    by (rewrite Heq; reflexivity).
  vm_compute in Hclock. discriminate Hclock.
Qed.

(** C2, witness: the second fiber of the concrete machine executes and has
    the first as its caller; its yields hand control to the first fiber and
    leave it without caller. *)
Lemma fiber_yield_unhooks_fiber_demo :
  vm_fibers demo_vm !! vm_fiber demo_vm
  = Some (demo_fiber (Some 0%nat) FIBER_RUNNING float_zero)
  /\ yield_outcome 1%nat (demo_fiber (Some 0%nat) FIBER_RUNNING float_zero)
       float_zero 3000000000
       (fiber_yield demo_host demo_vm [] 0 0%nat)
  /\ yield_outcome 1%nat (demo_fiber (Some 0%nat) FIBER_RUNNING float_zero)
       (float_of_int 2) 3000000000
       (fiber_yield_time demo_host demo_vm [from_null; from_int 2] 1 0%nat).
Proof.
  split; [reflexivity|].
  split.
  - exact (proj1 (fiber_yield_unhooks_fiber demo_host demo_vm _ [] 0 0%nat eq_refl)).
  - exact (proj2 (fiber_yield_unhooks_fiber demo_host demo_vm _
                    [from_null; from_int 2] 1 0%nat eq_refl)).
Defined.

(** C3, counterexample: the conversion of a Point to Bool, whose method is
    the dispatcher bound on Object, does not fail: it gives true.  Its
    conversion to String gives a description. *)
Lemma guarded_conversion_to_bool_is_true :
  resolves_to_dispatcher demo_host demo_vm the_point GRAVITY_BOOL_INDEX
    FN_convert_object_bool
  /\ convert_value2bool demo_host demo_vm the_point = (VALUE_FROM_BOOL true, demo_vm)
  /\ is_error (fst (convert_value2bool demo_host demo_vm the_point)) = false
  /\ resolves_to_dispatcher demo_host demo_vm the_point GRAVITY_STRING_INDEX
       FN_convert_object_string
  /\ convert_value2string demo_host CONVERT_DEPTH demo_vm the_point
     = (VALUE_FROM_STRING "instance of Point (0x0)", demo_vm).
Proof.
  destruct point_resolves_to_dispatchers as (_ & _ & Hbool & Hstring).
  repeat split; try assumption; vm_compute; reflexivity.
Qed.

(** C3, witness: on the Point of the concrete machine the conversions to
    Int and to Float give the invalid value, the conversion to Bool gives
    true and the conversion to String a description. *)
Lemma conversion_guard_stops_recursion_demo :
  convert_value2int demo_host demo_vm the_point = (VALUE_FROM_ERROR, demo_vm)
  /\ convert_value2float demo_host demo_vm the_point = (VALUE_FROM_ERROR, demo_vm)
  /\ convert_value2bool demo_host demo_vm the_point = (VALUE_FROM_BOOL true, demo_vm)
  /\ convert_value2string demo_host 1 demo_vm the_point
     = (instance_description demo_host demo_vm 0%nat
          {| i_objclass := 20%nat; i_xdata := None; i_ivars := [from_int 7] |}, demo_vm).
Proof.
  destruct point_resolves_to_dispatchers as (Hint & Hfloat & Hbool & Hstring).
  destruct (conversion_guard_stops_recursion demo_host demo_vm KInstance 0%nat 0%nat)
    as (Gint & Gfloat & Gbool & Gstring).
  split; [exact (Gint Hint)|]. split; [exact (Gfloat Hfloat)|].
  split; [exact (Gbool Hbool)|].
  exact (Gstring _ eq_refl eq_refl Hstring).
Defined.


(** C6, witness: the list [3,1,2] of the concrete machine. *)
Lemma list_sorted_copies_and_sort_is_in_place_demo :
  vm_lists demo_vm !! 0%nat = Some [from_int 3; from_int 1; from_int 2]
  /\ (exists newlist,
         fst (list_sorted demo_host demo_vm [the_list] 1 0%nat)
         = RETURN_VALUE (VALUE_FROM_OBJECT KList newlist) 0%nat
         /\ newlist <> 0%nat
         /\ vm_lists (snd (list_sorted demo_host demo_vm [the_list] 1 0%nat)) !! newlist
            = Some [from_int 1; from_int 2; from_int 3]
         /\ vm_lists (snd (list_sorted demo_host demo_vm [the_list] 1 0%nat)) !! 0%nat
            = Some [from_int 3; from_int 1; from_int 2])
  /\ fst (list_sort demo_host demo_vm [the_list] 1 0%nat) = RETURN_VALUE the_list 0%nat
  /\ vm_lists (snd (list_sort demo_host demo_vm [the_list] 1 0%nat)) !! 0%nat
     = Some [from_int 1; from_int 2; from_int 3].
Proof.
  split; [reflexivity|].
  exact (list_sorted_copies_and_sort_is_in_place demo_host demo_vm 0%nat 0%nat
           eq_refl eq_refl).
Defined.

(** C7, counterexample: when the first invocation fails, [loop] on the
    range from 1 to 5 returns at once: the closure has been invoked once. *)
Lemma range_loop_stops_at_failed_call :
  vm_ranges demo_vm !! 0%nat = Some {| r_from := 1; r_to := 5 |}
  /\ fst (range_loop failing_host demo_vm [the_range; a_closure] 2 0%nat) = RETURN_FALSE
  /\ vm_calls (snd (range_loop failing_host demo_vm [the_range; a_closure] 2 0%nat))
     = [(5%nat, the_range, [from_int 1])].
Proof. repeat split; vm_compute; reflexivity. Qed.

(** C7, witness: a host whose closures succeed on the integers from 1 to 5
    and on nothing else, 6 for one. *)
Lemma range_loop_one_to_five_demo :
  fst (host_runclosure one_to_five_host demo_vm 5%nat the_range [from_int 6]) = false
  /\ (exists t,
         fst (range_loop one_to_five_host demo_vm [the_range; a_closure] 2 0%nat)
         = RETURN_VALUE (from_int t) 0%nat)
  /\ vm_calls (snd (range_loop one_to_five_host demo_vm [the_range; a_closure] 2 0%nat))
     = [(5%nat, the_range, [from_int 1]); (5%nat, the_range, [from_int 2]);
        (5%nat, the_range, [from_int 3]); (5%nat, the_range, [from_int 4]);
        (5%nat, the_range, [from_int 5])].
Proof.
  split; [reflexivity|].
  apply (range_loop_one_to_five one_to_five_host demo_vm 0%nat 5%nat [] 2 0%nat).
  - discriminate.
  - reflexivity.
  - cbn [invocations_succeed]. repeat split.
Defined.

(** C9, the failing input: the Point has one instance variable, holding 7.
    The integer key 4294967296 is not a slot index of the Point, and neither
    is -4294967296, yet [load] returns slot 0 and [store] overwrites it,
    because the key is cast to 32 bits before it is checked.  Keys from 1 to
    4294967295 are reported as out of bounds. *)
Theorem integer_key_is_checked_after_truncation :
  c_nivars <$> demo_classes !! 20%nat = Some 1
  /\ object_load demo_host demo_vm [the_point; from_int 4294967296] 2 0%nat
     = (RETURN_VALUE (from_int 7) 0%nat, demo_vm)
  /\ object_load demo_host demo_vm [the_point; from_int (-4294967296)] 2 0%nat
     = (RETURN_VALUE (from_int 7) 0%nat, demo_vm)
  /\ fst (object_store demo_host demo_vm [the_point; from_int 4294967296; from_int 9] 3 0%nat)
     = RETURN_NOVALUE
  /\ (i_ivars <$>
        vm_instances
          (snd (object_store demo_host demo_vm
                  [the_point; from_int 4294967296; from_int 9] 3 0%nat)) !! 0%nat)
     = Some [from_int 9]
  /\ object_load demo_host demo_vm [the_point; from_int 1] 2 0%nat
     = (RETURN_ERROR "Out of bounds ivar index in load operation (1).", demo_vm)
  /\ object_load demo_host demo_vm [the_point; from_int (-1)] 2 0%nat
     = (RETURN_ERROR "Out of bounds ivar index in load operation (1).", demo_vm).
Proof. repeat split; vm_compute; reflexivity. Qed.

(** * Properties of the further natives *)

Section MoreProperties.

Context (H : gravity_host).

(** ** Fixed-width casts of values in range *)

Lemma to_uint32_small (z : Z) : 0 <= z < 2 ^ 32 -> to_uint32 z = z.
Proof. intros Hz. unfold to_uint32. apply Z.mod_small. exact Hz. Qed.

Lemma to_int32_small (z : Z) : - 2 ^ 31 <= z < 2 ^ 31 -> to_int32 z = z.
Proof.
  intros Hz. unfold to_int32. rewrite Z.mod_small; [lia|].
  change (2 ^ 32) with (2 ^ 31 + 2 ^ 31). lia.
Qed.

Lemma wrap64_small (z : Z) : INT64_MIN <= z <= INT64_MAX -> wrap64 z = z.
Proof.
  unfold INT64_MIN, INT64_MAX. intros Hz. unfold wrap64. rewrite Z.mod_small; [lia|].
  change (2 ^ 64) with (2 ^ 63 + 2 ^ 63). lia.
Qed.

Lemma VALUE_AS_LIST_lookup (vm : gravity_vm) (l : ref) (array : list GravityValue) :
  vm_lists vm !! l = Some array ->
  VALUE_AS_LIST vm (VALUE_FROM_OBJECT KList l) = Some (l, array).
Proof. intros Hl. unfold VALUE_AS_LIST. rewrite Hl. reflexivity. Qed.

Lemma array_get_lookup (vm : gravity_vm) (l : ref) (array : list GravityValue) (i : Z) :
  vm_lists vm !! l = Some array ->
  array_get vm l i = nth (Z.to_nat i) array from_null.
Proof. intros Hl. unfold array_get. rewrite Hl. reflexivity. Qed.

Lemma lookup_nth_lt (array : list GravityValue) (i : nat) :
  (i < length array)%nat -> array !! i = Some (nth i array from_null).
Proof.
  intros Hi. destruct (lookup_lt_is_Some_2 array i Hi) as [x Hx]. rewrite Hx.
  f_equal. symmetry. apply nth_lookup_Some. exact Hx.
Qed.

(** ** List: indexed access *)

(** X1: [list_loadat] accepts exactly the indices from [-count] to
    [count-1]: a non-negative one selects the element at that position, a
    negative one counts from the end, and any other index is reported as
    out of bounds with the machine as it was. *)
Theorem list_loadat_bounds (vm : gravity_vm) (l : ref) (array : list GravityValue)
  (i : Z) (rest : list GravityValue) (nargs : Z) (rindex : nat) :
  vm_lists vm !! l = Some array ->
  getCount array < 2 ^ 31 ->
  - 2 ^ 31 <= i < 2 ^ 31 ->
  let r := list_loadat H vm (VALUE_FROM_OBJECT KList l :: from_int i :: rest) nargs rindex in
  (- getCount array <= i < getCount array ->
   r = (RETURN_VALUE (nth (Z.to_nat (i mod getCount array)) array from_null) rindex, vm))
  /\ (~ (- getCount array <= i < getCount array) ->
      exists msg, r = (RETURN_ERROR msg, vm)).
Proof.
  intros Hl Hcount Hi r. subst r. unfold list_loadat. cbn [arg nth].
  rewrite (VALUE_AS_LIST_lookup _ _ _ Hl). cbn [IsInt negb value_n].
  assert (Hc0 : 0 <= getCount array) by (unfold getCount; lia).
  rewrite (to_int32_small i Hi), (to_uint32_small (getCount array)) by lia.
  cbv zeta. destruct (i <? 0) eqn:Hneg.
  - apply Z.ltb_lt in Hneg.
    rewrite (to_int32_small (getCount array + i)) by lia.
    split.
    + intros Hin.
      destruct (getCount array + i <? 0) eqn:H1; [apply Z.ltb_lt in H1; lia|].
      rewrite to_uint32_small by lia.
      destruct (getCount array <=? getCount array + i) eqn:H2;
        [apply Z.leb_le in H2; lia|].
      cbn [orb]. rewrite (array_get_lookup _ _ _ _ Hl).
      replace (i mod getCount array) with (getCount array + i); [reflexivity|].
      apply Z.mod_unique with (q := -1); lia.
    + intros Hout.
      destruct (getCount array + i <? 0) eqn:H1; [|apply Z.ltb_ge in H1; lia].
      cbn [orb]. eexists. reflexivity.
  - cbv iota. rewrite Hneg. apply Z.ltb_ge in Hneg. split.
    + intros Hin. rewrite to_uint32_small by lia.
      destruct (getCount array <=? i) eqn:H2; [apply Z.leb_le in H2; lia|].
      cbn [orb]. rewrite (array_get_lookup _ _ _ _ Hl).
      rewrite Z.mod_small by lia. reflexivity.
    + intros Hout. rewrite to_uint32_small by lia.
      destruct (getCount array <=? i) eqn:H2; [|apply Z.leb_gt in H2; lia].
      cbn [orb]. eexists. reflexivity.
Qed.


(** X3: [list_push] appends the value and returns the new number of
    elements; a [list_pop] that follows returns that value and leaves the
    machine exactly as it was before the push. *)
Theorem list_push_then_pop (vm : gravity_vm) (l : ref) (array : list GravityValue)
  (v : GravityValue) (rest : list GravityValue) (nargs : Z) (rindex : nat) :
  vm_lists vm !! l = Some array ->
  let pushed := list_push vm (VALUE_FROM_OBJECT KList l :: v :: rest) nargs rindex in
  pushed = (RETURN_VALUE (from_int (getCount array + 1)) rindex, with_list vm l (array ++ [v]))
  /\ list_pop (snd pushed) [VALUE_FROM_OBJECT KList l] 1 rindex = (RETURN_VALUE v rindex, vm).
Proof.
  intros Hl pushed.
  assert (Hpushed : pushed = (RETURN_VALUE (from_int (getCount array + 1)) rindex,
                              with_list vm l (array ++ [v]))).
  { subst pushed. unfold list_push. cbn [arg nth].
    rewrite (VALUE_AS_LIST_lookup _ _ _ Hl). unfold getCount. rewrite length_app.
    cbn [length]. unfold with_list. do 3 f_equal. lia. }
  split; [exact Hpushed|]. rewrite Hpushed. cbn [snd].
  unfold list_pop. cbn [arg nth].
  rewrite (VALUE_AS_LIST_lookup _ _ _ (with_list_lookup vm l _)).
  unfold getCount. rewrite length_app. cbn [length].
  destruct (Z.of_nat (length array + 1) <? 1) eqn:Hlt; [apply Z.ltb_lt in Hlt; lia|].
  rewrite array_get_with_list.
  replace (Z.to_nat (Z.of_nat (length array + 1) - 1)) with (length array) by lia.
  rewrite app_nth2, Nat.sub_diag by lia. cbn [nth].
  fold (with_list (with_list vm l (array ++ [v])) l
          (take (length array + 1 - 1) (array ++ [v]))).
  rewrite with_list_twice.
  replace (length array + 1 - 1)%nat with (length array) by lia.
  rewrite take_app_length. rewrite (with_list_id vm l array Hl). reflexivity.
Qed.

(** X4: [list_remove] at an index of the list returns the receiver, whose
    elements before the index stay where they were and whose elements after
    it move down by one; with any other index it reports an error and
    changes nothing. *)
Theorem list_remove_shifts_down (vm : gravity_vm) (l : ref) (array : list GravityValue)
  (i : Z) (rest : list GravityValue) (nargs : Z) (rindex : nat) :
  vm_lists vm !! l = Some array ->
  let r := list_remove H vm (VALUE_FROM_OBJECT KList l :: from_int i :: rest) nargs rindex in
  (0 <= i < getCount array ->
   exists array',
     r = (RETURN_VALUE (VALUE_FROM_OBJECT KList l) rindex, with_list vm l array')
     /\ getCount array' = getCount array - 1
     /\ forall j : nat,
          array' !! j = if (Z.of_nat j <? i) then array !! j else array !! S j)
  /\ (~ (0 <= i < getCount array) -> r = (RETURN_ERROR "Out of bounds index.", vm)).
Proof.
  intros Hl r. subst r. unfold list_remove. cbn [arg nth].
  rewrite (VALUE_AS_LIST_lookup _ _ _ Hl). cbn [IsInt negb value_n]. split.
  - intros Hi.
    destruct (i <? 0) eqn:Hneg; [apply Z.ltb_lt in Hneg; lia|].
    destruct (getCount array <=? i) eqn:Hge; [apply Z.leb_le in Hge; lia|].
    cbn [orb]. exists (delete (Z.to_nat i) array). split; [reflexivity|].
    unfold getCount in *. split.
    + rewrite length_delete; [lia|]. apply lookup_lt_is_Some. lia.
    + intros j. destruct (Z.of_nat j <? i) eqn:Hj.
      * apply Z.ltb_lt in Hj. apply list_lookup_delete_lt. lia.
      * apply Z.ltb_ge in Hj. apply list_lookup_delete_ge. lia.
  - intros Hi.
    destruct (i <? 0) eqn:Hneg; [reflexivity|]. apply Z.ltb_ge in Hneg.
    destruct (getCount array <=? i) eqn:Hge; [reflexivity|].
    apply Z.leb_gt in Hge. lia.
Qed.

(** ** List: iteration *)

Lemma list_for_in_from (vm : gravity_vm) (l : ref) (array : list GravityValue) :
  vm_lists vm !! l = Some array ->
  getCount array < 2 ^ 31 ->
  forall (fuel : nat) (k : Z),
    0 <= k < getCount array ->
    getCount array - k <= Z.of_nat fuel ->
    for_in (list_iterator H) (list_iterator_next H) fuel vm
      (VALUE_FROM_OBJECT KList l) (from_int k)
    = drop (S (Z.to_nat k)) array.
Proof.
  intros Hl Hcount fuel. unfold getCount in *.
  induction fuel as [|fuel IH]; intros k Hk Hfuel; [lia|].
  cbn [for_in]. unfold list_iterator at 1. cbn [arg nth].
  rewrite (VALUE_AS_LIST_lookup _ _ _ Hl). unfold getCount.
  rewrite to_uint32_small by lia.
  destruct (Z.of_nat (length array) =? 0) eqn:H0; [apply Z.eqb_eq in H0; lia|].
  cbn [VALUE_ISA_NULL IsInt negb value_n].
  rewrite wrap64_small by (unfold INT64_MIN, INT64_MAX; lia).
  destruct (k + 1 <? Z.of_nat (length array)) eqn:Hnext; cbn [fst].
  - apply Z.ltb_lt in Hnext.
    unfold list_iterator_next at 1. cbn [arg nth].
    rewrite (VALUE_AS_LIST_lookup _ _ _ Hl). cbn [fst value_n].
    rewrite to_int32_small by lia. rewrite (array_get_lookup _ _ _ _ Hl).
    rewrite IH by lia.
    replace (Z.to_nat (k + 1)) with (S (Z.to_nat k)) by lia.
    symmetry. apply drop_S. apply lookup_nth_lt. lia.
  - apply Z.ltb_ge in Hnext. symmetry. apply drop_ge. lia.
Qed.

(** X5: feeding each cursor that [list_iterator] returns back to it,
    starting from Null, and reading each cursor with [list_iterator_next],
    yields the elements of the list, each one once and in order, and then
    ends; on an empty list it ends at once. *)
Theorem list_iteration_visits_elements (vm : gravity_vm) (l : ref)
  (array : list GravityValue) (fuel : nat) :
  vm_lists vm !! l = Some array ->
  getCount array < 2 ^ 31 ->
  (length array < fuel)%nat ->
  for_in (list_iterator H) (list_iterator_next H) fuel vm (VALUE_FROM_OBJECT KList l)
    from_null
  = array.
Proof.
  intros Hl Hcount Hfuel. destruct fuel as [|fuel]; [lia|].
  cbn [for_in]. unfold list_iterator at 1. cbn [arg nth].
  rewrite (VALUE_AS_LIST_lookup _ _ _ Hl).
  rewrite to_uint32_small by (unfold getCount in *; lia).
  destruct (getCount array =? 0) eqn:H0; cbn [fst].
  - apply Z.eqb_eq in H0. unfold getCount in H0.
    destruct array; [reflexivity | cbn [length] in H0; lia].
  - apply Z.eqb_neq in H0. cbn [VALUE_ISA_NULL fst].
    unfold list_iterator_next at 1. cbn [arg nth].
    rewrite (VALUE_AS_LIST_lookup _ _ _ Hl). cbn [fst value_n].
    rewrite (array_get_lookup _ _ _ _ Hl).
    rewrite (list_for_in_from vm l array Hl Hcount) by (unfold getCount in *; lia).
    destruct array as [|x array]; [unfold getCount in H0; cbn [length] in H0; lia|].
    reflexivity.
Qed.

(** ** List: reverse and reversed *)

Lemma swap_ends (pre mid post : list GravityValue) (x y : GravityValue) :
  <[length pre := y]> (<[(length pre + S (length mid))%nat := x]>
                         (pre ++ (x :: mid ++ [y]) ++ post))
  = (pre ++ [y]) ++ mid ++ (x :: post).
Proof.
  rewrite (insert_app_r pre). cbn [app].
  change (<[S (length mid) := x]> (x :: (mid ++ [y]) ++ post))
    with (x :: <[length mid := x]> ((mid ++ [y]) ++ post)).
  rewrite <- (app_assoc mid). rewrite (insert_app_r_alt mid) by lia.
  rewrite Nat.sub_diag. cbn [app].
  rewrite (insert_app_r_alt pre) by lia. rewrite Nat.sub_diag.
  rewrite <- (app_assoc pre). reflexivity.
Qed.

(** The swaps of [list_reverse], on a list split into the part already
    swapped at the front, the part still to swap, and the part already
    swapped at the back. *)
Lemma list_reverse_from_middle (l : ref) :
  forall (n : nat) (vm : gravity_vm) (pre mid post : list GravityValue),
    length mid = n ->
    length pre = length post ->
    list_reverse_from (with_list vm l (pre ++ mid ++ post)) l
      (getCount (pre ++ mid ++ post)) (Z.of_nat (length pre))
    = with_list vm l (pre ++ rev mid ++ post).
Proof.
  induction n as [n IH] using (well_founded_induction lt_wf).
  intros vm pre mid post Hn Hlen.
  rewrite list_reverse_from_unfold_eq. unfold list_reverse_from_unfold, list_reverse_from_unfold_clause_1.
  assert (Hhalf : getCount (pre ++ mid ++ post) / 2
                  = Z.of_nat (length pre) + Z.of_nat (length mid) / 2).
  { unfold getCount. rewrite !length_app, <- Hlen.
    replace (Z.of_nat (length pre + (length mid + length pre)))
      with (Z.of_nat (length mid) + Z.of_nat (length pre) * 2) by lia.
    rewrite Z.div_add by lia. lia. }
  destruct mid as [|x mid].
  { destruct (Z_lt_dec _ _) as [Hlt|Hnlt]; [|reflexivity].
    exfalso. revert Hlt. rewrite Hhalf. cbn [length]. change (Z.of_nat 0 / 2) with 0. lia. }
  destruct (exists_last (l := x :: mid) ltac:(discriminate)) as (mid' & y & Hmid).
  destruct mid' as [|x' mid'].
  { (* a single element in the middle stays *)
    cbn [app] in Hmid. injection Hmid as -> ->.
    destruct (Z_lt_dec _ _) as [Hlt|Hnlt]; [|reflexivity].
    exfalso. revert Hlt. rewrite Hhalf. cbn [length]. change (Z.of_nat 1 / 2) with 0. lia. }
  cbn [app] in Hmid. injection Hmid as -> ->.
  destruct (Z_lt_dec _ _) as [Hlt|Hge].
  2:{ exfalso. apply Hge. rewrite Hhalf. rewrite length_cons, length_app. cbn [length].
      assert (1 <= Z.of_nat (S (length mid' + 1)) / 2); [|lia].
      apply Z.div_le_lower_bound; lia. }
  set (i := length pre).
  assert (Hi : Z.to_nat (Z.of_nat i) = i) by lia.
  assert (Hlast : Z.to_nat (getCount (pre ++ (x' :: mid' ++ [y]) ++ post) - Z.of_nat i - 1)
                  = (i + S (length mid'))%nat).
  { unfold getCount. rewrite !length_app, length_cons, length_app. cbn [length].
    subst i. lia. }
  rewrite !array_get_with_list, !array_set_with_list. rewrite Hi, Hlast.
  assert (Hx : nth i (pre ++ (x' :: mid' ++ [y]) ++ post) from_null = x').
  { subst i. cbn [app]. apply nth_middle. }
  assert (Hy : nth (i + S (length mid')) (pre ++ (x' :: mid' ++ [y]) ++ post) from_null = y).
  { subst i. rewrite app_nth2_plus. cbn [app nth]. rewrite <- app_assoc. cbn [app].
    apply nth_middle. }
  rewrite Hx, Hy.
  assert (Hswap : <[i := y]> (<[(i + S (length mid'))%nat := x']>
                                 (pre ++ (x' :: mid' ++ [y]) ++ post))
                  = (pre ++ [y]) ++ mid' ++ (x' :: post)) by apply swap_ends.
  rewrite Hswap.
  replace (getCount (pre ++ (x' :: mid' ++ [y]) ++ post))
    with (getCount ((pre ++ [y]) ++ mid' ++ x' :: post)).
  2:{ unfold getCount. rewrite !length_app, !length_cons, !length_app. cbn [length]. lia. }
  replace (Z.of_nat i + 1) with (Z.of_nat (length (pre ++ [y]))).
  2:{ rewrite length_app. cbn [length]. subst i. lia. }
  rewrite (IH (length mid')) with (mid := mid').
  - f_equal. cbn [rev]. rewrite rev_app_distr. cbn [rev app].
    rewrite <- !app_assoc. reflexivity.
  - subst n. rewrite length_cons, length_app. cbn [length]. lia.
  - reflexivity.
  - rewrite length_app. cbn [length]. lia.
Qed.

(** X6: [list_reverse] returns the receiver, which then holds its former
    elements in reverse order, and nothing else of the machine changes; a
    second [list_reverse] restores the machine. *)
Theorem list_reverse_reverses_in_place (vm : gravity_vm) (l : ref)
  (array : list GravityValue) (rindex : nat) :
  vm_lists vm !! l = Some array ->
  let reversed := list_reverse vm [VALUE_FROM_OBJECT KList l] 1 rindex in
  reversed = (RETURN_VALUE (VALUE_FROM_OBJECT KList l) rindex, with_list vm l (rev array))
  /\ list_reverse (snd reversed) [VALUE_FROM_OBJECT KList l] 1 rindex
     = (RETURN_VALUE (VALUE_FROM_OBJECT KList l) rindex, vm).
Proof.
  intros Hl reversed.
  assert (Hrev : forall vm' a,
             list_reverse (with_list vm' l a) [VALUE_FROM_OBJECT KList l] 1 rindex
             = (RETURN_VALUE (VALUE_FROM_OBJECT KList l) rindex, with_list vm' l (rev a))).
  { intros vm' a. unfold list_reverse. change (1 <? 1) with false. cbv iota.
    cbn [arg nth]. rewrite (VALUE_AS_LIST_lookup _ _ _ (with_list_lookup vm' l a)).
    pose proof (list_reverse_from_middle l (length a) vm' [] a [] eq_refl eq_refl) as Hm.
    cbn [app length] in Hm. rewrite !app_nil_r in Hm. change (Z.of_nat 0) with 0 in Hm.
    rewrite Hm. reflexivity. }
  assert (Hreversed : reversed = (RETURN_VALUE (VALUE_FROM_OBJECT KList l) rindex,
                                  with_list vm l (rev array))).
  { subst reversed. rewrite <- (with_list_id vm l array Hl) at 1. apply Hrev. }
  split; [exact Hreversed|]. rewrite Hreversed. cbn [snd]. rewrite Hrev.
  rewrite rev_involutive, (with_list_id vm l array Hl). reflexivity.
Qed.

Lemma list_reversed_from_take (vm : gravity_vm) (l : ref) (array : list GravityValue) :
  vm_lists vm !! l = Some array ->
  forall (k : nat) (newlist : list GravityValue) (i : Z),
    0 <= i ->
    getCount array - i = Z.of_nat k ->
    list_reversed_from vm l newlist (getCount array) i
    = newlist ++ rev (take k array).
Proof.
  intros Hl k. induction k as [|k IH]; intros newlist i Hi Hk.
  - rewrite list_reversed_from_unfold_eq. unfold list_reversed_from_unfold, list_reversed_from_unfold_clause_1.
    destruct (Z_lt_dec _ _) as [Hlt|Hnlt]; [lia|]. cbn [take rev]. rewrite app_nil_r.
    reflexivity.
  - rewrite list_reversed_from_unfold_eq. unfold list_reversed_from_unfold, list_reversed_from_unfold_clause_1.
    destruct (Z_lt_dec _ _) as [Hlt|Hge]; [|lia].
    rewrite IH by lia. rewrite (array_get_lookup _ _ _ _ Hl).
    replace (Z.to_nat (getCount array - i - 1)) with k by lia.
    assert (Hx : array !! k = Some (nth k array from_null)).
    { apply lookup_nth_lt. unfold getCount in Hk. lia. }
    rewrite (take_S_r _ _ _ Hx), rev_app_distr. cbn [rev app].
    rewrite <- app_assoc. reflexivity.
Qed.

(** X7: [list_reversed] returns a new list, at an address that held no
    list, with the receiver's elements in reverse order; the receiver and
    every other list are as they were. *)
Theorem list_reversed_is_a_reversed_copy (vm : gravity_vm) (l : ref)
  (array : list GravityValue) (rindex : nat) :
  vm_lists vm !! l = Some array ->
  exists newlist : ref,
    vm_lists vm !! newlist = None
    /\ list_reversed vm [VALUE_FROM_OBJECT KList l] 1 rindex
       = (RETURN_VALUE (VALUE_FROM_OBJECT KList newlist) rindex,
          with_list vm newlist (rev array))
    /\ vm_lists (with_list vm newlist (rev array)) !! l = Some array.
Proof.
  intros Hl. exists (fresh (dom (vm_lists vm))).
  assert (Hfresh : vm_lists vm !! fresh (dom (vm_lists vm)) = None).
  { apply not_elem_of_dom. apply is_fresh. }
  split; [exact Hfresh|]. split.
  - unfold list_reversed. change (1 <? 1) with false. cbv iota. cbn [arg nth].
    rewrite (VALUE_AS_LIST_lookup _ _ _ Hl).
    rewrite (list_reversed_from_take vm l array Hl (length array)) by (unfold getCount; lia).
    rewrite firstn_all. cbn [app]. reflexivity.
  - unfold with_list. cbn [vm_lists set_lists].
    rewrite lookup_insert_ne; [exact Hl|]. intros Heq. rewrite Heq in Hfresh. congruence.
Qed.

(** ** List: loop, map, filter and reduce *)

Lemma runclosure_computes (closure : ref) (self : GravityValue)
  (result : list GravityValue -> GravityValue) (vm : gravity_vm)
  (params : list GravityValue) :
  closure_computes H closure self result ->
  exists vm',
    gravity_vm_runclosure H vm closure self params = (true, vm')
    /\ vm_result vm' = result params
    /\ vm_lists vm' = vm_lists vm
    /\ vm_calls vm' = vm_calls vm ++ [(closure, self, params)].
Proof.
  intros Hc. destruct (Hc vm params) as (Hok & Hres & Hlists).
  unfold gravity_vm_runclosure.
  destruct (host_runclosure H vm closure self params) as [ok vm'].
  cbn [fst snd] in *. subst ok. eexists. split; [reflexivity|].
  cbn [vm_result vm_lists vm_calls set_calls]. auto.
Qed.

Lemma drop_nth_cons (array : list GravityValue) (i : nat) :
  (i < length array)%nat ->
  drop i array = nth i array from_null :: drop (S i) array.
Proof. intros Hi. apply drop_S. apply lookup_nth_lt. exact Hi. Qed.

Lemma list_loop_from_calls (closure : ref) (self : GravityValue)
  (result : list GravityValue -> GravityValue) (l : ref) (array : list GravityValue) :
  closure_computes H closure self result ->
  forall (k : nat) (vm : gravity_vm) (i : Z),
    vm_lists vm !! l = Some array ->
    0 <= i ->
    getCount array - i = Z.of_nat k ->
    exists vm',
      list_loop_from H vm closure self l i (getCount array) = (true, vm')
      /\ vm_lists vm' = vm_lists vm
      /\ vm_calls vm'
         = vm_calls vm ++ map (fun x => (closure, self, [x])) (drop (Z.to_nat i) array).
Proof.
  intros Hc k. induction k as [|k IH]; intros vm i Hl Hi Hk.
  - simp list_loop_from. destruct (Z_lt_dec i (getCount array)) as [Hlt|Hge]; [lia|].
    simpl. exists vm. rewrite drop_ge by (unfold getCount in Hk; lia).
    cbn [map]. rewrite app_nil_r. auto.
  - simp list_loop_from. destruct (Z_lt_dec i (getCount array)) as [Hlt|Hge]; [|lia].
    simpl.
    destruct (runclosure_computes closure self result vm [array_get vm l i] Hc)
      as (vm1 & Hrun & _ & Hlists & Hcalls).
rewrite Hrun. simpl.
    destruct (IH vm1 (i + 1)) as (vm' & Hloop & Hlists' & Hcalls');
      [rewrite Hlists; exact Hl | lia | lia |].
    exists vm'. split; [exact Hloop|]. split; [congruence|].
    rewrite Hcalls', Hcalls, <- app_assoc. f_equal.
    rewrite (drop_nth_cons array (Z.to_nat i)) by (unfold getCount in Hlt; lia).
    cbn [map app]. rewrite (array_get_lookup _ _ _ _ Hl).
    replace (Z.to_nat (i + 1)) with (S (Z.to_nat i)) by lia. reflexivity.
Qed.

(** X8: [list_loop] with a closure that succeeds and leaves the lists alone
    invokes it once per element, in the order of the list, with the list as
    receiver and the element as only argument, and returns the time the loop
    took. *)
Theorem list_loop_calls_each_element (vm : gravity_vm) (l closure : ref)
  (array : list GravityValue) (result : list GravityValue -> GravityValue)
  (rest : list GravityValue) (nargs : Z) (rindex : nat) :
  2 <= nargs ->
  vm_lists vm !! l = Some array ->
  getCount array < 2 ^ 32 ->
  closure_computes H closure (VALUE_FROM_OBJECT KList l) result ->
  let self := VALUE_FROM_OBJECT KList l in
  let r := list_loop H vm (self :: VALUE_FROM_OBJECT KClosure closure :: rest) nargs rindex in
  (exists t, fst r = RETURN_VALUE (from_int t) rindex)
  /\ vm_calls (snd r) = vm_calls vm ++ map (fun x => (closure, self, [x])) array.
Proof.
  intros Hnargs Hl Hcount Hc self r. subst r self. unfold list_loop.
  destruct (nargs <? 2) eqn:Hlt; [apply Z.ltb_lt in Hlt; lia|].
  cbn [arg nth]. rewrite (VALUE_AS_LIST_lookup _ _ _ Hl).
  rewrite to_uint32_small by (unfold getCount in *; lia).
  unfold nanotime. cbv beta iota zeta.
  destruct (list_loop_from_calls closure (VALUE_FROM_OBJECT KList l) result l array Hc
              (length array) (set_clock (S (vm_clock vm)) vm) 0 Hl ltac:(lia)
              ltac:(unfold getCount; lia)) as (vm' & Hloop & _ & Hcalls).
  rewrite Hloop. cbn [negb fst snd].
  split; [eexists; reflexivity|].
  cbn [vm_calls set_clock set_calls] in *. exact Hcalls.
Qed.

Lemma list_map_from_spec (closure : ref) (self : GravityValue)
  (f : GravityValue -> GravityValue) (l : ref) (array : list GravityValue) :
  closure_computes H closure self (fun params => f (arg params 0)) ->
  forall (k : nat) (vm : gravity_vm) (newlist : list GravityValue) (i : Z),
    vm_lists vm !! l = Some array ->
    0 <= i ->
    getCount array - i = Z.of_nat k ->
    length newlist = length array ->
    exists vm',
      list_map_from H vm closure self l newlist i (getCount array)
      = (Some (take (Z.to_nat i) newlist ++ map f (drop (Z.to_nat i) array)), vm')
      /\ vm_lists vm' = vm_lists vm.
Proof.
  intros Hc k. induction k as [|k IH]; intros vm newlist i Hl Hi Hk Hlen.
  - simp list_map_from. destruct (Z_lt_dec i (getCount array)) as [Hlt|Hge]; [lia|].
    simpl. exists vm. unfold getCount in Hk.
    rewrite drop_ge, take_ge by lia. cbn [map]. rewrite app_nil_r. auto.
  - simp list_map_from. destruct (Z_lt_dec i (getCount array)) as [Hlt|Hge]; [|lia].
    simpl.
    destruct (runclosure_computes closure self _ vm [array_get vm l i] Hc)
      as (vm1 & Hrun & Hres & Hlists & _).
    rewrite Hrun. simpl. unfold getCount in Hk, Hlt.
    destruct (IH vm1 (<[Z.to_nat i := gravity_vm_result vm1]> newlist) (i + 1))
      as (vm' & Hloop & Hlists');
      [rewrite Hlists; exact Hl | lia | unfold getCount; lia
      | rewrite length_insert; exact Hlen |].
    exists vm'. split; [|congruence]. rewrite Hloop. do 2 f_equal.
    replace (Z.to_nat (i + 1)) with (S (Z.to_nat i)) by lia.
    rewrite (take_S_r _ _ (gravity_vm_result vm1))
      by (apply list_lookup_insert_eq; lia).
    rewrite take_insert_ge by lia.
    rewrite (drop_nth_cons array (Z.to_nat i)) by lia.
    cbn [map]. rewrite <- app_assoc. cbn [app]. do 2 f_equal.
    unfold gravity_vm_result. rewrite Hres. cbn [arg nth].
    rewrite (array_get_lookup _ _ _ _ Hl). reflexivity.
Qed.

(** X9: [list_map] with a closure that computes [f] from its argument
    returns a new list, at an address that held no list, whose elements are
    those of the receiver with [f] applied, in the same order; the lists the
    machine had are as they were. *)
Theorem list_map_applies_closure (vm : gravity_vm) (l closure : ref)
  (array : list GravityValue) (f : GravityValue -> GravityValue) (rindex : nat) :
  vm_lists vm !! l = Some array ->
  getCount array < 2 ^ 32 ->
  closure_computes H closure (VALUE_FROM_OBJECT KList l) (fun params => f (arg params 0)) ->
  let r := list_map H vm [VALUE_FROM_OBJECT KList l; VALUE_FROM_OBJECT KClosure closure]
             2 rindex in
  exists newlist : ref,
    vm_lists vm !! newlist = None
    /\ fst r = RETURN_VALUE (VALUE_FROM_OBJECT KList newlist) rindex
    /\ vm_lists (snd r) = <[newlist := map f array]> (vm_lists vm).
Proof.
  intros Hl Hcount Hc r. subst r. unfold list_map.
  change (2 =? 2) with true. cbn [negb arg nth].
  rewrite (VALUE_AS_LIST_lookup _ _ _ Hl).
  destruct (list_map_from_spec closure (VALUE_FROM_OBJECT KList l) f l array Hc
              (length array) vm (replicate (length array) from_null) 0 Hl ltac:(lia)
              ltac:(unfold getCount; lia) ltac:(apply length_replicate))
    as (vm' & Hloop & Hlists).
  rewrite Hloop. unfold gravity_list_new. cbn [fst snd vm_lists set_lists].
  change (Z.to_nat 0) with O. cbn [take drop app]. rewrite Hlists.
  exists (fresh (dom (vm_lists vm))). split; [|split; reflexivity].
  apply not_elem_of_dom. apply is_fresh.
Qed.

Lemma list_filter_from_spec (closure : ref) (self : GravityValue)
  (keep : GravityValue -> bool) (l : ref) (array : list GravityValue) :
  closure_computes H closure self (fun params => VALUE_FROM_BOOL (keep (arg params 0))) ->
  forall (k : nat) (vm : gravity_vm) (newlist : list GravityValue) (i : Z),
    vm_lists vm !! l = Some array ->
    0 <= i ->
    getCount array - i = Z.of_nat k ->
    exists vm',
      list_filter_from H vm closure self l newlist i (getCount array)
      = (Some (newlist ++ List.filter keep (drop (Z.to_nat i) array)), vm')
      /\ vm_lists vm' = vm_lists vm.
Proof.
  intros Hc k. induction k as [|k IH]; intros vm newlist i Hl Hi Hk.
  - simp list_filter_from. destruct (Z_lt_dec i (getCount array)) as [Hlt|Hge]; [lia|].
    simpl. exists vm. unfold getCount in Hk.
    rewrite drop_ge by lia. cbn [List.filter]. rewrite app_nil_r. auto.
  - simp list_filter_from. destruct (Z_lt_dec i (getCount array)) as [Hlt|Hge]; [|lia].
    simpl.
    destruct (runclosure_computes closure self _ vm [array_get vm l i] Hc)
      as (vm1 & Hrun & Hres & Hlists & _).
    assert (Hl1 : vm_lists vm1 !! l = Some array) by (rewrite Hlists; exact Hl).
    assert (Hstep : list_filter_step H vm closure self l newlist i
                    = (Some (if keep (nth (Z.to_nat i) array from_null)
                             then newlist ++ [nth (Z.to_nat i) array from_null]
                             else newlist), vm1)).
    { unfold list_filter_step. rewrite Hrun. cbn [negb].
      unfold gravity_vm_result. rewrite Hres. cbn [arg nth convert_value2bool].
      rewrite (array_get_lookup _ _ _ _ Hl), (array_get_lookup _ _ _ _ Hl1).
      cbn [value_n]. destruct (keep (nth (Z.to_nat i) array from_null)); reflexivity. }
    rewrite Hstep. simpl. unfold getCount in Hk, Hlt.
    destruct (IH vm1 (if keep (nth (Z.to_nat i) array from_null)
                      then newlist ++ [nth (Z.to_nat i) array from_null]
                      else newlist) (i + 1))
      as (vm' & Hloop & Hlists'); [exact Hl1 | lia | unfold getCount; lia |].
    exists vm'. split; [|congruence]. rewrite Hloop. do 2 f_equal.
    replace (Z.to_nat (i + 1)) with (S (Z.to_nat i)) by lia.
    rewrite (drop_nth_cons array (Z.to_nat i)) by lia. cbn [List.filter].
    destruct (keep (nth (Z.to_nat i) array from_null));
      [rewrite <- app_assoc|]; reflexivity.
Qed.

(** X10: [list_filter] with a closure that answers the Bool [keep x] on the
    element [x] returns a new list, at an address that held no list, with
    the elements of the receiver for which the answer is true, in the order
    of the receiver; the lists the machine had are as they were. *)
Theorem list_filter_keeps_accepted (vm : gravity_vm) (l closure : ref)
  (array : list GravityValue) (keep : GravityValue -> bool) (rindex : nat) :
  vm_lists vm !! l = Some array ->
  getCount array < 2 ^ 32 ->
  closure_computes H closure (VALUE_FROM_OBJECT KList l)
    (fun params => VALUE_FROM_BOOL (keep (arg params 0))) ->
  let r := list_filter H vm [VALUE_FROM_OBJECT KList l; VALUE_FROM_OBJECT KClosure closure]
             2 rindex in
  exists newlist : ref,
    vm_lists vm !! newlist = None
    /\ fst r = RETURN_VALUE (VALUE_FROM_OBJECT KList newlist) rindex
    /\ vm_lists (snd r) = <[newlist := List.filter keep array]> (vm_lists vm).
Proof.
  intros Hl Hcount Hc r. subst r. unfold list_filter.
  change (2 =? 2) with true. cbn [negb arg nth].
  rewrite (VALUE_AS_LIST_lookup _ _ _ Hl).
  destruct (list_filter_from_spec closure (VALUE_FROM_OBJECT KList l) keep l array Hc
              (length array) vm [] 0 Hl ltac:(lia) ltac:(unfold getCount; lia))
    as (vm' & Hloop & Hlists).
  rewrite Hloop. unfold gravity_list_new. cbn [fst snd vm_lists set_lists].
  change (Z.to_nat 0) with O. cbn [drop app]. rewrite Hlists.
  exists (fresh (dom (vm_lists vm))). split; [|split; reflexivity].
  apply not_elem_of_dom. apply is_fresh.
Qed.

Lemma list_reduce_from_spec (closure : ref) (self : GravityValue)
  (f : GravityValue -> GravityValue -> GravityValue) (l : ref)
  (array : list GravityValue) :
  closure_computes H closure self (fun params => f (arg params 0) (arg params 1)) ->
  forall (k : nat) (vm : gravity_vm) (start : GravityValue) (i : Z),
    vm_lists vm !! l = Some array ->
    0 <= i ->
    getCount array - i = Z.of_nat k ->
    exists vm',
      list_reduce_from H vm closure self l start i (getCount array)
      = (Some (fold_left f (drop (Z.to_nat i) array) start), vm')
      /\ vm_lists vm' = vm_lists vm.
Proof.
  intros Hc k. induction k as [|k IH]; intros vm start i Hl Hi Hk.
  - simp list_reduce_from. destruct (Z_lt_dec i (getCount array)) as [Hlt|Hge]; [lia|].
    simpl. exists vm. unfold getCount in Hk.
    rewrite drop_ge by lia. cbn [fold_left]. auto.
  - simp list_reduce_from. destruct (Z_lt_dec i (getCount array)) as [Hlt|Hge]; [|lia].
    simpl.
    destruct (runclosure_computes closure self _ vm [start; array_get vm l i] Hc)
      as (vm1 & Hrun & Hres & Hlists & _).
    rewrite Hrun. simpl. unfold getCount in Hk, Hlt.
    destruct (IH vm1 (gravity_vm_result vm1) (i + 1))
      as (vm' & Hloop & Hlists'); [rewrite Hlists; exact Hl | lia | unfold getCount; lia |].
    exists vm'. split; [|congruence]. rewrite Hloop. do 2 f_equal.
    replace (Z.to_nat (i + 1)) with (S (Z.to_nat i)) by lia.
    rewrite (drop_nth_cons array (Z.to_nat i)) by lia. cbn [fold_left].
    unfold gravity_vm_result. rewrite Hres. cbn [arg nth].
    rewrite (array_get_lookup _ _ _ _ Hl). reflexivity.
Qed.

(** X11: [list_reduce] with a closure that computes [f] from the value
    reduced so far and the element returns the left fold of [f] over the
    elements, from the start value; on an empty list it returns the start
    value. *)
Theorem list_reduce_folds_left (vm : gravity_vm) (l closure : ref)
  (array : list GravityValue) (f : GravityValue -> GravityValue -> GravityValue)
  (start : GravityValue) (rindex : nat) :
  vm_lists vm !! l = Some array ->
  getCount array < 2 ^ 32 ->
  closure_computes H closure (VALUE_FROM_OBJECT KList l)
    (fun params => f (arg params 0) (arg params 1)) ->
  let r := list_reduce H vm
             [VALUE_FROM_OBJECT KList l; start; VALUE_FROM_OBJECT KClosure closure] 3 rindex in
  fst r = RETURN_VALUE (fold_left f array start) rindex
  /\ vm_lists (snd r) = vm_lists vm.
Proof.
  intros Hl Hcount Hc r. subst r. unfold list_reduce.
  change (3 =? 3) with true. cbn [negb arg nth].
  rewrite (VALUE_AS_LIST_lookup _ _ _ Hl).
  destruct (list_reduce_from_spec closure (VALUE_FROM_OBJECT KList l) f l array Hc
              (length array) vm start 0 Hl ltac:(lia) ltac:(unfold getCount; lia))
    as (vm' & Hloop & Hlists).
  rewrite Hloop. change (Z.to_nat 0) with O. cbn [drop fst snd]. auto.
Qed.

(** ** Range *)

Lemma range_for_in_from (vm : gravity_vm) (p : ref) (from to : Z) :
  vm_ranges vm !! p = Some {| r_from := from; r_to := to |} ->
  INT64_MIN < from -> from <= to -> to < INT64_MAX ->
  forall (fuel : nat) (n : Z),
    from <= n <= to ->
    to - n < Z.of_nat fuel ->
    for_in (range_iterator H) range_iterator_next fuel vm
      (VALUE_FROM_OBJECT KRange p) (from_int n)
    = from_int <$> seqZ (n + 1) (to - n).
Proof.
  intros Hp Hmin Hle Hmax fuel.
  induction fuel as [|fuel IH]; intros n Hn Hfuel; [lia|].
  cbn [for_in]. unfold range_iterator at 1, VALUE_AS_RANGE. cbn [arg nth].
  rewrite Hp. cbn [r_from r_to VALUE_ISA_NULL IsInt negb value_n].
  destruct (to <? from) eqn:Hdesc; [apply Z.ltb_lt in Hdesc; lia|].
  unfold INT64_MIN, INT64_MAX in *.
  destruct (from <? to) eqn:Hasc.
  - rewrite wrap64_small by (unfold INT64_MIN, INT64_MAX; lia).
    destruct (to <? n + 1) eqn:Hend; cbn [fst].
    + apply Z.ltb_lt in Hend. rewrite seqZ_nil by lia. reflexivity.
    + apply Z.ltb_ge in Hend. unfold range_iterator_next at 1. cbn [arg nth fst].
      rewrite IH by lia. rewrite (seqZ_cons (n + 1)) by lia. cbn [fmap list_fmap].
      do 3 f_equal; lia.
  - apply Z.ltb_ge in Hasc.
    rewrite wrap64_small by (unfold INT64_MIN, INT64_MAX; lia).
    destruct (n - 1 <? to) eqn:Hend; [|apply Z.ltb_ge in Hend; lia].
    cbn [fst]. rewrite seqZ_nil by lia. reflexivity.
Qed.

(** X12: on a range whose bounds satisfy [INT64_MIN < from <= to <
    INT64_MAX], so that no step of the cursor leaves the 64-bit integers,
    feeding each cursor that [range_iterator] returns back to it, starting
    from Null, yields the integers from [from] to [to], each one once and in
    increasing order, and then ends; [range_contains] is true of exactly
    these integers. *)
Theorem range_iteration_is_ascending (vm : gravity_vm) (p : ref) (from to : Z)
  (fuel : nat) (rindex : nat) :
  vm_ranges vm !! p = Some {| r_from := from; r_to := to |} ->
  INT64_MIN < from -> from <= to -> to < INT64_MAX ->
  to - from + 1 < Z.of_nat fuel ->
  for_in (range_iterator H) range_iterator_next fuel vm (VALUE_FROM_OBJECT KRange p)
    from_null
  = from_int <$> seqZ from (to - from + 1)
  /\ forall n : Z,
       range_contains H vm [VALUE_FROM_OBJECT KRange p; from_int n] 2 rindex
       = (RETURN_VALUE
            (VALUE_FROM_BOOL (bool_decide (from_int n ∈ from_int <$> seqZ from (to - from + 1))))
            rindex, vm).
Proof.
  intros Hp Hmin Hle Hmax Hfuel. split.
  - destruct fuel as [|fuel]; [lia|].
    cbn [for_in]. unfold range_iterator at 1, VALUE_AS_RANGE. cbn [arg nth].
    rewrite Hp. cbn [r_from r_to VALUE_ISA_NULL].
    destruct (to <? from) eqn:Hdesc; [apply Z.ltb_lt in Hdesc; lia|].
    cbn [fst]. unfold range_iterator_next at 1. cbn [arg nth fst].
    rewrite (range_for_in_from vm p from to Hp Hmin Hle Hmax) by lia.
    rewrite (seqZ_cons from) by lia. cbn [fmap list_fmap].
    do 3 f_equal; lia.
  - intros n. unfold range_contains, VALUE_AS_RANGE. cbn [arg nth]. rewrite Hp.
    cbn [IsInt negb value_n r_from r_to]. do 3 f_equal.
    apply eq_true_iff_eq. rewrite andb_true_iff, Z.leb_le, Z.leb_le, bool_decide_eq_true.
    rewrite list_elem_of_fmap. split.
    + intros Hn. exists n. split; [reflexivity|]. apply elem_of_seqZ. lia.
    + intros (m & Hm & Hin). injection Hm as ->. apply elem_of_seqZ in Hin. lia.
Qed.


(** The backward loop over [i..n], with [i] above INT64_MIN, when the
    invocations it makes succeed: it runs to its end and has logged one call
    per integer, in decreasing order. *)
Lemma range_loop_backward_calls (closure : ref) (value : GravityValue) (i : Z) :
  INT64_MIN < i ->
  forall (k : nat) (vm : gravity_vm) (n : Z),
    n + 1 - i = Z.of_nat k ->
    invocations_succeed H vm closure value
      (map (fun j => [from_int (n - Z.of_nat j)]) (seq 0 k)) ->
    fst (range_loop_backward H vm closure value n i) = Some true
    /\ vm_calls (snd (range_loop_backward H vm closure value n i))
       = vm_calls vm
         ++ map (fun j => (closure, value, [from_int (n - Z.of_nat j)])) (seq 0 k).
Proof.
  intros Hmin k. induction k as [|k IH]; intros vm n Hk Hinv.
  - simp range_loop_backward. destruct (Z_le_dec i n) as [Hle|Hgt]; [lia|].
    simpl. rewrite app_nil_r. split; reflexivity.
  - simp range_loop_backward. destruct (Z_le_dec i n) as [Hle|Hgt]; [|lia].
    simpl. cbn [seq map invocations_succeed] in Hinv.
    replace (n - Z.of_nat 0) with n in Hinv by lia. destruct Hinv as [Hfst Hinv].
    pose proof (runclosure_logs_call H vm closure value [from_int n]) as [Hlog _].
    destruct (gravity_vm_runclosure H vm closure value [from_int n]) as [ok vm'] eqn:Hrun.
    simpl in Hlog, Hfst, Hinv. subst ok. simpl.
    destruct (Z.eq_dec n INT64_MIN) as [Heq|Hne]; [lia|]. simpl.
    destruct (IH vm' (n - 1) ltac:(lia)) as (IH1 & IH2).
    { rewrite <- seq_shift, map_map in Hinv.
      erewrite map_ext; [exact Hinv|]. intros j. cbv beta. do 2 f_equal. lia. }
    split; [exact IH1|].
    rewrite IH2, Hlog, <- app_assoc. f_equal. simpl. f_equal.
    + do 3 f_equal. lia.
    + rewrite <- seq_shift, map_map. apply map_ext. intros j. do 3 f_equal. lia.
Qed.

(** X14: on a range whose [to] lies strictly between INT64_MIN and
    INT64_MAX, so that the loop counter can step past it, and whose bounds
    are less than INT64_MAX apart, so that [range_count] does not wrap
    around, [range_loop] invokes the closure exactly as many times as
    [range_count] reports, on an ascending and on a descending range alike,
    provided each of these invocations reports success: the first invocation
    receives [from] and each following one the next integer towards [to]. *)
Theorem range_loop_calls_match_count (vm : gravity_vm) (p closure : ref) (from to : Z)
  (rest : list GravityValue) (nargs : Z) (rindex : nat) :
  2 <= nargs ->
  vm_ranges vm !! p = Some {| r_from := from; r_to := to |} ->
  INT64_MIN < to < INT64_MAX ->
  Z.abs (to - from) < INT64_MAX ->
  invocations_succeed H (snd (nanotime H vm)) closure (VALUE_FROM_OBJECT KRange p)
    (map (fun j => [from_int (if from <? to then from + Z.of_nat j else from - Z.of_nat j)])
       (seq 0 (Z.to_nat (Z.abs (to - from) + 1)))) ->
  let range := VALUE_FROM_OBJECT KRange p in
  let r := range_loop H vm (range :: VALUE_FROM_OBJECT KClosure closure :: rest) nargs rindex in
  let count := Z.to_nat (Z.abs (to - from) + 1) in
  (exists t, fst r = RETURN_VALUE (from_int t) rindex)
  /\ vm_calls (snd r)
     = vm_calls vm
       ++ map (fun j => (closure, range,
                         [from_int (if from <? to then from + Z.of_nat j
                                    else from - Z.of_nat j)]))
            (seq 0 count)
  /\ range_count vm [range] 1 rindex
     = (RETURN_VALUE (from_int (Z.of_nat count)) rindex, vm).
Proof.
  intros Hnargs Hp Hto Hsize Hinv range r count. subst r range count.
  unfold INT64_MAX in Hsize.
  assert (Hcount : range_count vm [VALUE_FROM_OBJECT KRange p] 1 rindex
                   = (RETURN_VALUE
                        (from_int (Z.of_nat (Z.to_nat (Z.abs (to - from) + 1)))) rindex, vm)).
  { unfold range_count, VALUE_AS_RANGE. cbn [arg nth]. rewrite Hp. cbn [r_from r_to].
    destruct (from <? to) eqn:Hlt;
      [apply Z.ltb_lt in Hlt; rewrite (wrap64_small (to - from))
         by (unfold INT64_MIN, INT64_MAX; lia)
      | apply Z.ltb_ge in Hlt; rewrite (wrap64_small (from - to))
         by (unfold INT64_MIN, INT64_MAX; lia)];
      rewrite wrap64_small by (unfold INT64_MIN, INT64_MAX; lia);
      do 3 f_equal; lia. }
  unfold range_loop.
  destruct (nargs <? 2) eqn:Hn; [apply Z.ltb_lt in Hn; lia|].
  cbn [arg nth]. rewrite Hp. cbn [r_from r_to].
  unfold nanotime in *. cbn [snd] in Hinv. cbv beta iota zeta.
  revert Hinv. destruct (from <? to) eqn:Hlt; intros Hinv.
  - apply Z.ltb_lt in Hlt.
    destruct (range_loop_forward_calls H closure (VALUE_FROM_OBJECT KRange p) to
                (proj2 Hto)
                (Z.to_nat (Z.abs (to - from) + 1)) (set_clock (S (vm_clock vm)) vm) from
                ltac:(lia) Hinv) as [Hfst Hcalls].
    destruct (range_loop_forward H (set_clock (S (vm_clock vm)) vm) closure
                (VALUE_FROM_OBJECT KRange p) from to) as [ok vm'] eqn:Hloop.
    cbn [fst snd] in Hfst, Hcalls. subst ok. cbn [negb fst snd].
    split; [eexists; reflexivity|]. split; [|exact Hcount].
    cbn [vm_calls set_clock] in *. exact Hcalls.
  - apply Z.ltb_ge in Hlt.
    destruct (range_loop_backward_calls closure (VALUE_FROM_OBJECT KRange p) to
                (proj1 Hto)
                (Z.to_nat (Z.abs (to - from) + 1)) (set_clock (S (vm_clock vm)) vm) from
                ltac:(lia) Hinv) as [Hfst Hcalls].
    destruct (range_loop_backward H (set_clock (S (vm_clock vm)) vm) closure
                (VALUE_FROM_OBJECT KRange p) from to) as [ok vm'] eqn:Hloop.
    cbn [fst snd] in Hfst, Hcalls. subst ok. cbn [negb fst snd].
    split; [eexists; reflexivity|]. split; [|exact Hcount].
    cbn [vm_calls set_clock] in *. exact Hcalls.
Qed.


(** ** Int operators *)

(** X16: on integers, with a divisor that is not zero (and apart from the
    overflowing INT64_MIN / -1), the quotient of [operator_int_div] and the
    remainder of [operator_int_rem] recombine, through [operator_int_mul] and
    [operator_int_add], into the dividend; the remainder is smaller than the
    divisor in absolute value and has the sign of the dividend.  With a zero
    divisor both natives report an error and change nothing. *)
Theorem operator_int_div_rem_recombine (vm : gravity_vm) (a b : Z) (nargs : Z)
  (rindex : nat) :
  INT64_MIN <= a <= INT64_MAX ->
  INT64_MIN <= b <= INT64_MAX ->
  (b = 0 ->
   operator_int_div H vm [from_int a; from_int b] nargs rindex
   = (RETURN_ERROR "Division by 0 error.", vm)
   /\ operator_int_rem H vm [from_int a; from_int b] nargs rindex
      = (RETURN_ERROR "Reminder by 0 error.", vm))
  /\ (b <> 0 -> ~ (a = INT64_MIN /\ b = -1) ->
      exists q r : Z,
        operator_int_div H vm [from_int a; from_int b] nargs rindex
        = (RETURN_VALUE (from_int q) rindex, vm)
        /\ operator_int_rem H vm [from_int a; from_int b] nargs rindex
           = (RETURN_VALUE (from_int r) rindex, vm)
        /\ (exists m : Z,
              operator_int_mul H vm [from_int q; from_int b] nargs rindex
              = (RETURN_VALUE (from_int m) rindex, vm)
              /\ operator_int_add H vm [from_int m; from_int r] nargs rindex
                 = (RETURN_VALUE (from_int a) rindex, vm))
        /\ Z.abs r < Z.abs b
        /\ 0 <= r * a).
Proof.
  unfold INT64_MIN, INT64_MAX. intros Ha Hb. split.
  - intros ->. split; reflexivity.
  - intros Hb0 Hover. exists (Z.quot a b), (Z.rem a b).
    pose proof (Z.quot_rem' a b) as Hqr.
    pose proof (Z.rem_bound_abs a b Hb0) as Hrem.
    pose proof (Z.rem_sign_mul a b Hb0) as Hsign.
    assert (Hmul : Z.abs (b * Z.quot a b) <= Z.abs a).
    { destruct (Z_le_gt_dec 0 a) as [Hpos|Hneg].
      - pose proof (Z.mul_quot_le a b Hpos Hb0). lia.
      - pose proof (Z.mul_quot_ge a b ltac:(lia) Hb0). lia. }
    assert (Hq : INT64_MIN <= Z.quot a b <= INT64_MAX).
    { unfold INT64_MIN, INT64_MAX.
      assert (Hqabs : Z.abs (Z.quot a b) <= Z.abs (b * Z.quot a b)).
      { rewrite Z.abs_mul. assert (1 <= Z.abs b) by lia.
        assert (0 <= Z.abs (Z.quot a b)) by lia. nia. }
      destruct (Z.eq_dec (Z.quot a b) (2 ^ 63)) as [Heq|Hne]; [|lia].
      exfalso. rewrite Heq in Hqr, Hmul.
      assert (Z.abs b = 1) by lia.
      destruct (Z.eq_dec b 1) as [->|Hb1]; [lia|].
      assert (b = -1) by lia. subst b. apply Hover. split; [|reflexivity].
      unfold INT64_MIN. lia. }
    assert (Hr : INT64_MIN <= Z.rem a b <= INT64_MAX)
      by (unfold INT64_MIN, INT64_MAX; lia).
    assert (Hm : INT64_MIN <= Z.quot a b * b <= INT64_MAX)
      by (unfold INT64_MIN, INT64_MAX; lia).
    assert (Hnotrap : (a =? INT64_MIN) && (b =? -1) = false).
    { apply andb_false_iff.
      destruct (Z.eq_dec a INT64_MIN) as [Ha'|Ha']; [right | left; apply Z.eqb_neq; exact Ha'].
      apply Z.eqb_neq. intros Hb'. apply Hover. split; assumption. }
    split; [|split; [|split; [|split]]].
    + unfold operator_int_div. cbn [arg nth convert_value2int is_error value_n].
      destruct (b =? 0) eqn:Hz; [apply Z.eqb_eq in Hz; lia|].
      rewrite Hnotrap.
      rewrite wrap64_small by exact Hq. reflexivity.
    + unfold operator_int_rem. cbn [arg nth convert_value2int is_error value_n].
      destruct (b =? 0) eqn:Hz; [apply Z.eqb_eq in Hz; lia|].
      rewrite Hnotrap.
      rewrite wrap64_small by exact Hr. reflexivity.
    + exists (Z.quot a b * b). split.
      * unfold operator_int_mul. cbn [arg nth convert_value2int is_error value_n].
        rewrite wrap64_small by exact Hm. reflexivity.
      * unfold operator_int_add. cbn [arg nth convert_value2int is_error value_n].
        replace (Z.quot a b * b + Z.rem a b) with a by lia.
        rewrite wrap64_small by (unfold INT64_MIN, INT64_MAX; lia). reflexivity.
    + lia.
    + lia.
Qed.

(** X17: on integers [operator_int_cmp] is a three-way comparison: it
    returns the sign of the difference, so 0 exactly for equal operands, and
    exchanging the operands negates the result.  Nothing of the machine
    changes. *)
Theorem operator_int_cmp_is_three_way (vm : gravity_vm) (a b : Z) (nargs : Z)
  (rindex : nat) :
  operator_int_cmp H vm [from_int a; from_int b] nargs rindex
  = (RETURN_VALUE (from_int (Z.sgn (a - b))) rindex, vm)
  /\ operator_int_cmp H vm [from_int b; from_int a] nargs rindex
     = (RETURN_VALUE (from_int (- Z.sgn (a - b))) rindex, vm)
  /\ (Z.sgn (a - b) = 0 <-> a = b).
Proof.
  assert (Hcmp : forall x y,
             operator_int_cmp H vm [from_int x; from_int y] nargs rindex
             = (RETURN_VALUE (from_int (Z.sgn (x - y))) rindex, vm)).
  { intros x y. unfold operator_int_cmp.
    cbn [arg nth IsFloat convert_value2int is_error value_n].
    destruct (x =? y) eqn:Heq.
    - apply Z.eqb_eq in Heq. subst y. rewrite Z.sub_diag. reflexivity.
    - apply Z.eqb_neq in Heq. destruct (y <? x) eqn:Hlt.
      + apply Z.ltb_lt in Hlt. rewrite Z.sgn_pos by lia. reflexivity.
      + apply Z.ltb_ge in Hlt. rewrite Z.sgn_neg by lia. reflexivity. }
  split; [apply Hcmp|]. split.
  - rewrite Hcmp. do 3 f_equal. lia.
  - lia.
Qed.

(** The loop of [int_loop] when every invocation succeeds: one call per
    integer from [i] to [n-1], in increasing order. *)
Lemma int_loop_from_calls (closure : ref) (value : GravityValue) (n : Z) :
  (forall vm i, fst (host_runclosure H vm closure value [from_int i]) = true) ->
  forall (k : nat) (vm : gravity_vm) (i : Z),
    Z.max 0 (n - i) = Z.of_nat k ->
    fst (int_loop_from H vm closure value i n) = true
    /\ vm_calls (snd (int_loop_from H vm closure value i n))
       = vm_calls vm
         ++ map (fun j => (closure, value, [from_int (i + Z.of_nat j)])) (seq 0 k).
Proof.
  intros Hok k. induction k as [|k IH]; intros vm i Hk.
  - simp int_loop_from. destruct (Z_lt_dec i n) as [Hlt|Hge]; [lia|].
    simpl. rewrite app_nil_r. split; reflexivity.
  - simp int_loop_from. destruct (Z_lt_dec i n) as [Hlt|Hge]; [|lia].
    simpl.
    pose proof (runclosure_logs_call H vm closure value [from_int i]) as [Hlog Hfst].
    rewrite Hok in Hfst.
    destruct (gravity_vm_runclosure H vm closure value [from_int i]) as [ok vm'] eqn:Hrun.
    simpl in Hlog, Hfst. subst ok. simpl.
    destruct (IH vm' (i + 1) ltac:(lia)) as (IH1 & IH2).
    split; [exact IH1|].
    rewrite IH2, Hlog, <- app_assoc. f_equal. simpl. f_equal.
    + do 3 f_equal. lia.
    + rewrite <- seq_shift, map_map. apply map_ext. intros j. do 3 f_equal. lia.
Qed.

(** X18: [int_loop] on the integer [n], with a closure whose invocations
    succeed, invokes it [n] times, with the receiver [n] and the arguments
    0, 1, ..., n-1 in that order; for [n <= 0] it invokes nothing.  It
    returns the time the loop took. *)
Theorem int_loop_counts_from_zero (vm : gravity_vm) (n : Z) (closure : ref)
  (rest : list GravityValue) (nargs : Z) (rindex : nat) :
  2 <= nargs ->
  (forall vm' i, fst (host_runclosure H vm' closure (from_int n) [from_int i]) = true) ->
  let r := int_loop H vm (from_int n :: VALUE_FROM_OBJECT KClosure closure :: rest)
             nargs rindex in
  (exists t, fst r = RETURN_VALUE (from_int t) rindex)
  /\ vm_calls (snd r)
     = vm_calls vm
       ++ map (fun j => (closure, from_int n, [from_int (Z.of_nat j)])) (seq 0 (Z.to_nat n)).
Proof.
  intros Hnargs Hok r. subst r. unfold int_loop.
  destruct (nargs <? 2) eqn:Hn; [apply Z.ltb_lt in Hn; lia|].
  cbn [arg nth value_n]. unfold nanotime. cbv beta iota zeta.
  destruct (int_loop_from_calls closure (from_int n) n Hok (Z.to_nat n)
              (set_clock (S (vm_clock vm)) vm) 0 ltac:(lia)) as [Hfst Hcalls].
  destruct (int_loop_from H (set_clock (S (vm_clock vm)) vm) closure (from_int n) 0 n)
    as [ok vm'] eqn:Hloop.
  cbn [fst snd] in Hfst, Hcalls. subst ok. cbn [negb fst snd].
  split; [eexists; reflexivity|].
  cbn [vm_calls set_clock] in *. exact Hcalls.
Qed.

(** ** Fiber *)

(** X19: a fiber without caller and without pending wait that is called,
    yields, and is called again: the call makes it the executing fiber, the
    yield gives control back to the fiber that called it and leaves it
    without caller, so that the second call is not refused as a double
    resume but makes it the executing fiber again. *)
Theorem fiber_call_yield_call (vm : gravity_vm) (f : ref) (fb : gravity_fiber_t)
  (args : list GravityValue) (nargs : Z) (rindex : nat) :
  vm_fibers vm !! f = Some fb ->
  fb_caller fb = None ->
  float_gt (fb_timewait fb) float_zero = false ->
  let called := fiber_exec H vm [VALUE_FROM_OBJECT KFiber f] nargs rindex in
  let yielded := fiber_yield H (snd called) args nargs rindex in
  let recalled := fiber_exec H (snd yielded) [VALUE_FROM_OBJECT KFiber f] nargs rindex in
  (fst called = RETURN_FIBER /\ gravity_vm_fiber (snd called) = f)
  /\ (fst yielded = RETURN_FIBER /\ gravity_vm_fiber (snd yielded) = gravity_vm_fiber vm)
  /\ (fst recalled = RETURN_FIBER /\ gravity_vm_fiber (snd recalled) = f).
Proof.
  intros Hfb Hcaller Hwait called yielded recalled.
  destruct (fiber_run_resumes H vm f fb [] nargs rindex false Hfb Hcaller Hwait)
    as (fb1 & Hc1 & Hc2 & Hc3 & Hc4 & _).
  fold (fiber_exec H vm [VALUE_FROM_OBJECT KFiber f] nargs rindex) in Hc1, Hc2, Hc3.
  fold called in Hc1, Hc2, Hc3.
  assert (Hy : yield_outcome f fb1 float_zero (host_nanotime H (vm_clock (snd called)))
                 yielded).
  { subst yielded. unfold fiber_yield.
    change (gravity_vm_fiber (gravity_vm_setslot (snd called) from_null rindex))
      with (vm_fiber (snd called)).
    change (vm_fibers (gravity_vm_setslot (snd called) from_null rindex))
      with (vm_fibers (snd called)).
    rewrite Hc2, Hc3. unfold nanotime.
    apply yield_to_caller_outcome. cbn [vm_fiber set_clock gravity_vm_setslot set_slots].
    exact Hc2. }
  destruct Hy as (Hy1 & fb2 & Hy2 & Hy3 & _ & _ & Hy4 & _).
  rewrite Hc4 in Hy1. destruct Hy1 as [Hy1 Hy1'].
  assert (Hwait2 : float_gt (fb_timewait fb2) float_zero = false)
    by (rewrite Hy4; reflexivity).
  destruct (fiber_run_resumes H (snd yielded) f fb2 [] nargs rindex false Hy2 Hy3 Hwait2)
    as (fb3 & Hr1 & Hr2 & _).
  fold (fiber_exec H (snd yielded) [VALUE_FROM_OBJECT KFiber f] nargs rindex) in Hr1, Hr2.
  fold recalled in Hr1, Hr2.
  unfold gravity_vm_fiber. repeat split; assumption.
Qed.

(** X20: [fiber_done] and [fiber_status] agree: when [fiber_done] answers
    true the status code is 1 (aborted with error) or 2 (terminated), an
    error taking precedence over an empty frame stack; when it answers false
    the status code is that of the status field. *)
Theorem fiber_done_agrees_with_status (vm : gravity_vm) (f : ref) (fb : gravity_fiber_t)
  (nargs : Z) (rindex : nat) :
  vm_fibers vm !! f = Some fb ->
  exists (done : bool) (code : Z),
    fiber_done vm [VALUE_FROM_OBJECT KFiber f] nargs rindex
    = (RETURN_VALUE (VALUE_FROM_BOOL done) rindex, vm)
    /\ fiber_status vm [VALUE_FROM_OBJECT KFiber f] nargs rindex
       = (RETURN_VALUE (from_int code) rindex, vm)
    /\ (done = true -> code = match fb_error fb with Some _ => 1 | None => 2 end)
    /\ (done = false -> code = fiber_status_code (fb_status fb)).
Proof.
  intros Hfb. unfold fiber_done, fiber_status, VALUE_AS_FIBER. cbn [arg nth].
  rewrite Hfb. destruct (fb_error fb) as [msg|] eqn:Herr.
  - rewrite bool_decide_eq_true_2 by discriminate. rewrite orb_true_r.
    do 2 eexists. split; [reflexivity|]. split; [reflexivity|].
    split; [reflexivity | discriminate].
  - rewrite bool_decide_eq_false_2 by (intros Hne; apply Hne; reflexivity).
    rewrite orb_false_r. destruct (fb_nframes fb =? 0).
    + do 2 eexists. split; [reflexivity|]. split; [reflexivity|].
      split; [reflexivity | discriminate].
    + do 2 eexists. split; [reflexivity|]. split; [reflexivity|].
      split; [discriminate | reflexivity].
Qed.

(** ** Object: bind and unbind *)

(** X21: [object_unbind] has no guard for the built-in classes: with a
    String name it never reports an error, and for a receiver of a built-in
    class it takes the name out of the method table of that class, the other
    entries staying as they were. *)
Theorem object_unbind_reaches_core_classes (vm : gravity_vm) (receiver : GravityValue)
  (c : ref) (cls : gravity_class_t) (key : string) (rest : list GravityValue)
  (nargs : Z) (rindex : nat) :
  2 <= nargs ->
  GetClass H vm receiver = Some c ->
  vm_classes vm !! c = Some cls ->
  gravity_iscore_class H vm c = true ->
  let r := object_unbind H vm (receiver :: VALUE_FROM_STRING key :: rest) nargs rindex in
  fst r = RETURN_NOVALUE
  /\ exists cls',
       vm_classes (snd r) !! c = Some cls'
       /\ c_htable cls' !! key = None
       /\ forall name, name <> key -> c_htable cls' !! name = c_htable cls !! name.
Proof.
  intros Hnargs Hclass Hcls _ r. subst r. unfold object_unbind.
  destruct (nargs <? 2) eqn:Hn; [apply Z.ltb_lt in Hn; lia|].
  cbn [arg nth]. rewrite Hclass. cbn [mbind option_bind]. rewrite Hcls.
  cbn [fmap option_fmap option_map fst snd].
  split; [reflexivity|].
  eexists. split.
  - cbn [vm_classes set_classes]. apply lookup_insert_eq.
  - cbn [c_htable class_with_htable]. split.
    + apply lookup_delete_eq.
    + intros name Hne. apply lookup_delete_ne. congruence.
Qed.

Lemma clear_context_classes (vm : gravity_vm) (p : ref) :
  vm_classes (clear_context vm p) = vm_classes vm.
Proof. unfold clear_context. destruct (vm_closures vm !! p); reflexivity. Qed.

Lemma class_with_htable_id (cls : gravity_class_t) :
  class_with_htable cls (c_htable cls) = cls.
Proof. destruct cls; reflexivity. Qed.

(** X22: on an instance whose class is an anonymous class other than the
    built-in ones, [object_bind] of a new name makes the class resolve that
    name to the closure, and the [object_unbind] of the name that follows
    puts the method tables of all classes back as they were and clears the
    context of the closure. *)
Theorem object_bind_then_unbind (vm : gravity_vm) (p : ref) (instance : gravity_instance_t)
  (cls : gravity_class_t) (key : string) (closure : ref) (rindex : nat) :
  vm_instances vm !! p = Some instance ->
  vm_classes vm !! i_objclass instance = Some cls ->
  gravity_iscore_class H vm (i_objclass instance) = false ->
  gravity_class_is_anon H cls = true ->
  c_htable cls !! key = None ->
  let receiver := VALUE_FROM_OBJECT KInstance p in
  let bound :=
    object_bind H vm [receiver; VALUE_FROM_STRING key; VALUE_FROM_OBJECT KClosure closure]
      3 rindex in
  let unbound := object_unbind H (snd bound) [receiver; VALUE_FROM_STRING key] 2 rindex in
  fst bound = RETURN_NOVALUE
  /\ gravity_class_lookup (snd bound) (i_objclass instance) key
     = Some (VALUE_FROM_OBJECT KClosure closure)
  /\ fst unbound = RETURN_NOVALUE
  /\ vm_classes (snd unbound) = vm_classes vm
  /\ (vm_closures (snd unbound) !! closure ≫= cl_context) = None.
Proof.
  intros Hp Hcls Hcore Hanon Hkey receiver bound unbound.
  set (c := i_objclass instance) in *.
  assert (Hbound : bound = (RETURN_NOVALUE,
                            gravity_class_bind vm c key (VALUE_FROM_OBJECT KClosure closure))).
  { subst bound receiver. unfold object_bind. change (3 <? 3) with false. cbv iota.
    cbn [arg nth IsInstance IsClass orb negb GetClass].
    rewrite Hp. cbn [fmap option_fmap option_map mbind option_bind]. fold c.
    rewrite Hcls. cbn [fmap option_fmap option_map]. rewrite Hcore, Hanon.
    reflexivity. }
  assert (Hclasses : vm_classes (snd bound)
                     = <[c := class_with_htable cls
                                (<[key := VALUE_FROM_OBJECT KClosure closure]> (c_htable cls))]>
                         (vm_classes vm)).
  { rewrite Hbound. cbn [snd]. unfold gravity_class_bind. rewrite Hcls. reflexivity. }
  assert (Hlookup : gravity_class_lookup (snd bound) c key
                    = Some (VALUE_FROM_OBJECT KClosure closure)).
  { unfold gravity_class_lookup. cbn [class_lookup_walk]. rewrite Hclasses.
    rewrite lookup_insert_eq. cbn [c_htable class_with_htable].
    rewrite lookup_insert_eq. reflexivity. }
  split; [rewrite Hbound; reflexivity|]. split; [exact Hlookup|].
  subst unbound receiver. unfold object_unbind. change (2 <? 2) with false. cbv iota.
  cbn [arg nth GetClass].
  replace (vm_instances (snd bound)) with (vm_instances vm)
    by (rewrite Hbound; cbn [snd]; unfold gravity_class_bind; rewrite Hcls; reflexivity).
  rewrite Hp. cbn [fmap option_fmap option_map mbind option_bind]. fold c.
  assert (Hcls1 : vm_classes (snd bound) !! c
                  = Some (class_with_htable cls
                            (<[key := VALUE_FROM_OBJECT KClosure closure]> (c_htable cls))))
    by (rewrite Hclasses; apply lookup_insert_eq).
  rewrite Hcls1. cbn [fmap option_fmap option_map]. rewrite Hlookup. cbn [fst snd].
  rewrite clear_context_classes. cbn [vm_classes vm_closures set_classes].
  split; [reflexivity|]. split.
  - rewrite Hclasses, insert_insert_eq. cbn [c_htable class_with_htable].
    rewrite delete_insert_eq, (delete_id _ _ Hkey).
    unfold class_with_htable at 1.
    cbn [c_identifier c_superclass c_objclass c_nivars c_ivars c_htable c_is_inited
         c_is_struct c_xdata class_with_htable].
    fold (class_with_htable cls (c_htable cls)).
    rewrite class_with_htable_id. apply insert_id. exact Hcls.
  - unfold clear_context.
    destruct (vm_closures (snd bound) !! closure) as [cl|] eqn:Hcl.
    + cbn [vm_closures set_closures]. rewrite lookup_insert_eq. reflexivity.
    + rewrite Hcl. reflexivity.
Qed.

(** ** String: count *)

Lemma string_count_loop_single (c : ascii) (main_str : string) (count : Z) :
  0 <= count ->
  count + Z.of_nat (String.length main_str) < 2 ^ 31 ->
  string_count_loop main_str (String c EmptyString) 0 count
  = count + Z.of_nat (occurrences c main_str).
Proof.
  revert count. induction main_str as [|x rest IH]; intros count Hcount Hlen.
  - cbn. lia.
  - cbn [string_count_loop String.length] in *. unfold char_at.
    change (Z.to_nat 0) with O. cbn [String.get].
    unfold occurrences. cbn [list_ascii_of_string count_occ].
    change (to_uint32 0 =? to_uint32 (Z.of_nat 1 - 1)) with true.
    cbv iota. destruct (Ascii.eqb_spec x c) as [->|Hne].
    + destruct (ascii_dec c c) as [_|Hcc]; [|congruence].
      rewrite to_int32_small by lia. rewrite IH by lia. unfold occurrences. lia.
    + destruct (ascii_dec x c) as [Heq|_]; [congruence|].
      rewrite IH by lia. unfold occurrences. lia.
Qed.

(** X23: with a search string of one byte, [string_count] returns the
    number of bytes of the receiver equal to it.  With a longer search
    string it can miss occurrences: for two different bytes [a] and [b] it
    finds no "ab" in "aab". *)
Theorem string_count_single_byte (vm : gravity_vm) (main_str : string) (c : ascii)
  (rindex : nat) :
  Z.of_nat (String.length main_str) < 2 ^ 31 ->
  string_count vm [VALUE_FROM_STRING main_str; VALUE_FROM_STRING (String c EmptyString)]
    2 rindex
  = (RETURN_VALUE (from_int (Z.of_nat (occurrences c main_str))) rindex, vm)
  /\ forall a b : ascii,
       a <> b ->
       string_count vm
         [VALUE_FROM_STRING (String a (String a (String b EmptyString)));
          VALUE_FROM_STRING (String a (String b EmptyString))] 2 rindex
       = (RETURN_VALUE (from_int 0) rindex, vm).
Proof.
  intros Hlen. split.
  - unfold string_count. cbn [arg nth]. change (2 =? 2) with true. cbn [negb].
    rewrite string_count_loop_single by lia. reflexivity.
  - intros a b Hab.
    unfold string_count. cbn [arg nth]. change (2 =? 2) with true. cbn [negb].
    do 3 f_equal. cbn [string_count_loop]. unfold char_at.
    change (Z.to_nat 0) with O. cbn [String.get String.length].
    rewrite Ascii.eqb_refl.
    change (to_uint32 0 =? to_uint32 (Z.of_nat 2 - 1)) with false. cbv iota.
    change (Z.to_nat (to_int32 (0 + 1))) with 1%nat. cbn [String.get].
    assert (Hne : Ascii.eqb a b = false) by (apply Ascii.eqb_neq; exact Hab).
    rewrite Hne. change (Z.to_nat 0) with O. cbn [String.get].
    rewrite Ascii.eqb_sym, Hne. reflexivity.
Qed.

End MoreProperties.

Section JoinSearchProperties.

Context (H : gravity_host).

(** ** List: join *)

Lemma append_assoc (a b c : string) : ((a ++ b) ++ c = a ++ (b ++ c))%string.
Proof.
  induction a as [|x a IH]; [reflexivity|].
  change (String x ((a ++ b) ++ c) = String x (a ++ (b ++ c)))%string.
  f_equal. exact IH.
Qed.

Lemma append_empty_r (a : string) : (a ++ EmptyString = a)%string.
Proof.
  induction a as [|x a IH]; [reflexivity|].
  change (String x (a ++ EmptyString) = String x a)%string.
  f_equal. exact IH.
Qed.

Lemma list_join_from_strings (vm : gravity_vm) (l : ref) (sep : string)
  (strs : list string) :
  vm_lists vm !! l = Some (VALUE_FROM_STRING <$> strs) ->
  forall (k : nat) (buffer : string) (i : Z),
    0 <= i ->
    Z.of_nat (length strs) - i = Z.of_nat k ->
    list_join_from H vm l sep buffer i (Z.of_nat (length strs))
    = (inr (buffer ++ String.concat sep (drop (Z.to_nat i) strs))%string, vm).
Proof.
  intros Hl k. induction k as [|k IH]; intros buffer i Hi Hk.
  - simp list_join_from.
    destruct (Z_lt_dec i (Z.of_nat (length strs))) as [Hlt|Hge]; [lia|].
    simpl. rewrite drop_ge by lia. cbn [String.concat]. rewrite append_empty_r.
    reflexivity.
  - simp list_join_from.
    destruct (Z_lt_dec i (Z.of_nat (length strs))) as [Hlt|Hge]; [|lia].
    simpl.
    destruct (lookup_lt_is_Some_2 strs (Z.to_nat i) ltac:(lia)) as [s Hs].
    assert (Hget : array_get vm l i = VALUE_FROM_STRING s).
    { rewrite (array_get_lookup _ _ _ _ Hl). apply nth_lookup_Some.
      rewrite list_lookup_fmap, Hs. reflexivity. }
    assert (Hstep : list_join_step H vm l sep buffer i (Z.of_nat (length strs))
                    = (inr (if (i + 1 <? Z.of_nat (length strs))
                               && negb (Nat.eqb (String.length sep) 0)
                            then ((buffer ++ s) ++ sep)%string
                            else (buffer ++ s)%string), vm)).
    { unfold list_join_step. rewrite Hget. reflexivity. }
    rewrite Hstep. simpl. rewrite IH by lia. do 2 f_equal.
    replace (Z.to_nat (i + 1)) with (S (Z.to_nat i)) by lia.
    rewrite (drop_S _ _ _ Hs).
    destruct (i + 1 <? Z.of_nat (length strs)) eqn:Hnext.
    + apply Z.ltb_lt in Hnext.
      destruct (drop (S (Z.to_nat i)) strs) as [|t rest] eqn:Hdrop.
      { apply (f_equal length) in Hdrop. rewrite length_drop in Hdrop.
        cbn [length] in Hdrop. lia. }
      change (String.concat sep (s :: t :: rest))
        with (s ++ sep ++ String.concat sep (t :: rest))%string.
      destruct (Nat.eqb (String.length sep) 0) eqn:Hsep; cbn [andb negb].
      * apply Nat.eqb_eq in Hsep. destruct sep; [|discriminate].
        cbn [String.append]. apply append_assoc.
      * rewrite !append_assoc. reflexivity.
    + apply Z.ltb_ge in Hnext. cbn [andb]. rewrite drop_ge by lia.
      cbn [String.concat]. rewrite append_empty_r. reflexivity.
Qed.

(** X24: [list_join] on a list of Strings returns their texts in the order
    of the list, with the separator between each two of them; the machine is
    as it was. *)
Theorem list_join_concatenates (vm : gravity_vm) (l : ref) (strs : list string)
  (sep : string) (rindex : nat) :
  vm_lists vm !! l = Some (VALUE_FROM_STRING <$> strs) ->
  Z.of_nat (length strs) < 2 ^ 32 ->
  list_join H vm [VALUE_FROM_OBJECT KList l; VALUE_FROM_STRING sep] 2 rindex
  = (RETURN_VALUE (VALUE_FROM_STRING (String.concat sep strs)) rindex, vm).
Proof.
  intros Hl Hcount. unfold list_join. cbn [arg nth].
  rewrite (VALUE_AS_LIST_lookup _ _ _ Hl). change (1 <? 2) with true. cbv iota.
  unfold getCount. rewrite length_fmap. rewrite to_uint32_small by lia.
  rewrite (list_join_from_strings vm l sep strs Hl (length strs)) by lia.
  reflexivity.
Qed.

(** ** List: contains and indexOf *)

Section Equality.

Variable equals : gravity_vm -> GravityValue -> GravityValue -> bool.

Lemma list_search_from_first (vm : gravity_vm) (l : ref) (array : list GravityValue)
  (element : GravityValue) :
  vm_lists vm !! l = Some array ->
  forall (k : nat) (i : Z),
    0 <= i ->
    getCount array - i = Z.of_nat k ->
    match list_search_from equals vm l element i (getCount array) with
    | Some found =>
        i <= found < getCount array
        /\ equals vm (nth (Z.to_nat found) array from_null) element = true
        /\ forall j, i <= j < found ->
                     equals vm (nth (Z.to_nat j) array from_null) element = false
    | None =>
        forall j, i <= j < getCount array ->
                  equals vm (nth (Z.to_nat j) array from_null) element = false
    end.
Proof.
  intros Hl k. induction k as [|k IH]; intros i Hi Hk.
  - simp list_search_from. destruct (Z_lt_dec i (getCount array)) as [Hlt|Hge]; [lia|].
    simpl. intros j Hj. lia.
  - simp list_search_from. destruct (Z_lt_dec i (getCount array)) as [Hlt|Hge]; [|lia].
    simpl. rewrite (array_get_lookup _ _ _ _ Hl).
    destruct (equals vm (nth (Z.to_nat i) array from_null) element) eqn:Heq; simpl.
    + split; [lia|]. split; [exact Heq|]. intros j Hj. lia.
    + specialize (IH (i + 1) ltac:(lia) ltac:(lia)).
      destruct (list_search_from equals vm l element (i + 1) (getCount array))
        as [found|].
      * destruct IH as (Hfound & Hhit & Hbefore). split; [lia|]. split; [exact Hhit|].
        intros j Hj. destruct (Z.eq_dec j i) as [->|Hne]; [exact Heq|].
        apply Hbefore. lia.
      * intros j Hj. destruct (Z.eq_dec j i) as [->|Hne]; [exact Heq|].
        apply IH. lia.
Qed.

(** X25: whatever the equality of values is, [list_indexOf] returns the
    index of the first element equal to the one asked for, or -1 when no
    element is equal to it, and [list_contains] answers true exactly when
    that index is not -1. *)
Theorem list_contains_agrees_with_indexOf (vm : gravity_vm) (l : ref)
  (array : list GravityValue) (element : GravityValue) (rindex : nat) :
  vm_lists vm !! l = Some array ->
  getCount array < 2 ^ 32 ->
  exists (found : bool) (index : Z),
    list_contains equals vm [VALUE_FROM_OBJECT KList l; element] 2 rindex
    = (RETURN_VALUE (VALUE_FROM_BOOL found) rindex, vm)
    /\ list_indexOf equals vm [VALUE_FROM_OBJECT KList l; element] 2 rindex
       = (RETURN_VALUE (from_int index) rindex, vm)
    /\ (found = true <-> index <> -1)
    /\ (index <> -1 ->
        0 <= index < getCount array
        /\ equals vm (nth (Z.to_nat index) array from_null) element = true
        /\ forall j, 0 <= j < index ->
                     equals vm (nth (Z.to_nat j) array from_null) element = false)
    /\ (index = -1 ->
        forall j, 0 <= j < getCount array ->
                  equals vm (nth (Z.to_nat j) array from_null) element = false).
Proof.
  intros Hl Hcount. unfold list_contains, list_indexOf. cbn [arg nth].
  rewrite (VALUE_AS_LIST_lookup _ _ _ Hl).
  rewrite to_uint32_small by (unfold getCount in *; lia).
  pose proof (list_search_from_first vm l array element Hl (length array) 0 ltac:(lia)
                ltac:(unfold getCount; lia)) as Hsearch.
  destruct (list_search_from equals vm l element 0 (getCount array)) as [index|].
  - destruct Hsearch as (Hindex & Hhit & Hbefore).
    exists true, index. split; [reflexivity|]. split; [reflexivity|].
    split; [split; [lia | reflexivity]|]. split; [auto | lia].
  - exists false, (-1). split; [reflexivity|]. split; [reflexivity|].
    split; [split; [discriminate | lia]|]. split; [lia | auto].
Qed.

End Equality.

End JoinSearchProperties.

(** * The further properties on the concrete machine *)

(** X1, witness: the last element of the list [3,1,2] is at index -1, and
    index 3 is out of bounds. *)
Lemma list_loadat_bounds_demo :
  list_loadat demo_host demo_vm [the_list; from_int (-1)] 2 0%nat
  = (RETURN_VALUE (from_int 2) 0%nat, demo_vm)
  /\ exists msg,
       list_loadat demo_host demo_vm [the_list; from_int 3] 2 0%nat
       = (RETURN_ERROR msg, demo_vm).
Proof.
  split.
  - apply (list_loadat_bounds demo_host demo_vm 0%nat
             [from_int 3; from_int 1; from_int 2] (-1) [] 2 0%nat);
      [reflexivity | reflexivity | lia | unfold getCount; cbn [length]; lia].
  - apply (list_loadat_bounds demo_host demo_vm 0%nat
             [from_int 3; from_int 1; from_int 2] 3 [] 2 0%nat);
      [reflexivity | reflexivity | lia | unfold getCount; cbn [length]; lia].
Defined.


(** X3, witness: pushing 9 on the list [3,1,2] and popping it. *)
Lemma list_push_then_pop_demo :
  list_push demo_vm [the_list; from_int 9] 2 0%nat
  = (RETURN_VALUE (from_int 4) 0%nat,
     with_list demo_vm 0%nat [from_int 3; from_int 1; from_int 2; from_int 9])
  /\ list_pop (snd (list_push demo_vm [the_list; from_int 9] 2 0%nat)) [the_list] 1 0%nat
     = (RETURN_VALUE (from_int 9) 0%nat, demo_vm).
Proof.
  apply (list_push_then_pop demo_vm 0%nat [from_int 3; from_int 1; from_int 2]
           (from_int 9) [] 2 0%nat).
  reflexivity.
Defined.

(** X4, witness: removing index 1 of the list [3,1,2]. *)
Lemma list_remove_shifts_down_demo :
  exists array',
    list_remove demo_host demo_vm [the_list; from_int 1] 2 0%nat
    = (RETURN_VALUE the_list 0%nat, with_list demo_vm 0%nat array')
    /\ getCount array' = 2
    /\ forall j : nat,
         array' !! j
         = if (Z.of_nat j <? 1) then [from_int 3; from_int 1; from_int 2] !! j
           else [from_int 3; from_int 1; from_int 2] !! S j.
Proof.
  apply (list_remove_shifts_down demo_host demo_vm 0%nat
           [from_int 3; from_int 1; from_int 2] 1 [] 2 0%nat);
    [reflexivity | unfold getCount; cbn [length]; lia].
Defined.

(** X5, witness: iterating the list [3,1,2]. *)
Lemma list_iteration_visits_elements_demo :
  for_in (list_iterator demo_host) (list_iterator_next demo_host) 4 demo_vm the_list
    from_null
  = [from_int 3; from_int 1; from_int 2].
Proof.
  apply (list_iteration_visits_elements demo_host demo_vm 0%nat
           [from_int 3; from_int 1; from_int 2] 4%nat);
    [reflexivity | reflexivity | cbn [length]; lia].
Defined.

(** X6, witness: reversing the list [3,1,2] twice. *)
Lemma list_reverse_reverses_in_place_demo :
  list_reverse demo_vm [the_list] 1 0%nat
  = (RETURN_VALUE the_list 0%nat,
     with_list demo_vm 0%nat [from_int 2; from_int 1; from_int 3])
  /\ list_reverse (snd (list_reverse demo_vm [the_list] 1 0%nat)) [the_list] 1 0%nat
     = (RETURN_VALUE the_list 0%nat, demo_vm).
Proof.
  apply (list_reverse_reverses_in_place demo_vm 0%nat
           [from_int 3; from_int 1; from_int 2] 0%nat).
  reflexivity.
Defined.

(** X7, witness: the reversed copy of the list [3,1,2]. *)
Lemma list_reversed_is_a_reversed_copy_demo :
  exists newlist : ref,
    vm_lists demo_vm !! newlist = None
    /\ list_reversed demo_vm [the_list] 1 0%nat
       = (RETURN_VALUE (VALUE_FROM_OBJECT KList newlist) 0%nat,
          with_list demo_vm newlist [from_int 2; from_int 1; from_int 3])
    /\ vm_lists (with_list demo_vm newlist [from_int 2; from_int 1; from_int 3]) !! 0%nat
       = Some [from_int 3; from_int 1; from_int 2].
Proof.
  apply (list_reversed_is_a_reversed_copy demo_vm 0%nat
           [from_int 3; from_int 1; from_int 2] 0%nat).
  reflexivity.
Defined.

Lemma script_host_computes (closure : ref) (self : GravityValue) :
  closure_computes script_host closure self (script closure).
Proof. intros vm params. repeat split. Defined.

(** X8, witness: the loop over the list [3,1,2]. *)
Lemma list_loop_calls_each_element_demo :
  (exists t,
      fst (list_loop script_host demo_vm [the_list; VALUE_FROM_OBJECT KClosure 6%nat] 2 0%nat)
      = RETURN_VALUE (from_int t) 0%nat)
  /\ vm_calls
       (snd (list_loop script_host demo_vm [the_list; VALUE_FROM_OBJECT KClosure 6%nat]
               2 0%nat))
     = [(6%nat, the_list, [from_int 3]); (6%nat, the_list, [from_int 1]);
        (6%nat, the_list, [from_int 2])].
Proof.
  apply (list_loop_calls_each_element script_host demo_vm 0%nat 6%nat
           [from_int 3; from_int 1; from_int 2] (script 6%nat) [] 2 0%nat);
    [lia | reflexivity | reflexivity | apply script_host_computes].
Defined.

(** X9, witness: the successors of the list [3,1,2]. *)
Lemma list_map_applies_closure_demo :
  exists newlist : ref,
    vm_lists demo_vm !! newlist = None
    /\ fst (list_map script_host demo_vm [the_list; VALUE_FROM_OBJECT KClosure 6%nat] 2 0%nat)
       = RETURN_VALUE (VALUE_FROM_OBJECT KList newlist) 0%nat
    /\ vm_lists
         (snd (list_map script_host demo_vm [the_list; VALUE_FROM_OBJECT KClosure 6%nat]
                 2 0%nat))
       = <[newlist := [from_int 4; from_int 2; from_int 3]]> (vm_lists demo_vm).
Proof.
  apply (list_map_applies_closure script_host demo_vm 0%nat 6%nat
           [from_int 3; from_int 1; from_int 2] successor 0%nat);
    [reflexivity | reflexivity | apply (script_host_computes 6%nat)].
Defined.

(** X10, witness: the elements of the list [3,1,2] greater than 1. *)
Lemma list_filter_keeps_accepted_demo :
  exists newlist : ref,
    vm_lists demo_vm !! newlist = None
    /\ fst (list_filter script_host demo_vm [the_list; VALUE_FROM_OBJECT KClosure 7%nat]
              2 0%nat)
       = RETURN_VALUE (VALUE_FROM_OBJECT KList newlist) 0%nat
    /\ vm_lists
         (snd (list_filter script_host demo_vm [the_list; VALUE_FROM_OBJECT KClosure 7%nat]
                 2 0%nat))
       = <[newlist := [from_int 3; from_int 2]]> (vm_lists demo_vm).
Proof.
  apply (list_filter_keeps_accepted script_host demo_vm 0%nat 7%nat
           [from_int 3; from_int 1; from_int 2] greater_than_one 0%nat);
    [reflexivity | reflexivity | apply (script_host_computes 7%nat)].
Defined.

(** X11, witness: the sum of the list [3,1,2], from 10. *)
Lemma list_reduce_folds_left_demo :
  fst (list_reduce script_host demo_vm
         [the_list; from_int 10; VALUE_FROM_OBJECT KClosure 8%nat] 3 0%nat)
  = RETURN_VALUE (from_int 16) 0%nat
  /\ vm_lists
       (snd (list_reduce script_host demo_vm
               [the_list; from_int 10; VALUE_FROM_OBJECT KClosure 8%nat] 3 0%nat))
     = vm_lists demo_vm.
Proof.
  apply (list_reduce_folds_left script_host demo_vm 0%nat 8%nat
           [from_int 3; from_int 1; from_int 2] add_values (from_int 10) 0%nat);
    [reflexivity | reflexivity | apply (script_host_computes 8%nat)].
Defined.

(** X12, witness: iterating the range from 1 to 5. *)
Lemma range_iteration_is_ascending_demo :
  for_in (range_iterator demo_host) range_iterator_next 7 demo_vm the_range from_null
  = [from_int 1; from_int 2; from_int 3; from_int 4; from_int 5]
  /\ forall n : Z,
       range_contains demo_host demo_vm [the_range; from_int n] 2 0%nat
       = (RETURN_VALUE
            (VALUE_FROM_BOOL
               (bool_decide
                  (from_int n ∈ [from_int 1; from_int 2; from_int 3; from_int 4; from_int 5])))
            0%nat, demo_vm).
Proof.
  apply (range_iteration_is_ascending demo_host demo_vm 0%nat 1 5 7%nat 0%nat);
    [reflexivity | reflexivity | lia | reflexivity | lia].
Defined.


(** X14, witness: the loop over the range from 5 down to 1. *)
Lemma range_loop_calls_match_count_demo :
  (exists t,
      fst (range_loop demo_host descending_vm [the_range; a_closure] 2 0%nat)
      = RETURN_VALUE (from_int t) 0%nat)
  /\ vm_calls (snd (range_loop demo_host descending_vm [the_range; a_closure] 2 0%nat))
     = [(5%nat, the_range, [from_int 5]); (5%nat, the_range, [from_int 4]);
        (5%nat, the_range, [from_int 3]); (5%nat, the_range, [from_int 2]);
        (5%nat, the_range, [from_int 1])]
  /\ range_count descending_vm [the_range] 1 0%nat
     = (RETURN_VALUE (from_int 5) 0%nat, descending_vm).
Proof.
  apply (range_loop_calls_match_count demo_host descending_vm 0%nat 5%nat 5 1 [] 2 0%nat);
    [lia | reflexivity | unfold INT64_MIN, INT64_MAX; lia | unfold INT64_MAX; lia
    | vm_compute; repeat split].
Defined.

(** X16, witness: -7 divided by 2. *)
Lemma operator_int_div_rem_recombine_demo :
  exists q r : Z,
    operator_int_div demo_host demo_vm [from_int (-7); from_int 2] 2 0%nat
    = (RETURN_VALUE (from_int q) 0%nat, demo_vm)
    /\ operator_int_rem demo_host demo_vm [from_int (-7); from_int 2] 2 0%nat
       = (RETURN_VALUE (from_int r) 0%nat, demo_vm)
    /\ (exists m : Z,
           operator_int_mul demo_host demo_vm [from_int q; from_int 2] 2 0%nat
           = (RETURN_VALUE (from_int m) 0%nat, demo_vm)
           /\ operator_int_add demo_host demo_vm [from_int m; from_int r] 2 0%nat
              = (RETURN_VALUE (from_int (-7)) 0%nat, demo_vm))
    /\ Z.abs r < Z.abs 2
    /\ 0 <= r * -7.
Proof.
  apply (operator_int_div_rem_recombine demo_host demo_vm (-7) 2 2 0%nat);
    unfold INT64_MIN, INT64_MAX; lia.
Defined.

(** X18, witness: the loop of the integer 3. *)
Lemma int_loop_counts_from_zero_demo :
  (exists t,
      fst (int_loop demo_host demo_vm [from_int 3; a_closure] 2 0%nat)
      = RETURN_VALUE (from_int t) 0%nat)
  /\ vm_calls (snd (int_loop demo_host demo_vm [from_int 3; a_closure] 2 0%nat))
     = [(5%nat, from_int 3, [from_int 0]); (5%nat, from_int 3, [from_int 1]);
        (5%nat, from_int 3, [from_int 2])].
Proof.
  apply (int_loop_counts_from_zero demo_host demo_vm 3 5%nat [] 2 0%nat);
    [lia | intros vm' i; reflexivity].
Defined.

(** X19, witness: the first fiber calls the third one, which yields and is
    called again. *)
Lemma fiber_call_yield_call_demo :
  (fst (fiber_exec demo_host idle_vm [idle_fiber] 1 0%nat) = RETURN_FIBER
   /\ gravity_vm_fiber (snd (fiber_exec demo_host idle_vm [idle_fiber] 1 0%nat)) = 2%nat)
  /\ (fst (fiber_yield demo_host (snd (fiber_exec demo_host idle_vm [idle_fiber] 1 0%nat))
             [] 1 0%nat) = RETURN_FIBER
      /\ gravity_vm_fiber
           (snd (fiber_yield demo_host
                   (snd (fiber_exec demo_host idle_vm [idle_fiber] 1 0%nat)) [] 1 0%nat))
         = 0%nat)
  /\ (fst (fiber_exec demo_host
             (snd (fiber_yield demo_host
                     (snd (fiber_exec demo_host idle_vm [idle_fiber] 1 0%nat)) [] 1 0%nat))
             [idle_fiber] 1 0%nat) = RETURN_FIBER
      /\ gravity_vm_fiber
           (snd (fiber_exec demo_host
                   (snd (fiber_yield demo_host
                           (snd (fiber_exec demo_host idle_vm [idle_fiber] 1 0%nat))
                           [] 1 0%nat))
                   [idle_fiber] 1 0%nat))
         = 2%nat).
Proof.
  apply (fiber_call_yield_call demo_host idle_vm 2%nat
           (demo_fiber None FIBER_NEVER_EXECUTED float_zero) [] 1 0%nat);
    reflexivity.
Defined.

(** X20, witness: the second fiber of the concrete machine is running. *)
Lemma fiber_done_agrees_with_status_demo :
  exists (done : bool) (code : Z),
    fiber_done demo_vm [the_called_fiber] 1 0%nat
    = (RETURN_VALUE (VALUE_FROM_BOOL done) 0%nat, demo_vm)
    /\ fiber_status demo_vm [the_called_fiber] 1 0%nat
       = (RETURN_VALUE (from_int code) 0%nat, demo_vm)
    /\ (done = true -> code = 2)
    /\ (done = false -> code = 3).
Proof.
  apply (fiber_done_agrees_with_status demo_vm 1%nat
           (demo_fiber (Some 0%nat) FIBER_RUNNING float_zero) 1 0%nat).
  reflexivity.
Defined.

(** X21, witness: unbinding the conversion to String on an instance of
    Object takes it out of the table of Object. *)
Lemma object_unbind_reaches_core_classes_demo :
  c_htable <$> vm_classes demo_vm !! 0%nat = Some object_htable
  /\ fst (object_unbind demo_host demo_vm [the_object; VALUE_FROM_STRING "String"] 2 0%nat)
     = RETURN_NOVALUE
  /\ exists cls',
       vm_classes
         (snd (object_unbind demo_host demo_vm [the_object; VALUE_FROM_STRING "String"]
                 2 0%nat)) !! 0%nat = Some cls'
       /\ c_htable cls' !! "String"%string = None
       /\ forall name, name <> "String"%string ->
                       c_htable cls' !! name = object_htable !! name.
Proof.
  split; [reflexivity|].
  apply (object_unbind_reaches_core_classes demo_host demo_vm the_object 0%nat
           (demo_class "Object" None 1%nat 0 object_htable) "String" [] 2 0%nat);
    [lia | reflexivity | reflexivity | reflexivity].
Defined.

(** X22, witness: binding and unbinding "describe" on the Point. *)
Lemma object_bind_then_unbind_demo :
  fst (object_bind anon_host demo_vm [the_point; VALUE_FROM_STRING "describe"; a_closure]
         3 0%nat) = RETURN_NOVALUE
  /\ gravity_class_lookup
       (snd (object_bind anon_host demo_vm
               [the_point; VALUE_FROM_STRING "describe"; a_closure] 3 0%nat))
       20%nat "describe" = Some a_closure
  /\ fst (object_unbind anon_host
            (snd (object_bind anon_host demo_vm
                    [the_point; VALUE_FROM_STRING "describe"; a_closure] 3 0%nat))
            [the_point; VALUE_FROM_STRING "describe"] 2 0%nat) = RETURN_NOVALUE
  /\ vm_classes
       (snd (object_unbind anon_host
               (snd (object_bind anon_host demo_vm
                       [the_point; VALUE_FROM_STRING "describe"; a_closure] 3 0%nat))
               [the_point; VALUE_FROM_STRING "describe"] 2 0%nat))
     = vm_classes demo_vm
  /\ (vm_closures
        (snd (object_unbind anon_host
                (snd (object_bind anon_host demo_vm
                        [the_point; VALUE_FROM_STRING "describe"; a_closure] 3 0%nat))
                [the_point; VALUE_FROM_STRING "describe"] 2 0%nat)) !! 5%nat
      ≫= cl_context) = None.
Proof.
  apply (object_bind_then_unbind anon_host demo_vm 0%nat
           {| i_objclass := 20%nat; i_xdata := None; i_ivars := [from_int 7] |}
           (demo_class "Point" (Some 0%nat) 21%nat 1 ∅) "describe" 5%nat 0%nat);
    reflexivity.
Defined.

(** X23, witness: the three bytes "a" of "banana". *)
Lemma string_count_single_byte_demo :
  string_count demo_vm [VALUE_FROM_STRING "banana"; VALUE_FROM_STRING "a"] 2 0%nat
  = (RETURN_VALUE (from_int 3) 0%nat, demo_vm)
  /\ forall a b : ascii,
       a <> b ->
       string_count demo_vm
         [VALUE_FROM_STRING (String a (String a (String b EmptyString)));
          VALUE_FROM_STRING (String a (String b EmptyString))] 2 0%nat
       = (RETURN_VALUE (from_int 0) 0%nat, demo_vm).
Proof.
  apply (string_count_single_byte demo_vm "banana" "a"%char 0%nat).
  reflexivity.
Defined.

(** X24, witness: joining "a", "bc" and "d" with ", ". *)
Lemma list_join_concatenates_demo :
  list_join demo_host words_vm [VALUE_FROM_OBJECT KList 1%nat; VALUE_FROM_STRING ", "] 2 0%nat
  = (RETURN_VALUE (VALUE_FROM_STRING "a, bc, d") 0%nat, words_vm).
Proof.
  apply (list_join_concatenates demo_host words_vm 1%nat ["a"; "bc"; "d"]%string ", " 0%nat);
    reflexivity.
Defined.

(** X25, witness: searching the list [3,1,2] with the equality of the
    tagged values. *)
Lemma list_contains_agrees_with_indexOf_demo :
  exists (found : bool) (index : Z),
    list_contains (fun _ a b => bool_decide (a = b)) demo_vm [the_list; from_int 1] 2 0%nat
    = (RETURN_VALUE (VALUE_FROM_BOOL found) 0%nat, demo_vm)
    /\ list_indexOf (fun _ a b => bool_decide (a = b)) demo_vm [the_list; from_int 1] 2 0%nat
       = (RETURN_VALUE (from_int index) 0%nat, demo_vm)
    /\ (found = true <-> index <> -1).
Proof.
  destruct (list_contains_agrees_with_indexOf (fun _ a b => bool_decide (a = b)) demo_vm
              0%nat [from_int 3; from_int 1; from_int 2] (from_int 1) 0%nat
              eq_refl eq_refl) as (found & index & Hc & Hi & Hiff & _).
  exists found, index. repeat split; try assumption; apply Hiff.
Defined.


(** ** The ends of the 64-bit range *)

(** On a range that ends at INT64_MAX the loop of [range_loop] invokes the
    closure on the two integers of the range and then steps its counter
    past INT64_MAX: the native does not return. *)
Lemma range_loop_past_INT64_MAX :
  fst (range_loop demo_host topmost_vm [the_range; a_closure] 2 0%nat) = INTEGER_OVERFLOW
  /\ vm_calls (snd (range_loop demo_host topmost_vm [the_range; a_closure] 2 0%nat))
     = [(5%nat, the_range, [from_int (INT64_MAX - 1)]); (5%nat, the_range, [from_int INT64_MAX])].
Proof. split; vm_compute; reflexivity. Qed.

(** On the same range the cursor that follows INT64_MAX is INT64_MIN: the
    iteration does not end there. *)
Lemma range_iterator_past_INT64_MAX :
  range_iterator demo_host topmost_vm [the_range; from_int INT64_MAX] 2 0%nat
  = (RETURN_VALUE (from_int INT64_MIN) 0%nat, topmost_vm).
Proof. vm_compute. reflexivity. Qed.

(** The division of INT64_MIN by -1 and its remainder do not return. *)
Lemma operator_int_div_rem_overflow :
  operator_int_div demo_host demo_vm [from_int INT64_MIN; from_int (-1)] 2 0%nat
  = (INTEGER_OVERFLOW, demo_vm)
  /\ operator_int_rem demo_host demo_vm [from_int INT64_MIN; from_int (-1)] 2 0%nat
     = (INTEGER_OVERFLOW, demo_vm).
Proof. split; vm_compute; reflexivity. Qed.

(** One second is less than a wait of five seconds, and six seconds are
    not. *)
Lemma elapsed_seconds_against_timewait :
  float_lt (elapsed_seconds 1000000000 0) (float_of_int 5) = true
  /\ float_lt (elapsed_seconds 6000000000 0) (float_of_int 5) = false.
Proof. split; vm_compute; reflexivity. Qed.

(** A fiber called three seconds into its wait of five seconds is not
    resumed: [fiber_run] returns without a value and the running fiber is
    the same. *)
Lemma fiber_run_inside_timewait :
  fst (fiber_run demo_host waiting_vm [VALUE_FROM_OBJECT KFiber 0%nat] 1 0%nat false)
  = RETURN_NOVALUE
  /\ vm_fiber (snd (fiber_run demo_host waiting_vm [VALUE_FROM_OBJECT KFiber 0%nat] 1 0%nat
                      false))
     = vm_fiber waiting_vm.
Proof. split; vm_compute; reflexivity. Qed.
